(** * HTTPproxy.py: a shallow embedding of the request-handling pipeline

    The proxy of [src/HTTPproxy.py] reads one request per client
    connection, classifies it ([parseRequest]), and either answers with a
    synthetic status line, runs an operator command ([handleCommand]) or
    forwards the request to the origin, optionally through the response
    cache ([handleRequest]).

    Python values are modelled as the interpreter has them: a [str] is a
    sequence of Unicode code points, a [bytes] object a sequence of bytes,
    an [int] an unbounded integer, an uncaught exception a [Raise] result
    that keeps whatever effects happened before it. The two
    [threading.Lock] objects are part of the process state: a handler
    that raises between [acquire()] and [release()] leaves its lock held,
    and a later [acquire()] of that lock does not return. *)

From Stdlib Require Import ZArith NArith List Bool Lia.
From Stdlib Require Import Strings.String Strings.Ascii Strings.Byte.
From Stdlib Require Import DecimalString.
From stdpp Require Import gmap.
Import ListNotations.

Local Open Scope Z_scope.

(** ** Python values *)

(** A [str] is a list of code points, a [bytes] a list of bytes. *)
Abbreviation pystr := (list N).
Abbreviation bytes := (list byte).

(** ASCII literals of the source. *)
Definition u (s : string) : pystr :=
  map (fun c => N_of_ascii c) (list_ascii_of_string s).

Definition b (s : string) : bytes := list_byte_of_string s.

Definition CR : N := 13%N.
Definition LF : N := 10%N.
Definition CRLF : pystr := [CR; LF].
Definition bCRLF : bytes := [x0d; x0a].

(** The exceptions the program can raise; none of them is caught anywhere
    in the source. *)
Inductive exn : Type :=
| IndexError
| ValueError
| TypeError
| AttributeError
| KeyError
| UnicodeDecodeError
| UnicodeEncodeError
| ReError
| OSError
| RuntimeError.

Inductive result (A : Type) : Type :=
| Ok (a : A)
| Raise (e : exn).
Arguments Ok {A} a.
Arguments Raise {A} e.

#[global] Instance result_ret : MRet result := fun A a => Ok a.

#[global] Instance result_bind : MBind result := fun A B k r =>
  match r with
  | Ok a => k a
  | Raise e => Raise e
  end.

(** ** [str] primitives *)

Definition str_eqb (s t : pystr) : bool := bool_decide (s = t).

Definition len {A} (l : list A) : Z := Z.of_nat (length l).

(** [s.startswith(p)] *)
Fixpoint startswith (s p : pystr) : bool :=
  match p, s with
  | [], _ => true
  | _ :: _, [] => false
  | c :: p', d :: s' => (c =? d)%N && startswith s' p'
  end.

(** [s.endswith(p)] *)
Definition endswith (s p : pystr) : bool :=
  startswith (rev s) (rev p).

(** [s.find(sub)]: the lowest index at which [sub] occurs, [-1] if none. *)
Fixpoint find_from (s sub : pystr) (i : Z) : Z :=
  if startswith s sub then i
  else match s with
       | [] => -1
       | _ :: s' => find_from s' sub (i + 1)
       end.

Definition find (s sub : pystr) : Z := find_from s sub 0.

(** [s.index(sub)]: as [find], but a missing [sub] is a [ValueError]. *)
Definition index (s sub : pystr) : result Z :=
  let i := find s sub in
  if i =? -1 then Raise ValueError else Ok i.

(** Slice bounds as Python clamps them: a negative bound counts from the
    end, and the result is cut to [0, len]. *)
Definition clamp (n i : Z) : nat :=
  let i' := if i <? 0 then i + n else i in
  Z.to_nat (Z.min n (Z.max 0 i')).

(** [s[:j]] and [s[i:]] *)
Definition slice_to {A} (s : list A) (j : Z) : list A :=
  firstn (clamp (len s) j) s.

Definition slice_from {A} (s : list A) (i : Z) : list A :=
  skipn (clamp (len s) i) s.

(** [s[i]]: a negative index counts from the end; out of range is an
    [IndexError]. *)
Definition getitem {A} (s : list A) (i : Z) : result A :=
  let i' := if i <? 0 then i + len s else i in
  if i' <? 0 then Raise IndexError
  else match nth_error s (Z.to_nat i') with
       | Some x => Ok x
       | None => Raise IndexError
       end.

(** [s.split(sep)] for a one-character separator: the pieces between the
    occurrences of [sep]; never empty. *)
Fixpoint split (sep : N) (s : pystr) : list pystr :=
  match s with
  | [] => [[]]
  | c :: s' =>
      if (c =? sep)%N then [] :: split sep s'
      else match split sep s' with
           | [] => [[c]]
           | w :: ws => (c :: w) :: ws
           end
  end.

(** The line boundaries of [str.splitlines]: LF, CR, VT, FF, FS, GS, RS,
    NEL, LS and PS; CR LF counts as one. *)
Definition is_linebreak (c : N) : bool :=
  existsb (N.eqb c) [10; 13; 11; 12; 28; 29; 30; 133; 8232; 8233]%N.

(** [s.splitlines()]: [cur] is the line being read, in reverse. A final
    line break does not open an empty last line. *)
Fixpoint splitlines_go (s : pystr) (cur : pystr) : list pystr :=
  match s with
  | [] => match cur with [] => [] | _ => [rev cur] end
  | c :: s' =>
      if is_linebreak c then
        match s' with
        | d :: s'' =>
            if (c =? CR)%N && (d =? LF)%N
            then rev cur :: splitlines_go s'' []
            else rev cur :: splitlines_go s' []
        | [] => [rev cur]
        end
      else splitlines_go s' (c :: cur)
  end.

Definition splitlines (s : pystr) : list pystr := splitlines_go s [].

(** [str(n)] for an [int]. *)
Definition str_of_int (n : Z) : pystr :=
  u (NilZero.string_of_int (Z.to_int n)).


(** ** The UTF-8 codec of [bytes.decode()] and [str.encode()] *)

Definition byte_of_N (n : N) : byte :=
  match Byte.of_N n with
  | Some x => x
  | None => x00
  end.

(** A continuation byte, [0x80..0xBF]. *)
Definition is_cont (n : N) : bool := ((128 <=? n) && (n <=? 191))%N.

Definition in_range (lo hi n : N) : bool := ((lo <=? n) && (n <=? hi))%N.

(** [data.decode()]: strict UTF-8. Overlong forms, surrogates, code points
    above U+10FFFF and truncated sequences are a [UnicodeDecodeError]. *)
Fixpoint decode (data : bytes) : result pystr :=
  match data with
  | [] => Ok []
  | c0 :: t0 =>
      let n0 := Byte.to_N c0 in
      if (n0 <? 128)%N then
        s ← decode t0; Ok (n0 :: s)
      else if in_range 194 223 n0 then
        match t0 with
        | c1 :: t1 =>
            let n1 := Byte.to_N c1 in
            if is_cont n1 then
              s ← decode t1; Ok (((n0 - 192) * 64 + (n1 - 128))%N :: s)
            else Raise UnicodeDecodeError
        | _ => Raise UnicodeDecodeError
        end
      else if in_range 224 239 n0 then
        match t0 with
        | c1 :: c2 :: t2 =>
            let n1 := Byte.to_N c1 in
            let n2 := Byte.to_N c2 in
            let lo := if (n0 =? 224)%N then 160%N else 128%N in
            let hi := if (n0 =? 237)%N then 159%N else 191%N in
            if in_range lo hi n1 && is_cont n2 then
              s ← decode t2;
              Ok (((n0 - 224) * 4096 + (n1 - 128) * 64 + (n2 - 128))%N :: s)
            else Raise UnicodeDecodeError
        | _ => Raise UnicodeDecodeError
        end
      else if in_range 240 244 n0 then
        match t0 with
        | c1 :: c2 :: c3 :: t3 =>
            let n1 := Byte.to_N c1 in
            let n2 := Byte.to_N c2 in
            let n3 := Byte.to_N c3 in
            let lo := if (n0 =? 240)%N then 144%N else 128%N in
            let hi := if (n0 =? 244)%N then 143%N else 191%N in
            if in_range lo hi n1 && is_cont n2 && is_cont n3 then
              s ← decode t3;
              Ok (((n0 - 240) * 262144 + (n1 - 128) * 4096
                   + (n2 - 128) * 64 + (n3 - 128))%N :: s)
            else Raise UnicodeDecodeError
        | _ => Raise UnicodeDecodeError
        end
      else Raise UnicodeDecodeError
  end.

(** The UTF-8 form of one code point; a surrogate (or a value that is no
    code point) is a [UnicodeEncodeError]. *)
Definition encode_char (c : N) : result bytes :=
  if (c <? 128)%N then Ok [byte_of_N c]
  else if (c <? 2048)%N then
    Ok [byte_of_N (192 + c / 64); byte_of_N (128 + c mod 64)]
  else if (c <? 65536)%N then
    if in_range 55296 57343 c then Raise UnicodeEncodeError
    else Ok [byte_of_N (224 + c / 4096); byte_of_N (128 + (c / 64) mod 64);
             byte_of_N (128 + c mod 64)]
  else if (c <? 1114112)%N then
    Ok [byte_of_N (240 + c / 262144); byte_of_N (128 + (c / 4096) mod 64);
        byte_of_N (128 + (c / 64) mod 64); byte_of_N (128 + c mod 64)]
  else Raise UnicodeEncodeError.

(** [s.encode()] *)
Fixpoint encode (s : pystr) : result bytes :=
  match s with
  | [] => Ok []
  | c :: s' => x ← encode_char c; y ← encode s'; Ok (x ++ y)
  end.


(** ** Dictionaries and the regular expressions written in the source *)

(** A [dict] of [str] to [str]. Iteration follows insertion order, and
    [buildMessage] serialises the headers in that order, so the order is
    kept: assigning to a key that is present keeps its place. *)
Abbreviation dict := (list (pystr * pystr)).

Fixpoint dict_set (d : dict) (k v : pystr) : dict :=
  match d with
  | [] => [(k, v)]
  | (k', v') :: d' =>
      if str_eqb k' k then (k', v) :: d' else (k', v') :: dict_set d' k v
  end.

(** [re.match(r"(HEAD|OPTIONS|TRACE|PUT|DELETE|POST|PATCH|CONNECT)", s)]:
    [re.match] anchors at the start only, so this is a prefix test. *)
Definition unimplemented_methods : list pystr :=
  map u ["HEAD"; "OPTIONS"; "TRACE"; "PUT"; "DELETE"; "POST"; "PATCH";
         "CONNECT"]%string.

Definition match_method (s : pystr) : bool :=
  existsb (startswith s) unimplemented_methods.

(** [re.match(r"^[A-Za-z0-9-]+$", s)]. [$] also matches just before a
    line feed that ends the string. *)
Definition is_name_char (c : N) : bool :=
  in_range 65 90 c || in_range 97 122 c || in_range 48 57 c || (c =? 45)%N.

Fixpoint name_rest (s : pystr) : bool :=
  match s with
  | [] => true
  | c :: s' =>
      if is_name_char c then name_rest s'
      else (c =? LF)%N && match s' with [] => true | _ => false end
  end.

Definition match_header_name (s : pystr) : bool :=
  match s with
  | [] => false
  | c :: s' => is_name_char c && name_rest s'
  end.

(** [re.match(r"^.+", s)]: [.] is any character but a line feed. *)
Definition match_header_data (s : pystr) : bool :=
  match s with
  | [] => false
  | c :: _ => negb (c =? LF)%N
  end.

(** ** The parsed request *)

Inductive ParseType : Type := REGULAR | NOTIMPL | BADREQ | COMMAND.

#[global] Instance ParseType_eq_dec : EqDecision ParseType.
Proof. solve_decision. Defined.

(** The tuple [(ParseType, host, port, path, headers)] that
    [parseRequest] returns; [None] is Python's [None]. *)
Record Request : Type := mkRequest {
  req_type : ParseType;
  req_host : option pystr;
  req_port : option Z;
  req_path : option pystr;
  req_headers : option dict
}.

(** ** The library functions the proxy calls

    [urllib.parse.urlparse] and [re.search] on a pattern supplied at run
    time are not part of the program. The embedding takes them as an
    interface, so every theorem quantified over a [PyLib] holds whatever
    the library does. [urlparse] may raise; of its result the proxy reads
    [scheme], [netloc], [path], and the properties [hostname] ([None] when
    the host is empty) and [port], which raises [ValueError] when the port
    is not a decimal number in [0, 65535]. [re.search] raises on a pattern
    that does not compile.

    The order in which [for netloc in blacklist] visits the elements of
    the set is the interpreter's choice (it depends on the hashes of the
    strings). It is part of the interface as well: [iteration] lists the
    elements of a set, each once, in some order, and a theorem quantified
    over a [PyLib] holds for every order. *)
Record ParseResult : Type := mkParseResult {
  scheme : pystr;
  netloc : pystr;
  path : pystr;
  hostname : option pystr;
  port : result (option Z)
}.

Class PyLib : Type := {
  urlparse : pystr -> result ParseResult;
  re_search : pystr -> pystr -> result bool;
  iteration : gset pystr -> list pystr;
  iteration_elements : forall s : gset pystr, iteration s ≡ₚ elements s
}.

Section Parser.

Context `{PL : PyLib}.

(** The proxy's listen address ([-a], default [localhost]). *)
Variable address : pystr.

(** The header loop of [parseRequest]; [None] is the [BADREQ] return from
    inside the loop. The conjunction is evaluated left to right, so
    [message[colonIndex+1]] is read only when the name matches. *)
Fixpoint parseHeaders (messageHeaders : list pystr) (headers : dict)
  : result (option dict) :=
  match messageHeaders with
  | [] => Ok (Some headers)
  | message :: rest =>
      if str_eqb message [] || str_eqb message (u " ")
         || str_eqb message (u "HTTP/1.0")
      then parseHeaders rest headers
      else
        let colonIndex := find message (u ":") in
        let headerName := slice_to message colonIndex in
        let headerData := slice_from message (colonIndex + 2) in
        valid ← (if match_header_name headerName then
                   c ← getitem message (colonIndex + 1);
                   Ok ((c =? 32)%N && match_header_data headerData)
                 else Ok false);
        if valid : bool
        then parseHeaders rest (dict_set headers headerName headerData)
        else Ok None
  end.

Definition badreq : Request := mkRequest BADREQ None None None None.
Definition notimpl : Request := mkRequest NOTIMPL None None None None.

Definition parseRequest (message : pystr) : result Request :=
  let splitMessage := split 32 message in
  method ← getitem splitMessage 0;
  if match_method method then Ok notimpl
  else
    bad ← (if negb (str_eqb method (u "GET")) then Ok true
           else if len splitMessage <? 3 then Ok true
           else version ← getitem splitMessage 2;
                Ok (negb (str_eqb (slice_to version 8) (u "HTTP/1.0"))));
    if bad : bool then Ok badreq
    else
      url ← getitem splitMessage 1;
      splitURL ← urlparse url;
      if str_eqb (scheme splitURL) [] || str_eqb (netloc splitURL) []
         || str_eqb (path splitURL) []
      then Ok badreq
      else
        let host := hostname splitURL in
        let path := path splitURL in
        explicit ← port splitURL;
        let port := match explicit with Some p => p | None => 80 end in
        if str_eqb (slice_to path 7) (u "/proxy/")
           && bool_decide (host = Some address)
        then Ok (mkRequest COMMAND None None (Some (slice_from path 7)) (Some []))
        else
          let rebuiltHeaders :=
            fold_left (fun acc tok => acc ++ tok ++ u " ")
                      (slice_from splitMessage 2) [] in
          let messageHeaders := splitlines rebuiltHeaders in
          parsed ← parseHeaders messageHeaders [];
          match parsed with
          | None => Ok badreq
          | Some headers =>
              Ok (mkRequest REGULAR host (Some port) (Some path) (Some headers))
          end.

End Parser.

(** ** A model of the library, for concrete requests

    [cpython_urlparse] follows CPython's [urllib.parse.urlparse] (3.10 to
    3.13) on the fields the proxy reads. It is exact on ASCII URLs whose
    network location has no brackets; left out are the NFKC check of a
    non-ASCII network location, the validation of a bracketed IP literal
    and the lower-casing of non-ASCII letters. *)
Module Model.

(** [s.partition(c)]: the text before the first [c], whether [c] was
    found, and the text after it. *)
Fixpoint partition (c : N) (s : pystr) : pystr * bool * pystr :=
  match s with
  | [] => ([], false, [])
  | d :: s' =>
      if (d =? c)%N then ([], true, s')
      else let '(x, found, y) := partition c s' in (d :: x, found, y)
  end.

(** The last component of [s.rpartition(c)]. *)
Definition after_last (c : N) (s : pystr) : pystr :=
  let '(y, found, _) := partition c (rev s) in
  if found : bool then rev y else s.

Definition contains (c : N) (s : pystr) : bool := existsb (N.eqb c) s.

Definition lower (s : pystr) : pystr :=
  map (fun c => if in_range 65 90 c then (c + 32)%N else c) s.

Definition is_alpha (c : N) : bool := in_range 65 90 c || in_range 97 122 c.
Definition is_digit (c : N) : bool := in_range 48 57 c.

Definition is_scheme_char (c : N) : bool :=
  is_alpha c || is_digit c || existsb (N.eqb c) (u "+-.").

(** [url.lstrip(_WHATWG_C0_CONTROL_OR_SPACE)] *)
Fixpoint lstrip_c0 (s : pystr) : pystr :=
  match s with
  | c :: s' => if (c <=? 32)%N then lstrip_c0 s' else s
  | [] => []
  end.

(** [_splitnetloc(url, 2)]: the network location runs to the first of
    [/], [?] and [#]. *)
Fixpoint span_netloc (s : pystr) : pystr * pystr :=
  match s with
  | [] => ([], [])
  | c :: s' =>
      if existsb (N.eqb c) (u "/?#") then ([], s)
      else let '(x, y) := span_netloc s' in (c :: x, y)
  end.

Definition uses_params : list pystr :=
  map u [""; "ftp"; "hdl"; "prospero"; "http"; "imap"; "https"; "shttp";
         "rtsp"; "rtspu"; "sip"; "sips"; "mms"; "sftp"; "tel"]%string.

(** The first component of [_splitparams(url)]: the parameters start at
    the first [;] of the last path segment. *)
Definition strip_params (url : pystr) : pystr :=
  let '(last_rev, slash, before_rev) := partition 47 (rev url) in
  let '(seg, _, _) := partition 59 (rev last_rev) in
  if slash : bool then rev before_rev ++ [47%N] ++ seg else seg.

(** [int(port)] for a string of ASCII digits. *)
Definition int_of_digits (s : pystr) : Z :=
  fold_left (fun acc c => 10 * acc + Z.of_N (c - 48)) s 0.

(** [_hostinfo]: the host and port parts of the network location. *)
Definition hostinfo (netloc : pystr) : pystr * pystr :=
  let info := after_last 64 netloc in
  let '(_, have_open_br, bracketed) := partition 91 info in
  if have_open_br : bool then
    let '(host, _, rest) := partition 93 bracketed in
    let '(_, _, port) := partition 58 rest in
    (host, port)
  else
    let '(host, _, port) := partition 58 info in
    (host, port).

Definition hostname_of (netloc : pystr) : option pystr :=
  match fst (hostinfo netloc) with
  | [] => None
  | host =>
      let '(name, percent, zone) := partition 37 host in
      Some (lower name ++ (if percent : bool then [37%N] else []) ++ zone)
  end.

Definition port_of (netloc : pystr) : result (option Z) :=
  match snd (hostinfo netloc) with
  | [] => Ok None
  | digits =>
      if forallb is_digit digits then
        let p := int_of_digits digits in
        if (0 <=? p) && (p <=? 65535) then Ok (Some p) else Raise ValueError
      else Raise ValueError
  end.

Definition cpython_urlparse (url0 : pystr) : result ParseResult :=
  let url := filter (fun c => negb (existsb (N.eqb c) [9; 13; 10]%N))
                    (lstrip_c0 url0) in
  let i := find url (u ":") in
  let '(scheme, url) :=
    if (0 <? i) && match url with c :: _ => is_alpha c | [] => false end
       && forallb is_scheme_char (slice_to url i)
    then (lower (slice_to url i), slice_from url (i + 1))
    else ([], url) in
  let '(netloc, url) :=
    if str_eqb (slice_to url 2) (u "//") then span_netloc (slice_from url 2)
    else ([], url) in
  if xorb (contains 91 netloc) (contains 93 netloc) then Raise ValueError
  else
    let '(url, _, _) := partition 35 url in
    let '(url, _, _) := partition 63 url in
    let url :=
      if existsb (str_eqb scheme) uses_params && contains 59 url
      then strip_params url else url in
    Ok (mkParseResult scheme netloc url (hostname_of netloc) (port_of netloc)).

(** [cpython_re_search] is [re.search] on the patterns made of ordinary
    characters, [.] and backslash-escaped punctuation, which is all the
    concrete scenarios use. Any other operator is outside the model, which
    answers [ReError] for it (as [re.search] does only when the pattern
    does not compile). *)
Inductive atom : Type := Lit (c : N) | AnyChar.

Definition is_operator (c : N) : bool := existsb (N.eqb c) (u "^$*+?{}[]()|").

Fixpoint compile (pattern : pystr) : result (list atom) :=
  match pattern with
  | [] => Ok []
  | c :: p' =>
      if (c =? 92)%N then
        match p' with
        | d :: p'' =>
            if is_alpha d || is_digit d then Raise ReError
            else atoms ← compile p''; Ok (Lit d :: atoms)
        | [] => Raise ReError
        end
      else if is_operator c then Raise ReError
      else if (c =? 46)%N then atoms ← compile p'; Ok (AnyChar :: atoms)
      else atoms ← compile p'; Ok (Lit c :: atoms)
  end.

Fixpoint match_here (atoms : list atom) (s : pystr) : bool :=
  match atoms, s with
  | [], _ => true
  | _ :: _, [] => false
  | Lit c :: atoms', d :: s' => (c =? d)%N && match_here atoms' s'
  | AnyChar :: atoms', d :: s' => negb (d =? LF)%N && match_here atoms' s'
  end.

Fixpoint search_atoms (atoms : list atom) (s : pystr) : bool :=
  match_here atoms s
  || match s with
     | [] => false
     | _ :: s' => search_atoms atoms s'
     end.

Definition cpython_re_search (pattern s : pystr) : result bool :=
  atoms ← compile pattern; Ok (search_atoms atoms s).

(** One of the possible orders of iteration: that of [elements]. *)
Definition cpython : PyLib := {|
  urlparse := cpython_urlparse;
  re_search := cpython_re_search;
  iteration := elements;
  iteration_elements := fun s => reflexivity (elements s)
|}.

End Model.


(** ** Process state, sockets and the effect monad *)

(** The module-level variables [cache], [blacklist], [cacheActive],
    [blacklistActive], and the two locks [cacheLock] and [blacklistLock]:
    [true] when the lock is held. Handlers run one at a time in this
    model, so a lock that a handler finds held was left so by an earlier
    handler that raised between [acquire()] and [release()]; nothing
    releases it any more. *)
Record ProxyState : Type := mkState {
  cache : gmap pystr pystr;
  blacklist : gset pystr;
  cacheActive : bool;
  blacklistActive : bool;
  cacheLock : bool;
  blacklistLock : bool
}.

(** What a handler does to its sockets, in order. [Connect] records the
    attempt, whether or not the origin accepts it. *)
Inductive event : Type :=
| Connect (host : pystr) (port : Z)
| ToServer (data : bytes)
| ToClient (data : bytes)
| CloseClient.

(** The origin servers: whether [connect((host, port))] succeeds, and the
    chunks that successive [recv(2048)] calls deliver after the request
    bytes were sent, before the origin closes the stream. *)
Record Origin : Type := mkOrigin {
  connect : pystr -> Z -> result unit;
  reply : pystr -> Z -> bytes -> list bytes
}.

(** The argument of [sendall]: the program passes both [bytes] and [str]
    objects, and a socket takes only the former. *)
Inductive pyobj : Type :=
| Bytes (data : bytes)
| Str (s : pystr).

Record World : Type := mkWorld {
  globals : ProxyState;
  trace : list event
}.

(** How a handler's computation ends: it returns, it raises, or it
    blocks in [acquire()] on a lock that is never released. *)
Inductive outcome (A : Type) : Type :=
| Returns (a : A)
| Raises (e : exn)
| Blocks.
Arguments Returns {A} a.
Arguments Raises {A} e.
Arguments Blocks {A}.

(** A computation changes the world and returns, raises or blocks; what
    it did before raising or blocking stays done. *)
Definition M (A : Type) : Type := World -> World * outcome A.

#[global] Instance M_ret : MRet M := fun A a w => (w, Returns a).

#[global] Instance M_bind : MBind M := fun A B k m w =>
  match m w with
  | (w', Returns a) => k a w'
  | (w', Raises e) => (w', Raises e)
  | (w', Blocks) => (w', Blocks)
  end.

Definition lift {A} (r : result A) : M A := fun w =>
  (w, match r with Ok a => Returns a | Raise e => Raises e end).

Definition emit (e : event) : M unit := fun w =>
  (mkWorld (globals w) (trace w ++ [e]), Returns tt).

Definition get : M ProxyState := fun w => (w, Returns (globals w)).

Definition put (g : ProxyState) : M unit := fun w =>
  (mkWorld g (trace w), Returns tt).

(** The locks. [acquire()] on a held lock waits for a release that does
    not come; [release()] on a lock that is not held is a
    [RuntimeError]. *)
Inductive lock : Type := CacheLock | BlacklistLock.

Definition locked (l : lock) (g : ProxyState) : bool :=
  match l with
  | CacheLock => cacheLock g
  | BlacklistLock => blacklistLock g
  end.

Definition set_lock (l : lock) (held : bool) (g : ProxyState) : ProxyState :=
  match l with
  | CacheLock =>
      mkState (cache g) (blacklist g) (cacheActive g) (blacklistActive g)
              held (blacklistLock g)
  | BlacklistLock =>
      mkState (cache g) (blacklist g) (cacheActive g) (blacklistActive g)
              (cacheLock g) held
  end.

Definition acquire (l : lock) : M unit := fun w =>
  if locked l (globals w) then (w, Blocks)
  else (mkWorld (set_lock l true (globals w)) (trace w), Returns tt).

Definition release (l : lock) : M unit := fun w =>
  if locked l (globals w)
  then (mkWorld (set_lock l false (globals w)) (trace w), Returns tt)
  else (w, Raises RuntimeError).

(** [clientskt.send(data)] and [clientskt.sendall(data)]; a [str] argument
    is a [TypeError]. *)
Definition send_client (data : pyobj) : M unit :=
  match data with
  | Bytes d => emit (ToClient d)
  | Str _ => lift (Raise TypeError)
  end.

(** Using a tuple slot that may hold [None]: concatenating it or passing it
    to [connect] is a [TypeError], calling a method on it an
    [AttributeError]. *)
Definition expect {A} (e : exn) (v : option A) : result A :=
  match v with Some a => Ok a | None => Raise e end.

(** [str(request[2])] *)
Definition str_of_port (v : option Z) : pystr :=
  match v with Some n => str_of_int n | None => u "None" end.

(** [serverContact]: accumulate until a zero-length read. *)
Fixpoint serverContact (chunks : list bytes) (serverResponse : bytes) : bytes :=
  match chunks with
  | [] => serverResponse
  | response :: rest =>
      if len response =? 0 then serverResponse
      else serverContact rest (serverResponse ++ response)
  end.

(** [clientContact]: read until the text ends with a blank line. The
    socket is the sequence of its [recv] results ([skt n] is the result of
    call number [n]; empty once the peer has closed). The loop has no other
    exit, so it is run with fuel: [None] means it is still reading after
    [fuel] calls. *)
Fixpoint clientContact (fuel : nat) (skt : nat -> bytes) (n : nat)
    (fullMessage : pystr) : option (result pystr) :=
  if endswith fullMessage (CRLF ++ CRLF) then Some (Ok fullMessage)
  else match fuel with
       | O => None
       | S fuel' =>
           match decode (skt n) with
           | Ok text => clientContact fuel' skt (S n) (fullMessage ++ text)
           | Raise e => Some (Raise e)
           end
       end.

Definition reply_200 : bytes := b "HTTP/1.0 200 OK" ++ bCRLF ++ bCRLF.
Definition reply_400 : bytes := b "HTTP/1.0 400 Bad Request" ++ bCRLF ++ bCRLF.
Definition reply_403 : bytes := b "HTTP/1.0 403 Forbidden" ++ bCRLF ++ bCRLF.
Definition reply_501 : bytes := b "HTTP/1.0 501 Not Implemented" ++ bCRLF ++ bCRLF.

(** ** The command processor *)

Definition set_cache (c : gmap pystr pystr) (g : ProxyState) : ProxyState :=
  mkState c (blacklist g) (cacheActive g) (blacklistActive g)
          (cacheLock g) (blacklistLock g).

Definition set_blacklist (l : gset pystr) (g : ProxyState) : ProxyState :=
  mkState (cache g) l (cacheActive g) (blacklistActive g)
          (cacheLock g) (blacklistLock g).

Definition set_cacheActive (v : bool) (g : ProxyState) : ProxyState :=
  mkState (cache g) (blacklist g) v (blacklistActive g)
          (cacheLock g) (blacklistLock g).

Definition set_blacklistActive (v : bool) (g : ProxyState) : ProxyState :=
  mkState (cache g) (blacklist g) (cacheActive g) v
          (cacheLock g) (blacklistLock g).

(** The argument [commandRequest[2]] of [blacklist.add] and
    [blacklist.discard] is evaluated between [acquire()] and [release()]:
    when it raises, the lock stays held. *)
Definition handleCommand (fullCommand : pystr) : M unit :=
  let commandRequest := split 47 fullCommand in
  target ← lift (getitem commandRequest 0);
  if str_eqb target (u "cache") then
    action ← lift (getitem commandRequest 1);
    if str_eqb action (u "enable") then
      g ← get; put (set_cacheActive true g)
    else if str_eqb action (u "disable") then
      g ← get; put (set_cacheActive false g)
    else if str_eqb action (u "flush") then
      acquire CacheLock;;
      g ← get; put (set_cache ∅ g);;
      release CacheLock
    else mret tt
  else if str_eqb target (u "blocklist") then
    action ← lift (getitem commandRequest 1);
    if str_eqb action (u "enable") then
      g ← get; put (set_blacklistActive true g)
    else if str_eqb action (u "disable") then
      g ← get; put (set_blacklistActive false g)
    else if str_eqb action (u "add") then
      acquire BlacklistLock;;
      pattern ← lift (getitem commandRequest 2);
      g ← get; put (set_blacklist ({[pattern]} ∪ blacklist g) g);;
      release BlacklistLock
    else if str_eqb action (u "remove") then
      acquire BlacklistLock;;
      pattern ← lift (getitem commandRequest 2);
      g ← get; put (set_blacklist (blacklist g ∖ {[pattern]}) g);;
      release BlacklistLock
    else if str_eqb action (u "flush") then
      acquire BlacklistLock;;
      g ← get; put (set_blacklist ∅ g);;
      release BlacklistLock
    else mret tt
  else mret tt.

(** ** Forwarding and the cache *)

Definition buildMessage (request : Request) : result pystr :=
  path ← expect TypeError (req_path request);
  host ← expect TypeError (req_host request);
  let message :=
    u "GET " ++ path ++ u " HTTP/1.0" ++ CRLF ++ u "Host: " ++ host ++ CRLF
      ++ u "Connection: close" ++ CRLF in
  items ← expect AttributeError (req_headers request);
  let headers :=
    fold_left (fun headers '(key, value) =>
                 if str_eqb key (u "Connection") then headers
                 else headers ++ key ++ u ": " ++ value ++ CRLF)
              items [] in
  Ok (message ++ headers ++ CRLF).

Section Handler.

Context `{PL : PyLib}.
Variable address : pystr.
Variable origin : Origin.

(** [request[1] + ':' + str(request[2])] *)
Definition destination (request : Request) : result pystr :=
  host ← expect TypeError (req_host request);
  Ok (host ++ u ":" ++ str_of_port (req_port request)).

(** The loop over the blocklist, which runs with [blacklistLock] held;
    [true] when it replied 403, released the lock and returned. An
    exception from [request[1] + ':'] or from [re.search] leaves the loop
    and the handler at once, past both [release()] calls. *)
Fixpoint checkBlacklist (patterns : list pystr) (request : Request) : M bool :=
  match patterns with
  | [] => mret false
  | netloc :: rest =>
      dest ← lift (destination request);
      hit ← lift (re_search netloc dest);
      if hit : bool then
        send_client (Bytes reply_403);;
        release BlacklistLock;;
        mret true
      else checkBlacklist rest request
  end.

(** [serverskt.connect((request[1], request[2]))] *)
Definition connect_server (request : Request) : M (pystr * Z) :=
  host ← lift (expect TypeError (req_host request));
  port ← lift (expect TypeError (req_port request));
  emit (Connect host port);;
  lift (connect origin host port);;
  mret (host, port).

(** [serverskt.sendall(data)] followed by [serverContact(serverskt)] *)
Definition exchange (server : pystr * Z) (data : bytes) : M bytes :=
  emit (ToServer data);;
  mret (serverContact (reply origin server.1 server.2 data) []).

(** The conditional GET of a revalidation. *)
Definition conditionalGet (request : Request) (cachedObject : pystr)
  : result pystr :=
  path ← expect TypeError (req_path request);
  host ← expect TypeError (req_host request);
  i ← index cachedObject (u "Last-Modified:");
  since ← getitem (splitlines (slice_from cachedObject (i + 14))) 0;
  Ok (u "GET " ++ path ++ u " HTTP/1.0" ++ CRLF ++ u "Host: " ++ host ++ CRLF
        ++ u "Connection: close" ++ CRLF ++ u "If-Modified-Since:" ++ since
        ++ CRLF ++ CRLF).

(** Lines 170 to 177: the blocklist, under its lock. *)
Definition blacklistPhase (request : Request) : M bool :=
  g ← get;
  if blacklistActive g then
    acquire BlacklistLock;;
    g ← get;
    returned ← checkBlacklist (iteration (blacklist g)) request;
    if returned : bool then mret true
    else release BlacklistLock;; mret false
  else mret false.

(** Lines 178 to 212: the exchange with the origin, through the cache
    when caching is enabled. *)
Definition handleRequest (request : Request) : M unit :=
  returned ← blacklistPhase request;
  if returned : bool then mret tt
  else
    g ← get;
    if cacheActive g then
      dest ← lift (destination request);
      path ← lift (expect TypeError (req_path request));
      let connectionObject := dest ++ path in
      match cache g !! connectionObject with
      | Some _ =>
          acquire CacheLock;;
          g' ← get;
          cachedObject ← lift (expect KeyError (cache g' !! connectionObject));
          release CacheLock;;
          server ← connect_server request;
          message ← lift (conditionalGet request cachedObject);
          data ← lift (encode message);
          raw ← exchange server data;
          response ← lift (decode raw);
          if negb (find response (u "304 Not Modified") =? -1) then
            stored ← lift (encode cachedObject);
            send_client (Bytes stored)
          else
            acquire CacheLock;;
            g' ← get;
            (if find response (u "200 OK") =? -1
             then put (set_cache (delete connectionObject (cache g')) g')
             else put (set_cache (<[connectionObject := response]> (cache g')) g'));;
            release CacheLock;;
            send_client (Str response)
      | None =>
          server ← connect_server request;
          message ← lift (buildMessage request);
          data ← lift (encode message);
          response ← exchange server data;
          text ← lift (decode response);
          (if negb (find text (u "200 OK") =? -1) then
             acquire CacheLock;;
             stored ← lift (decode response);
             g' ← get;
             put (set_cache (<[connectionObject := stored]> (cache g')) g');;
             release CacheLock
           else mret tt);;
          send_client (Bytes response)
      end
    else
      server ← connect_server request;
      message ← lift (buildMessage request);
      data ← lift (encode message);
      response ← exchange server data;
      send_client (Bytes response).

(** One connection: read, classify, dispatch, reply, close. [None] when
    [clientContact] has not returned within [fuel] reads. An exception
    ends the handler's thread before [clientskt.close()]. *)
Definition handleConnection (fuel : nat) (clientskt : nat -> bytes)
  : World -> option (World * outcome unit) := fun w =>
  match clientContact fuel clientskt 0 [] with
  | None => None
  | Some received =>
      Some ((message ← lift received;
             request ← lift (parseRequest address message);
             match req_type request with
             | NOTIMPL => send_client (Bytes reply_501)
             | BADREQ => send_client (Bytes reply_400)
             | COMMAND =>
                 fullCommand ← lift (expect AttributeError (req_path request));
                 handleCommand fullCommand;;
                 send_client (Bytes reply_200)
             | REGULAR => handleRequest request
             end;;
             emit CloseClient) w)
  end.

End Handler.


(** ** The requests and replies of the scenarios *)

(** A client socket whose first [recv] delivers [data] and whose peer then
    closes. *)
Definition once (data : bytes) : nat -> bytes :=
  fun n => match n with O => data | S _ => [] end.

(** An origin that accepts every connection and answers every request
    with the same chunks. *)
Definition serving (chunks : list bytes) : Origin :=
  mkOrigin (fun _ _ => Ok tt) (fun _ _ _ => chunks).

(** The start-up state, with the two switches as given: nothing cached,
    nothing blocked, both locks free. *)
Definition initial (caching blocking : bool) : ProxyState :=
  mkState ∅ ∅ caching blocking false false.

Definition example_host : pystr := u "example.com".

Definition example_url : ParseResult :=
  mkParseResult (u "http") example_host (u "/") (Some example_host) (Ok None).

(** [GET http://example.com/ HTTP/1.0\r\nHost: example.com\r\n\r\n] *)
Definition example_request : bytes :=
  b "GET http://example.com/ HTTP/1.0" ++ bCRLF ++ b "Host: example.com"
    ++ bCRLF ++ bCRLF.

(** The same request without a header line. *)
Definition bare_request : bytes :=
  b "GET http://example.com/ HTTP/1.0" ++ bCRLF ++ bCRLF.

(** [GET / HTTP/1.0\r\nHost: example.com\r\nConnection: close\r\n\r\n] *)
Definition plain_get : bytes :=
  b "GET / HTTP/1.0" ++ bCRLF ++ b "Host: example.com" ++ bCRLF
    ++ b "Connection: close" ++ bCRLF ++ bCRLF.

(** The same with the client's [Host] header after the proxy's two. *)
Definition plain_get_with_client_host : bytes :=
  b "GET / HTTP/1.0" ++ bCRLF ++ b "Host: example.com" ++ bCRLF
    ++ b "Connection: close" ++ bCRLF ++ b "Host: example.com" ++ bCRLF
    ++ bCRLF.

Definition ok_response : bytes := b "HTTP/1.0 200 OK" ++ bCRLF ++ bCRLF.

(** A 200 response with a [Last-Modified] header and a one-byte body that
    is not UTF-8. *)
Definition binary_response : bytes :=
  b "HTTP/1.0 200 OK" ++ bCRLF ++ b "Last-Modified: Tue, 01 Jan 2025 00:00:00 GMT"
    ++ bCRLF ++ bCRLF ++ [xff].

(** Cached entries for [example.com:80/], with and without a
    [Last-Modified] header. *)
Definition example_key : pystr := u "example.com:80/".

Definition dated_entry : pystr :=
  u "HTTP/1.0 200 OK" ++ CRLF ++ u "Last-Modified: Tue, 01 Jan 2025 00:00:00 GMT"
    ++ CRLF ++ CRLF ++ u "body".

Definition undated_entry : pystr :=
  u "HTTP/1.0 200 OK" ++ CRLF ++ CRLF ++ u "body".

(** States of the scenarios: caching enabled with one entry under
    [example.com:80/], and blocklisting enabled with the given patterns;
    both locks free. *)
Definition caching_with (entry : pystr) : ProxyState :=
  mkState {[example_key := entry]} ∅ true false false false.

Definition blocking (patterns : gset pystr) : ProxyState :=
  mkState ∅ patterns false true false false.

Definition conditional_get : bytes :=
  b "GET / HTTP/1.0" ++ bCRLF ++ b "Host: example.com" ++ bCRLF
    ++ b "Connection: close" ++ bCRLF
    ++ b "If-Modified-Since: Tue, 01 Jan 2025 00:00:00 GMT" ++ bCRLF ++ bCRLF.

Definition not_found_response : bytes :=
  b "HTTP/1.0 404 Not Found" ++ bCRLF ++ bCRLF.

(** Command requests addressed to a proxy at [localhost]. *)
Definition command_request (commandPath : string) : bytes :=
  b "GET http://localhost/proxy/" ++ b commandPath ++ b " HTTP/1.0" ++ bCRLF
    ++ bCRLF.

(** ** Names used in the statements *)

(** The method of a raw request: its first space-separated token. *)
Definition method_of (message : pystr) : pystr := hd [] (split 32 message).

(** The cache key [host:port/path] that [handleRequest] computes. *)
Definition cache_key (host : pystr) (port : Z) (path : pystr) : pystr :=
  (host ++ u ":" ++ str_of_int port) ++ path.

(** The request passes the blocklist: blocklisting is off, or the
    blocklist's lock is free, every pattern compiles and none is found in
    the destination. *)
Definition unblocked `{PL : PyLib} (g : ProxyState) (request : Request) : Prop :=
  blacklistActive g = true ->
  blacklistLock g = false
  /\ forall p, p ∈ blacklist g ->
       exists dest, destination request = Ok dest /\ re_search p dest = Ok false.

(** The proxy's default listen address. *)
Definition localhost : pystr := u "localhost".

(** The example request as [parseRequest] returns it. *)
Definition example_parsed : Request :=
  mkRequest REGULAR (Some example_host) (Some 80) (Some (u "/"))
            (Some [(u "Host", example_host)]).

(** The pattern that [blocklist/add/<p>] and [blocklist/remove/<p>] act
    on: the third [/]-separated segment of the command path. *)
Definition pattern_segment (p : pystr) : pystr := hd [] (split 47 p).

(** What the client's side of a run shows: the replies and the close. *)
Definition client_side (tr : list event) : list event :=
  List.filter (fun e => match e with
                        | ToClient _ | CloseClient => true
                        | _ => false
                        end) tr.

(** The example request without header lines, as parsed. *)
Definition bare_parsed : Request :=
  mkRequest REGULAR (Some example_host) (Some 80) (Some (u "/")) (Some []).

(** An origin that refuses every connection. *)
Definition refusing : Origin :=
  mkOrigin (fun _ _ => Raise OSError) (fun _ _ _ => []).

(** A header as [parseRequest] accepts it: the name matches
    [^[A-Za-z0-9-]+$] and the value matches [^.+]. *)
Definition well_formed_header (kv : pystr * pystr) : Prop :=
  match_header_name kv.1 = true /\ match_header_data kv.2 = true.

(** The header line [buildMessage] writes for an entry, without its line
    end: [key + ': ' + value]. *)
Definition header_line (kv : pystr * pystr) : pystr :=
  kv.1 ++ u ": " ++ kv.2.

(** The header lines of a raw request as [parseRequest] recovers them from
    the tokens after the URL. *)
Definition header_lines (tokens : list pystr) : list pystr :=
  splitlines (fold_left (fun acc tok => acc ++ tok ++ u " ") tokens []).

(** The client headers [buildMessage] forwards: all but those named
    exactly [Connection]. *)
Definition forwarded_headers (headers : dict) : dict :=
  List.filter (fun kv => negb (str_eqb kv.1 (u "Connection"))) headers.

(** * Properties *)

(** ** UTF-8: decoding then encoding gives the bytes back *)

Lemma byte_of_to_N (c : byte) : byte_of_N (Byte.to_N c) = c.
Proof. unfold byte_of_N. now rewrite Byte.of_to_N. Qed.

Lemma in_range_spec (lo hi n : N) :
  in_range lo hi n = true <-> (lo <= n <= hi)%N.
Proof.
  unfold in_range. rewrite andb_true_iff, !N.leb_le. reflexivity.
Qed.

Lemma is_cont_spec (n : N) : is_cont n = true <-> (128 <= n <= 191)%N.
Proof. apply (in_range_spec 128 191). Qed.

(** Splitting off the low six bits. *)
Lemma low_six_bits (a c : N) :
  (c < 64)%N -> ((a * 64 + c) / 64 = a /\ (a * 64 + c) mod 64 = c)%N.
Proof.
  intros H. split; symmetry.
  - apply (N.div_unique _ 64 a c); lia.
  - apply (N.mod_unique _ 64 a c); lia.
Qed.

Lemma encode_char_1 (n0 : N) :
  (n0 < 128)%N -> encode_char n0 = Ok [byte_of_N n0].
Proof.
  intros H. unfold encode_char. apply N.ltb_lt in H. now rewrite H.
Qed.

Lemma encode_char_2 (n0 n1 : N) :
  (194 <= n0 <= 223)%N -> (128 <= n1 <= 191)%N ->
  encode_char ((n0 - 192) * 64 + (n1 - 128)) = Ok [byte_of_N n0; byte_of_N n1].
Proof.
  intros H0 H1. unfold encode_char.
  destruct (low_six_bits (n0 - 192) (n1 - 128)) as [Ed Em]; [lia|].
  rewrite Ed, Em.
  destruct (N.ltb_spec ((n0 - 192) * 64 + (n1 - 128)) 128); [lia|].
  destruct (N.ltb_spec ((n0 - 192) * 64 + (n1 - 128)) 2048); [|lia].
  repeat f_equal; lia.
Qed.

Lemma encode_char_3 (n0 n1 n2 : N) :
  (224 <= n0 <= 239)%N ->
  ((if n0 =? 224 then 160 else 128) <= n1
   <= (if n0 =? 237 then 159 else 191))%N ->
  (128 <= n2 <= 191)%N ->
  encode_char ((n0 - 224) * 4096 + (n1 - 128) * 64 + (n2 - 128))
  = Ok [byte_of_N n0; byte_of_N n1; byte_of_N n2].
Proof.
  intros H0 H1 H2. unfold encode_char.
  assert (B1 : (128 <= n1 <= 191)%N)
    by (destruct (n0 =? 224)%N, (n0 =? 237)%N; lia).
  set (cp := ((n0 - 224) * 4096 + (n1 - 128) * 64 + (n2 - 128))%N).
  assert (Ecp : cp = (((n0 - 224) * 64 + (n1 - 128)) * 64 + (n2 - 128))%N)
    by (subst cp; lia).
  destruct (low_six_bits ((n0 - 224) * 64 + (n1 - 128)) (n2 - 128)) as [Ed Em];
    [lia|].
  destruct (low_six_bits (n0 - 224) (n1 - 128)) as [Ed' Em']; [lia|].
  assert (E64 : (cp / 64 = (n0 - 224) * 64 + (n1 - 128))%N)
    by (rewrite Ecp; exact Ed).
  assert (Em64 : (cp mod 64 = n2 - 128)%N) by (rewrite Ecp; exact Em).
  assert (E4096 : (cp / 4096 = n0 - 224)%N).
  { change 4096%N with (64 * 64)%N. rewrite <- N.Div0.div_div.
    rewrite E64. exact Ed'. }
  rewrite E4096, E64, Em64, Em'.
  assert (Hlow : (2048 <= cp)%N).
  { destruct (N.eqb_spec n0 224); subst cp; lia. }
  assert (Hsur : (cp < 55296 \/ 57343 < cp)%N).
  { destruct (N.eqb_spec n0 237); [left; subst cp; lia|].
    destruct (N.eqb_spec n0 224); subst cp; lia. }
  destruct (N.ltb_spec cp 128); [lia|].
  destruct (N.ltb_spec cp 2048); [lia|].
  destruct (N.ltb_spec cp 65536); [|subst cp; lia].
  replace (in_range 55296 57343 cp) with false.
  - repeat f_equal; lia.
  - symmetry. apply not_true_iff_false. rewrite in_range_spec. lia.
Qed.

Lemma encode_char_4 (n0 n1 n2 n3 : N) :
  (240 <= n0 <= 244)%N ->
  ((if n0 =? 240 then 144 else 128) <= n1
   <= (if n0 =? 244 then 143 else 191))%N ->
  (128 <= n2 <= 191)%N ->
  (128 <= n3 <= 191)%N ->
  encode_char ((n0 - 240) * 262144 + (n1 - 128) * 4096 + (n2 - 128) * 64
               + (n3 - 128))
  = Ok [byte_of_N n0; byte_of_N n1; byte_of_N n2; byte_of_N n3].
Proof.
  intros H0 H1 H2 H3. unfold encode_char.
  assert (B1 : (128 <= n1 <= 191)%N)
    by (destruct (n0 =? 240)%N, (n0 =? 244)%N; lia).
  set (cp := ((n0 - 240) * 262144 + (n1 - 128) * 4096 + (n2 - 128) * 64
              + (n3 - 128))%N).
  set (hi := (((n0 - 240) * 64 + (n1 - 128)) * 64 + (n2 - 128))%N).
  assert (Ecp : cp = (hi * 64 + (n3 - 128))%N) by (subst cp hi; lia).
  destruct (low_six_bits hi (n3 - 128)) as [Ed Em]; [lia|].
  destruct (low_six_bits ((n0 - 240) * 64 + (n1 - 128)) (n2 - 128))
    as [Ed' Em']; [lia|].
  destruct (low_six_bits (n0 - 240) (n1 - 128)) as [Ed'' Em'']; [lia|].
  assert (E64 : (cp / 64 = hi)%N) by (rewrite Ecp; exact Ed).
  assert (E4096 : (cp / 4096 = (n0 - 240) * 64 + (n1 - 128))%N).
  { change 4096%N with (64 * 64)%N. rewrite <- N.Div0.div_div.
    rewrite E64. exact Ed'. }
  assert (E262144 : (cp / 262144 = n0 - 240)%N).
  { change 262144%N with (4096 * 64)%N. rewrite <- N.Div0.div_div.
    rewrite E4096. exact Ed''. }
  assert (Em64 : (cp mod 64 = n3 - 128)%N) by (rewrite Ecp; exact Em).
  rewrite E262144, E4096, E64, Em64, Em''. fold hi in Em'. rewrite Em'.
  assert (Hlow : (65536 <= cp)%N).
  { destruct (N.eqb_spec n0 240); subst cp; lia. }
  assert (Hhigh : (cp < 1114112)%N).
  { destruct (N.eqb_spec n0 244); subst cp; lia. }
  destruct (N.ltb_spec cp 128); [lia|].
  destruct (N.ltb_spec cp 2048); [lia|].
  destruct (N.ltb_spec cp 65536); [lia|].
  destruct (N.ltb_spec cp 1114112); [|lia].
  repeat f_equal; lia.
Qed.

(** The tail of a decoded sequence, by the induction hypothesis. *)
Ltac decoded_tail IH Hd :=
  match type of Hd with
  | context [decode ?t] =>
      let s' := fresh "s'" in
      let E := fresh "E" in
      destruct (decode t) as [s'|] eqn:E; [|discriminate Hd];
      cbn [mbind result_bind] in Hd; injection Hd as <-;
      cbn [encode]; apply IH in E; [|cbn [length] in *; lia]
  end.

Lemma decode_encode_bounded (n : nat) :
  forall (data : bytes) (s : pystr),
    (length data <= n)%nat -> decode data = Ok s -> encode s = Ok data.
Proof.
  induction n as [|n IH]; intros data s Hlen Hd.
  - destruct data; [|cbn in Hlen; lia]. injection Hd as <-. reflexivity.
  - destruct data as [|c0 t0]; [injection Hd as <-; reflexivity|].
    cbn [decode] in Hd.
    destruct (N.ltb_spec (Byte.to_N c0) 128) as [H1|_].
    { decoded_tail IH Hd. rewrite (encode_char_1 _ H1), E.
      cbn [mbind result_bind app]. now rewrite byte_of_to_N. }
    destruct (in_range 194 223 (Byte.to_N c0)) eqn:H2.
    { destruct t0 as [|c1 t1]; [discriminate|].
      destruct (is_cont (Byte.to_N c1)) eqn:C1; [|discriminate].
      decoded_tail IH Hd.
      apply in_range_spec in H2. apply is_cont_spec in C1.
      rewrite (encode_char_2 _ _ H2 C1), E.
      cbn [mbind result_bind app]. now rewrite !byte_of_to_N. }
    destruct (in_range 224 239 (Byte.to_N c0)) eqn:H3.
    { destruct t0 as [|c1 [|c2 t2]]; [discriminate|discriminate|].
      destruct (in_range _ _ (Byte.to_N c1)) eqn:C1; [|discriminate].
      destruct (is_cont (Byte.to_N c2)) eqn:C2; [|discriminate].
      cbn [andb] in Hd. decoded_tail IH Hd.
      apply in_range_spec in H3, C1. apply is_cont_spec in C2.
      rewrite (encode_char_3 _ _ _ H3 C1 C2), E.
      cbn [mbind result_bind app]. now rewrite !byte_of_to_N. }
    destruct (in_range 240 244 (Byte.to_N c0)) eqn:H4; [|discriminate].
    destruct t0 as [|c1 [|c2 [|c3 t3]]]; [discriminate|discriminate|discriminate|].
    destruct (in_range _ _ (Byte.to_N c1)) eqn:C1; [|discriminate].
    destruct (is_cont (Byte.to_N c2)) eqn:C2; [|discriminate].
    destruct (is_cont (Byte.to_N c3)) eqn:C3; [|discriminate].
    cbn [andb] in Hd. decoded_tail IH Hd.
    apply in_range_spec in H4, C1. apply is_cont_spec in C2, C3.
    rewrite (encode_char_4 _ _ _ _ H4 C1 C2 C3), E.
    cbn [mbind result_bind app]. now rewrite !byte_of_to_N.
Qed.

(** A [bytes] object that decodes is what its decoded text encodes to. *)
Lemma decode_encode (data : bytes) (s : pystr) :
  decode data = Ok s -> encode s = Ok data.
Proof. apply (decode_encode_bounded (length data)). lia. Qed.

(** ** The request parser *)

Lemma split_nonempty (sep : N) (s : pystr) : split sep s <> [].
Proof.
  destruct s as [|c s]; cbn; [discriminate|].
  destruct (c =? sep)%N; [discriminate|].
  destruct (split sep s); discriminate.
Qed.

Lemma split_method (message : pystr) :
  exists rest, split 32 message = method_of message :: rest.
Proof.
  unfold method_of. destruct (split 32 message) as [|m rest] eqn:E.
  - now apply split_nonempty in E.
  - now exists rest.
Qed.

Lemma str_eqb_eq (s t : pystr) : str_eqb s t = true <-> s = t.
Proof. unfold str_eqb. apply bool_decide_eq_true. Qed.

Lemma str_eqb_neq (s t : pystr) : str_eqb s t = false <-> s <> t.
Proof. unfold str_eqb. apply bool_decide_eq_false. Qed.

Lemma str_eqb_refl (s : pystr) : str_eqb s s = true.
Proof. now apply str_eqb_eq. Qed.

Lemma clamp_inside (n i : Z) : 0 <= i <= n -> clamp n i = Z.to_nat i.
Proof.
  intros H. unfold clamp. destruct (Z.ltb_spec i 0); [lia|].
  f_equal. lia.
Qed.

Lemma clamp_beyond (n i : Z) : 0 <= n <= i -> clamp n i = Z.to_nat n.
Proof.
  intros H. unfold clamp. destruct (Z.ltb_spec i 0); [lia|].
  f_equal. lia.
Qed.

Lemma slice_from_skipn {A} (s : list A) (n : nat) :
  (n <= length s)%nat -> slice_from s (Z.of_nat n) = skipn n s.
Proof.
  intros H. unfold slice_from, len.
  rewrite clamp_inside by lia. now rewrite Nat2Z.id.
Qed.

Lemma slice_to_firstn {A} (s : list A) (n : nat) :
  slice_to s (Z.of_nat n) = firstn n s.
Proof.
  unfold slice_to, len. destruct (Nat.le_gt_cases n (length s)).
  - rewrite clamp_inside by lia. now rewrite Nat2Z.id.
  - rewrite clamp_beyond by lia. rewrite Nat2Z.id.
    rewrite !firstn_all2 by lia. reflexivity.
Qed.

(** Unfolding the binds of the [result] monad. *)
Ltac rsimpl := cbn [mbind mret result_bind result_ret].

Section ParserFacts.

Context `{PL : PyLib}.
Variable address : pystr.

(** The request-line checks in terms of the tokens: a method matching the
    regular expression is answered [NOTIMPL] before anything else is
    looked at. *)
Lemma parseRequest_unimplemented (message : pystr) :
  match_method (method_of message) = true ->
  parseRequest address message = Ok notimpl.
Proof.
  intros Hm. destruct (split_method message) as [rest E].
  unfold parseRequest. rewrite E. cbn [getitem]. rsimpl.
  change (getitem (method_of message :: rest) 0) with (Ok (method_of message)).
  rsimpl. now rewrite Hm.
Qed.

Lemma parseRequest_other_method (message : pystr) :
  match_method (method_of message) = false ->
  method_of message <> u "GET" ->
  parseRequest address message = Ok badreq.
Proof.
  intros Hm Hg. destruct (split_method message) as [rest E].
  unfold parseRequest. rewrite E.
  change (getitem (method_of message :: rest) 0) with (Ok (method_of message)).
  rsimpl. rewrite Hm.
  apply str_eqb_neq in Hg. rewrite Hg. reflexivity.
Qed.

(** A request line that passes the method and version checks hands its
    URL to [urlparse]. *)
Lemma parseRequest_GET (message url version : pystr) (rest : list pystr) :
  split 32 message = u "GET" :: url :: version :: rest ->
  slice_to version 8 = u "HTTP/1.0" ->
  parseRequest address message =
    (splitURL ← urlparse url;
     if str_eqb (scheme splitURL) [] || str_eqb (netloc splitURL) []
        || str_eqb (path splitURL) []
     then Ok badreq
     else
       explicit ← port splitURL;
       if str_eqb (slice_to (path splitURL) 7) (u "/proxy/")
          && bool_decide (hostname splitURL = Some address)
       then Ok (mkRequest COMMAND None None
                          (Some (slice_from (path splitURL) 7)) (Some []))
       else
         parsed ← parseHeaders
                    (splitlines (fold_left (fun acc tok => acc ++ tok ++ u " ")
                                           (version :: rest) [])) [];
         match parsed with
         | None => Ok badreq
         | Some headers =>
             Ok (mkRequest REGULAR (hostname splitURL)
                           (Some (match explicit with Some p => p | None => 80 end))
                           (Some (path splitURL)) (Some headers))
         end).
Proof.
  intros E Hv. unfold parseRequest. rewrite E.
  change (getitem (u "GET" :: url :: version :: rest) 0) with (Ok (u "GET")).
  change (getitem (u "GET" :: url :: version :: rest) 1) with (Ok url).
  change (getitem (u "GET" :: url :: version :: rest) 2) with (Ok version).
  rsimpl.
  change (match_method (u "GET")) with false. cbv iota.
  rewrite str_eqb_refl. cbn [negb].
  replace (len (u "GET" :: url :: version :: rest) <? 3) with false
    by (symmetry; apply Z.ltb_ge; unfold len; cbn [length]; lia).
  rsimpl. rewrite Hv, str_eqb_refl. cbn [negb].
  rewrite (slice_from_skipn _ 2) by (cbn [length]; lia).
  reflexivity.
Qed.

End ParserFacts.

Lemma startswith_firstn (s p : pystr) :
  startswith s p = true -> firstn (length p) s = p.
Proof.
  revert s. induction p as [|c p IH]; intros s H; [reflexivity|].
  destruct s as [|d s]; [discriminate|]. cbn in H.
  apply andb_true_iff in H as [Hc Hs]. apply N.eqb_eq in Hc. subst d.
  cbn. now rewrite IH.
Qed.

(** *** A header line that ends with its colon *)

Lemma is_name_char_not_colon (c : N) : is_name_char c = true -> c <> 58%N.
Proof. intros H ->. discriminate H. Qed.

Lemma name_rest_no_colon (s : pystr) : name_rest s = true -> ~ In 58%N s.
Proof.
  induction s as [|c s IH]; [intros _ []|]. intros H [E|Hin]; cbn in H.
  - subst c. discriminate H.
  - destruct (is_name_char c); [now apply IH|].
    apply andb_true_iff in H as [_ H]. destruct s; [contradiction|discriminate].
Qed.

Lemma match_header_name_no_colon (s : pystr) :
  match_header_name s = true -> ~ In 58%N s.
Proof.
  destruct s as [|c s]; [discriminate|]. cbn. intros H [E|Hin].
  - subst c. discriminate H.
  - apply andb_true_iff in H as [_ H]. now apply name_rest_no_colon in H.
Qed.

Lemma startswith_nil (s : pystr) : startswith s [] = true.
Proof. now destruct s. Qed.

Lemma find_from_first (s t : pystr) (c : N) (i : Z) :
  ~ In c s -> find_from (s ++ c :: t) [c] i = i + len s.
Proof.
  revert i. induction s as [|d s IH]; intros i Hs.
  - cbn [app find_from startswith].
    rewrite N.eqb_refl, startswith_nil. cbn [andb].
    unfold len. cbn [length]. lia.
  - cbn [app find_from startswith].
    destruct (N.eqb_spec c d) as [->|_]; [exfalso; apply Hs; now left|].
    cbn [andb]. rewrite IH by (intros Hin; apply Hs; now right).
    unfold len. cbn [length]. lia.
Qed.

(** The line [name:] with a well-formed name passes the name test, and the
    character after the colon is then read one past the end. *)
Lemma parseHeaders_colon_last (name : pystr) (rest : list pystr) (headers : dict) :
  match_header_name name = true ->
  parseHeaders ((name ++ u ":") :: rest) headers = Raise IndexError.
Proof.
  intros Hname. pose proof (match_header_name_no_colon _ Hname) as Hcolon.
  assert (Hskip : forall t, ~ In 58%N t -> str_eqb (name ++ u ":") t = false).
  { intros t Ht. apply str_eqb_neq. intros E. apply Ht. rewrite <- E.
    apply in_or_app. right. now left. }
  cbn [parseHeaders].
  rewrite !Hskip by (vm_compute; intuition discriminate). cbn [orb].
  assert (Hfind : find (name ++ u ":") (u ":") = len name).
  { unfold find. change (u ":") with [58%N].
    now rewrite (find_from_first name [] 58 0 Hcolon). }
  assert (Hslice : slice_to (name ++ u ":") (len name) = name).
  { unfold len. rewrite slice_to_firstn.
    now rewrite firstn_app, Nat.sub_diag, firstn_all, app_nil_r. }
  rewrite Hfind, Hslice, Hname.
  replace (getitem (name ++ u ":") (len name + 1)) with (@Raise N IndexError);
    [reflexivity|].
  unfold getitem, len. destruct (Z.ltb_spec (Z.of_nat (length name) + 1) 0); [lia|].
  destruct (Z.ltb_spec (Z.of_nat (length name) + 1) 0); [lia|].
  replace (nth_error _ _) with (@None N); [reflexivity|].
  symmetry. apply nth_error_None. rewrite length_app. cbn [length u]. cbn. lia.
Qed.

Section ParserResults.

Context `{PL : PyLib}.
Variable address : pystr.

(** A port that [urlparse] cannot read is not classified: the
    [ValueError] of the [port] property leaves [parseRequest]. *)
Lemma parseRequest_unreadable_port (message url version : pystr)
    (rest : list pystr) (splitURL : ParseResult) (e : exn) :
  split 32 message = u "GET" :: url :: version :: rest ->
  slice_to version 8 = u "HTTP/1.0" ->
  urlparse url = Ok splitURL ->
  scheme splitURL <> [] -> netloc splitURL <> [] -> path splitURL <> [] ->
  port splitURL = Raise e ->
  parseRequest address message = Raise e.
Proof.
  intros E Hv Hu Hs Hn Hp He.
  rewrite (parseRequest_GET address _ _ _ _ E Hv), Hu. rsimpl.
  apply str_eqb_neq in Hs, Hn, Hp. rewrite Hs, Hn, Hp, He. reflexivity.
Qed.

(** C2 (amended): a first token other than [GET] gives [NOTIMPL] when it
    starts with one of HEAD, OPTIONS, TRACE, PUT, DELETE, POST, PATCH or
    CONNECT, and [BADREQ] otherwise, whatever follows it. *)
Theorem C2_method_other_than_GET (message : pystr) :
  method_of message <> u "GET" ->
  parseRequest address message =
    Ok (if match_method (method_of message) then notimpl else badreq).
Proof.
  intros Hg. destruct (match_method (method_of message)) eqn:Hm.
  - now apply parseRequest_unimplemented.
  - now apply parseRequest_other_method.
Qed.

(** C10 (amended): a request whose request line passes the method and
    version checks, whose URL has a scheme, a network location and a
    readable port, whose path begins with [/proxy/] and whose host is the
    proxy's address is a [COMMAND] with the rest of the path and an empty
    header mapping, whatever its header lines are. *)
Theorem C10_command_before_headers (message url version : pystr)
    (rest : list pystr) (splitURL : ParseResult) (explicit : option Z) :
  split 32 message = u "GET" :: url :: version :: rest ->
  slice_to version 8 = u "HTTP/1.0" ->
  urlparse url = Ok splitURL ->
  scheme splitURL <> [] ->
  netloc splitURL <> [] ->
  port splitURL = Ok explicit ->
  startswith (path splitURL) (u "/proxy/") = true ->
  hostname splitURL = Some address ->
  parseRequest address message =
    Ok (mkRequest COMMAND None None (Some (slice_from (path splitURL) 7))
                  (Some [])).
Proof.
  intros E Hv Hu Hs Hn He Hp Hh.
  rewrite (parseRequest_GET address _ _ _ _ E Hv), Hu. rsimpl.
  apply str_eqb_neq in Hs, Hn. rewrite Hs, Hn. cbn [orb].
  assert (Hpre : slice_to (path splitURL) 7 = u "/proxy/").
  { rewrite (slice_to_firstn _ 7). now apply (startswith_firstn _ (u "/proxy/")). }
  assert (Hne : str_eqb (path splitURL) [] = false).
  { apply str_eqb_neq. intros Hnil. rewrite Hnil in Hp. discriminate. }
  rewrite Hne, He. rsimpl. rewrite Hpre, str_eqb_refl.
  rewrite bool_decide_eq_true_2 by exact Hh. reflexivity.
Qed.

End ParserResults.

(** ** The connection handler *)

Lemma serverContact_all (chunks : list bytes) (acc : bytes) :
  Forall (fun c => c <> []) chunks ->
  serverContact chunks acc = acc ++ concat chunks.
Proof.
  intros H. revert acc. induction H as [|c chunks Hc _ IH]; intros acc; cbn.
  - now rewrite app_nil_r.
  - destruct c as [|x c]; [contradiction|].
    cbn [len length]. rewrite IH, <- app_assoc. reflexivity.
Qed.

Lemma clientContact_done (fuel : nat) (skt : nat -> bytes) (n : nat)
    (fullMessage : pystr) :
  endswith fullMessage (CRLF ++ CRLF) = true ->
  clientContact fuel skt n fullMessage = Some (Ok fullMessage).
Proof. intros H. destruct fuel; cbn [clientContact]; now rewrite H. Qed.

(** Once the peer has closed, every further [recv] returns no bytes and
    the buffer stops growing: if it does not end with the blank line by
    then, no number of reads ends the loop. *)
Lemma clientContact_closed_peer (skt : nat -> bytes) (fullMessage : pystr) :
  endswith fullMessage (CRLF ++ CRLF) = false ->
  forall (fuel n : nat),
    (forall m, (n <= m)%nat -> skt m = []) ->
    clientContact fuel skt n fullMessage = None.
Proof.
  intros Hend fuel.
  induction fuel as [|fuel IH]; intros n Hclosed; cbn [clientContact].
  - now rewrite Hend.
  - rewrite Hend, (Hclosed n) by lia. cbn [decode].
    rewrite app_nil_r. apply IH. intros m Hm. apply Hclosed. lia.
Qed.

(** The equations of the handler monad, as a rewrite base. *)
Lemma bind_ret {A B} (a : A) (k : A -> M B) (w : World) :
  (mret a ≫= k) w = k a w.
Proof. reflexivity. Qed.

Lemma bind_lift_ok {A B} (a : A) (k : A -> M B) (w : World) :
  (lift (Ok a) ≫= k) w = k a w.
Proof. reflexivity. Qed.

Lemma bind_lift_raise {A B} (e : exn) (k : A -> M B) (w : World) :
  (lift (Raise e) ≫= k) w = (w, Raises e).
Proof. reflexivity. Qed.

Lemma bind_acquire {B} (l : lock) (k : unit -> M B) (w : World) :
  (acquire l ≫= k) w
  = if locked l (globals w) then (w, Blocks)
    else k tt (mkWorld (set_lock l true (globals w)) (trace w)).
Proof.
  unfold mbind, M_bind, acquire. now destruct (locked l (globals w)).
Qed.

Lemma bind_release {B} (l : lock) (k : unit -> M B) (w : World) :
  (release l ≫= k) w
  = if locked l (globals w)
    then k tt (mkWorld (set_lock l false (globals w)) (trace w))
    else (w, Raises RuntimeError).
Proof.
  unfold mbind, M_bind, release. now destruct (locked l (globals w)).
Qed.

Lemma bind_get {B} (k : ProxyState -> M B) (w : World) :
  (get ≫= k) w = k (globals w) w.
Proof. reflexivity. Qed.

Lemma bind_put {B} (g : ProxyState) (k : unit -> M B) (w : World) :
  (put g ≫= k) w = k tt (mkWorld g (trace w)).
Proof. reflexivity. Qed.

Lemma bind_emit {B} (e : event) (k : unit -> M B) (w : World) :
  (emit e ≫= k) w = k tt (mkWorld (globals w) (trace w ++ [e])).
Proof. reflexivity. Qed.

Lemma bind_send_bytes {B} (d : bytes) (k : unit -> M B) (w : World) :
  (send_client (Bytes d) ≫= k) w
  = k tt (mkWorld (globals w) (trace w ++ [ToClient d])).
Proof. reflexivity. Qed.

Lemma bind_assoc {A B C} (m : M A) (k : A -> M B) (h : B -> M C) (w : World) :
  ((m ≫= k) ≫= h) w = (m ≫= fun a => k a ≫= h) w.
Proof.
  unfold mbind, M_bind. destruct (m w) as [w' [a|e|]]; reflexivity.
Qed.

Lemma bind_run {A B} (m : M A) (k : A -> M B) (w w' : World) (a : A) :
  m w = (w', Returns a) -> (m ≫= k) w = k a w'.
Proof. intros H. unfold mbind, M_bind. now rewrite H. Qed.

Lemma bind_run_raise {A B} (m : M A) (k : A -> M B) (w w' : World) (e : exn) :
  m w = (w', Raises e) -> (m ≫= k) w = (w', Raises e).
Proof. intros H. unfold mbind, M_bind. now rewrite H. Qed.

Lemma bind_run_blocks {A B} (m : M A) (k : A -> M B) (w w' : World) :
  m w = (w', Blocks) -> (m ≫= k) w = (w', Blocks).
Proof. intros H. unfold mbind, M_bind. now rewrite H. Qed.

Create Rewrite HintDb handler.
#[global] Hint Rewrite @bind_assoc @bind_ret @bind_lift_ok @bind_lift_raise
  @bind_get @bind_put @bind_emit @bind_send_bytes @bind_acquire @bind_release
  : handler.

(** Reading a lock after it was set, or after another variable was. *)
Ltac locks :=
  cbn [locked set_lock set_cache set_blacklist set_cacheActive
       set_blacklistActive cache blacklist cacheActive blacklistActive
       cacheLock blacklistLock globals trace].

Ltac msimpl :=
  repeat progress (cbn [globals trace fst snd expect]; autorewrite with handler).

(** Closing a run: the last effect, and the trace as one list. *)
Ltac mdone :=
  unfold send_client, emit, put, lift;
  cbn [globals trace]; rewrite <- ?app_assoc; reflexivity.

(** Two states are equal when their six variables are. *)
Lemma state_eq (g g' : ProxyState) :
  cache g = cache g' -> blacklist g = blacklist g' ->
  cacheActive g = cacheActive g' -> blacklistActive g = blacklistActive g' ->
  cacheLock g = cacheLock g' -> blacklistLock g = blacklistLock g' ->
  g = g'.
Proof. destruct g, g'. cbn. now intros -> -> -> -> -> ->. Qed.

(** Closing a run whose state went through [acquire()] and [release()]:
    the variables are compared one by one. *)
Ltac settled :=
  unfold send_client, emit, put, lift, mret, M_ret;
  cbn [globals trace]; rewrite <- ?app_assoc;
  first [ reflexivity
        | apply (f_equal2 pair); [|reflexivity];
          apply (f_equal2 mkWorld); [|reflexivity];
          apply state_eq; locks; congruence ].

Section HandlerFacts.

Context `{PL : PyLib}.
Variable origin : Origin.

(** The loop visits exactly the patterns of the blocklist. *)
Lemma elem_of_iteration (s : gset pystr) (p : pystr) :
  p ∈ iteration s <-> p ∈ s.
Proof. rewrite (iteration_elements s). apply elem_of_elements. Qed.

Lemma checkBlacklist_miss (patterns : list pystr) (request : Request) (w : World) :
  (forall p, p ∈ patterns ->
     exists dest, destination request = Ok dest /\ re_search p dest = Ok false) ->
  checkBlacklist patterns request w = (w, Returns false).
Proof.
  induction patterns as [|p patterns IH]; intros H; [reflexivity|].
  destruct (H p) as (dest & Hd & Hs); [left|].
  cbn [checkBlacklist]. msimpl. rewrite Hd. msimpl. rewrite Hs. msimpl.
  apply IH. intros q Hq. apply H. now right.
Qed.

Lemma checkBlacklist_hit (patterns : list pystr) (request : Request)
    (dest pattern : pystr) (w : World) :
  blacklistLock (globals w) = true ->
  destination request = Ok dest ->
  pattern ∈ patterns ->
  re_search pattern dest = Ok true ->
  (forall p, p ∈ patterns -> exists r, re_search p dest = Ok r) ->
  checkBlacklist patterns request w
  = (mkWorld (set_lock BlacklistLock false (globals w))
             (trace w ++ [ToClient reply_403]),
     Returns true).
Proof.
  intros Hheld Hd Hin Hhit. induction patterns as [|p patterns IH]; intros Hall.
  - inversion Hin.
  - cbn [checkBlacklist]. msimpl. rewrite Hd. msimpl.
    destruct (Hall p) as [[|] Hp]; [left| |]; rewrite Hp; msimpl.
    + locks. rewrite Hheld. reflexivity.
    + apply IH.
      * inversion Hin; subst; [congruence | assumption].
      * intros q Hq. apply Hall. now right.
Qed.

(** The blocklist phase of [handleRequest], lines 170 to 177. *)
Lemma blacklistPhase_pass (request : Request) (g : ProxyState) (tr : list event) :
  unblocked g request ->
  blacklistPhase request (mkWorld g tr) = (mkWorld g tr, Returns false).
Proof.
  intros Hu. unfold unblocked in Hu. unfold blacklistPhase. msimpl.
  destruct (blacklistActive g); [|reflexivity].
  destruct (Hu eq_refl) as [Hfree Hall]. msimpl. locks. rewrite Hfree. msimpl.
  locks. erewrite bind_run.
  2:{ apply checkBlacklist_miss. intros p Hp. apply Hall.
      now apply elem_of_iteration. }
  cbv beta iota. msimpl. locks. settled.
Qed.

Lemma blacklistPhase_hit (request : Request) (g : ProxyState) (tr : list event)
    (dest pattern : pystr) :
  blacklistActive g = true ->
  blacklistLock g = false ->
  destination request = Ok dest ->
  pattern ∈ blacklist g ->
  re_search pattern dest = Ok true ->
  (forall p, p ∈ blacklist g -> exists r, re_search p dest = Ok r) ->
  blacklistPhase request (mkWorld g tr)
  = (mkWorld g (tr ++ [ToClient reply_403]), Returns true).
Proof.
  intros Ha Hfree Hd Hin Hhit Hall. unfold blacklistPhase. msimpl.
  rewrite Ha. msimpl. locks. rewrite Hfree. msimpl. locks.
  erewrite bind_run.
  2:{ apply (checkBlacklist_hit _ _ dest pattern); try assumption.
      - reflexivity.
      - now apply elem_of_iteration.
      - intros p Hp. apply Hall. now apply elem_of_iteration. }
  cbv beta iota. settled.
Qed.

(** [handleRequest] in two phases: the blocklist, then the exchange with
    the origin. *)
Lemma handleRequest_blocked (request : Request) (w w' : World) :
  blacklistPhase request w = (w', Returns true) ->
  handleRequest origin request w = (w', Returns tt).
Proof.
  intros Hc. unfold handleRequest.
  rewrite (bind_run _ _ _ _ _ Hc). reflexivity.
Qed.

(** C8 (amended): with blocklisting enabled and the blocklist's lock free,
    a request whose destination [host:port] is found by one of the
    blocklist's patterns, when [re.search] raises on none of the patterns,
    is answered with exactly [HTTP/1.0 403 Forbidden] and a blank line and
    nothing else happens: no connection to the origin, and the cache and
    the rest of the state are as before, whatever they hold and in
    whatever order the set is iterated. *)
Theorem C8_blocked_request_gets_403 (request : Request) (host pattern : pystr)
    (g : ProxyState) (tr : list event) :
  req_type request = REGULAR ->
  req_host request = Some host ->
  blacklistActive g = true ->
  blacklistLock g = false ->
  pattern ∈ blacklist g ->
  re_search pattern (host ++ u ":" ++ str_of_port (req_port request)) = Ok true ->
  (forall p, p ∈ blacklist g ->
     exists r, re_search p (host ++ u ":" ++ str_of_port (req_port request)) = Ok r) ->
  handleRequest origin request (mkWorld g tr)
  = (mkWorld g (tr ++ [ToClient (b "HTTP/1.0 403 Forbidden"
                                   ++ [x0d; x0a; x0d; x0a])]),
     Returns tt).
Proof.
  intros _ Hh Ha Hfree Hin Hhit Hall.
  apply handleRequest_blocked.
  apply (blacklistPhase_hit _ _ _
           (host ++ u ":" ++ str_of_port (req_port request)) pattern);
    try assumption.
  unfold destination. rewrite Hh. reflexivity.
Qed.

(** *** Requests that go to the origin

    The shared assumptions: the request names a host, a port and a path,
    passes the blocklist, the origin accepts the connection, and the
    cache's lock is free. *)
Section Forwarding.

Variables (request : Request) (host path : pystr) (port : Z).
Variables (g : ProxyState) (tr : list event).

Hypothesis Hhost : req_host request = Some host.
Hypothesis Hport : req_port request = Some port.
Hypothesis Hpath : req_path request = Some path.
Hypothesis Hpass : unblocked g request.
Hypothesis Hconnect : connect origin host port = Ok tt.
Hypothesis Hfree : cacheLock g = false.

(** The cache key of the request. *)
Local Abbreviation key := (cache_key host port path).

Lemma connect_server_ok (w : World) :
  connect_server origin request w
  = (mkWorld (globals w) (trace w ++ [Connect host port]), Returns (host, port)).
Proof.
  unfold connect_server. rewrite Hhost, Hport. msimpl.
  rewrite Hconnect. msimpl. reflexivity.
Qed.

Lemma exchange_run (data : bytes) (w : World) :
  exchange origin (host, port) data w
  = (mkWorld (globals w) (trace w ++ [ToServer data]),
     Returns (serverContact (reply origin host port data) [])).
Proof. reflexivity. Qed.

Lemma destination_ok :
  destination request = Ok (host ++ u ":" ++ str_of_int port).
Proof. unfold destination. rewrite Hhost, Hport. reflexivity. Qed.

(** Entering [handleRequest]: past the blocklist. *)
Ltac enter :=
  unfold handleRequest;
  rewrite (bind_run _ _ _ _ _ (blacklistPhase_pass request g tr Hpass));
  cbv beta iota; rewrite bind_get; cbn [globals].

(** Taking the cache's lock, which is free. *)
Ltac take_lock := msimpl; locks; rewrite ?Hfree; msimpl; locks.

(** Caching disabled: the request is rebuilt, sent, and the framed
    response relayed as received. *)
Lemma handleRequest_uncached (message : pystr) (data : bytes) :
  cacheActive g = false ->
  buildMessage request = Ok message ->
  encode message = Ok data ->
  handleRequest origin request (mkWorld g tr)
  = (mkWorld g (tr ++ [Connect host port; ToServer data;
                       ToClient (serverContact (reply origin host port data) [])]),
     Returns tt).
Proof.
  intros Hc Hm He. enter. rewrite Hc.
  rewrite (bind_run _ _ _ _ _ (connect_server_ok _)), Hm. msimpl.
  rewrite He. msimpl.
  rewrite (bind_run _ _ _ _ _ (exchange_run _ _)).
  mdone.
Qed.

(** Caching enabled, key absent: as above, and a response that decodes and
    contains [200 OK] is stored, decoded, under the key. *)
Lemma handleRequest_miss (message text : pystr) (data : bytes) :
  cacheActive g = true ->
  cache g !! key = None ->
  buildMessage request = Ok message ->
  encode message = Ok data ->
  decode (serverContact (reply origin host port data) []) = Ok text ->
  handleRequest origin request (mkWorld g tr)
  = (mkWorld (if negb (find text (u "200 OK") =? -1)
              then set_cache (<[key := text]> (cache g)) g else g)
             (tr ++ [Connect host port; ToServer data;
                     ToClient (serverContact (reply origin host port data) [])]),
     Returns tt).
Proof.
  intros Hc Hk Hm He Hd. enter. rewrite Hc, destination_ok. msimpl.
  rewrite Hpath. msimpl. fold (cache_key host port path). rewrite Hk.
  rewrite (bind_run _ _ _ _ _ (connect_server_ok _)), Hm. msimpl.
  rewrite He. msimpl.
  rewrite (bind_run _ _ _ _ _ (exchange_run _ _)), Hd. msimpl.
  destruct (negb (find text (u "200 OK") =? -1)).
  - take_lock. settled.
  - msimpl. mdone.
Qed.

(** Caching enabled, key absent, and the response is not valid UTF-8:
    [response.decode()] raises after the request went out; nothing is
    stored and nothing reaches the client. *)
Lemma handleRequest_miss_undecodable (message : pystr) (data : bytes) (e : exn) :
  cacheActive g = true ->
  cache g !! key = None ->
  buildMessage request = Ok message ->
  encode message = Ok data ->
  decode (serverContact (reply origin host port data) []) = Raise e ->
  handleRequest origin request (mkWorld g tr)
  = (mkWorld g (tr ++ [Connect host port; ToServer data]), Raises e).
Proof.
  intros Hc Hk Hm He Hd. enter. rewrite Hc, destination_ok. msimpl.
  rewrite Hpath. msimpl. fold (cache_key host port path). rewrite Hk.
  rewrite (bind_run _ _ _ _ _ (connect_server_ok _)), Hm. msimpl.
  rewrite He. msimpl.
  rewrite (bind_run _ _ _ _ _ (exchange_run _ _)), Hd. msimpl.
  mdone.
Qed.

(** Entering the revalidation branch: the key is cached, the entry is read
    under the lock, and the connection is made before the conditional GET
    is put together. *)
Ltac revalidate Hc Hk :=
  enter; rewrite Hc, destination_ok; msimpl; rewrite Hpath; msimpl;
  fold (cache_key host port path); rewrite Hk;
  take_lock; fold (cache_key host port path); rewrite Hk; take_lock;
  rewrite (bind_run _ _ _ _ _ (connect_server_ok _)).

(** A cached entry without [Last-Modified:]: [index] raises while the
    conditional GET is being built. The origin has been connected to, and
    no request is sent. *)
Lemma handleRequest_no_last_modified (cachedObject : pystr) :
  cacheActive g = true ->
  cache g !! key = Some cachedObject ->
  find cachedObject (u "Last-Modified:") = -1 ->
  handleRequest origin request (mkWorld g tr)
  = (mkWorld g (tr ++ [Connect host port]), Raises ValueError).
Proof.
  intros Hc Hk Hf. revalidate Hc Hk.
  unfold conditionalGet, index. rewrite Hpath, Hhost, Hf.
  cbn [expect mbind result_bind Z.eqb Pos.eqb]. msimpl. settled.
Qed.

(** Revalidation answered [304 Not Modified]: the stored entry is encoded
    and sent; the state is as before. *)
Lemma handleRequest_not_modified (cachedObject message response : pystr)
    (data stored : bytes) :
  cacheActive g = true ->
  cache g !! key = Some cachedObject ->
  conditionalGet request cachedObject = Ok message ->
  encode message = Ok data ->
  decode (serverContact (reply origin host port data) []) = Ok response ->
  find response (u "304 Not Modified") <> -1 ->
  encode cachedObject = Ok stored ->
  handleRequest origin request (mkWorld g tr)
  = (mkWorld g (tr ++ [Connect host port; ToServer data; ToClient stored]),
     Returns tt).
Proof.
  intros Hc Hk Hm He Hd Hf Hs. revalidate Hc Hk.
  rewrite Hm. msimpl. rewrite He. msimpl.
  rewrite (bind_run _ _ _ _ _ (exchange_run _ _)), Hd. msimpl.
  apply Z.eqb_neq in Hf. rewrite Hf. cbn [negb]. rewrite Hs. msimpl. settled.
Qed.

(** Revalidation answered anything else: the entry is replaced (when the
    response contains [200 OK]) or deleted under the lock, and then
    [sendall] is handed the decoded response, a [str]: a [TypeError], and
    the client is sent nothing. *)
Lemma handleRequest_modified (cachedObject message response : pystr)
    (data : bytes) :
  cacheActive g = true ->
  cache g !! key = Some cachedObject ->
  conditionalGet request cachedObject = Ok message ->
  encode message = Ok data ->
  decode (serverContact (reply origin host port data) []) = Ok response ->
  find response (u "304 Not Modified") = -1 ->
  handleRequest origin request (mkWorld g tr)
  = (mkWorld
       (set_cache (if find response (u "200 OK") =? -1
                   then delete key (cache g)
                   else <[key := response]> (cache g)) g)
       (tr ++ [Connect host port; ToServer data]),
     Raises TypeError).
Proof.
  intros Hc Hk Hm He Hd Hf. revalidate Hc Hk.
  rewrite Hm. msimpl. rewrite He. msimpl.
  rewrite (bind_run _ _ _ _ _ (exchange_run _ _)), Hd. msimpl.
  rewrite Hf. cbn [negb Z.eqb Pos.eqb]. take_lock.
  destruct (find response (u "200 OK") =? -1); take_lock; settled.
Qed.

End Forwarding.

End HandlerFacts.

(** *** Replay from the cache

    A fetched response that is text (valid UTF-8), contains [200 OK] and
    has a [Last-Modified:] line from which the conditional GET can be
    built is stored, and a revalidation answered [304 Not Modified] sends
    the client the very bytes of the first fetch; the entry and the rest
    of the state stay as the first request left them. *)
Lemma cached_response_replayed `{PL : PyLib} (first second : Origin)
    (request : Request) (host path : pystr) (port : Z) (g : ProxyState)
    (tr tr' : list event) (message text revalidation answer : pystr)
    (data data' : bytes) :
  req_host request = Some host ->
  req_port request = Some port ->
  req_path request = Some path ->
  unblocked g request ->
  cacheActive g = true ->
  cacheLock g = false ->
  cache g !! cache_key host port path = None ->
  connect first host port = Ok tt ->
  buildMessage request = Ok message ->
  encode message = Ok data ->
  decode (serverContact (reply first host port data) []) = Ok text ->
  find text (u "200 OK") <> -1 ->
  connect second host port = Ok tt ->
  conditionalGet request text = Ok revalidation ->
  encode revalidation = Ok data' ->
  decode (serverContact (reply second host port data') []) = Ok answer ->
  find answer (u "304 Not Modified") <> -1 ->
  let fetched := serverContact (reply first host port data) [] in
  let g1 := set_cache (<[cache_key host port path := text]> (cache g)) g in
  handleRequest first request (mkWorld g tr)
  = (mkWorld g1 (tr ++ [Connect host port; ToServer data; ToClient fetched]),
     Returns tt)
  /\ handleRequest second request (mkWorld g1 tr')
     = (mkWorld g1 (tr' ++ [Connect host port; ToServer data';
                            ToClient fetched]),
        Returns tt).
Proof.
  intros Hh Hp Hpa Hpass Hc Hfree Hk Hc1 Hm He Hd H200 Hc2 Hm' He' Hd' H304
         fetched g1.
  split.
  - rewrite (handleRequest_miss first request host path port g tr
               Hh Hp Hpa Hpass Hc1 Hfree message text data Hc Hk Hm He Hd).
    apply Z.eqb_neq in H200. rewrite H200. reflexivity.
  - apply (handleRequest_not_modified second request host path port g1 tr'
             Hh Hp Hpa Hpass Hc2 Hfree text revalidation answer data' fetched);
      try assumption.
    + cbn [g1 set_cache cache]. apply lookup_insert_eq.
    + now apply decode_encode.
Qed.

(** ** The scenarios *)

Section Scenario1.

Context `{PL : PyLib}.
Variable address : pystr.

Hypothesis Hurl : urlparse (u "http://example.com/") = Ok example_url.

(** What the parser makes of the example request: the client's [Host]
    line is kept as a header. *)
Lemma parse_example_request :
  exists text,
    decode example_request = Ok text
    /\ endswith text (CRLF ++ CRLF) = true
    /\ parseRequest address text
       = Ok (mkRequest REGULAR (Some example_host) (Some 80) (Some (u "/"))
                       (Some [(u "Host", example_host)])).
Proof.
  eexists. split; [vm_compute; reflexivity|]. split; [vm_compute; reflexivity|].
  rewrite (parseRequest_GET address _ (u "http://example.com/")
             (u "HTTP/1.0" ++ CRLF ++ u "Host:")
             [u "example.com" ++ CRLF ++ CRLF])
    by (vm_compute; reflexivity).
  rewrite Hurl. vm_compute. reflexivity.
Qed.

(** C3 (amended): with caching and blocklisting disabled, the example
    request makes the proxy connect to example.com:80 and send
    [GET / HTTP/1.0], the proxy's [Host] and [Connection: close] lines and
    then the client's own [Host: example.com] line again, so the [Host]
    header goes out twice; the origin's response bytes are relayed to the
    client unchanged and the connection is closed. No lock is taken on
    this path, so it does not matter whether one is held. *)
Theorem C3_example_forwarded_with_client_host (origin : Origin)
    (chunks : list bytes) (skt : nat -> bytes) (fuel : nat)
    (entries : gmap pystr pystr) (patterns : gset pystr)
    (cacheHeld blacklistHeld : bool) :
  skt 0%nat = example_request ->
  connect origin example_host 80 = Ok tt ->
  reply origin example_host 80 plain_get_with_client_host = chunks ->
  Forall (fun chunk => chunk <> []) chunks ->
  handleConnection address origin (S fuel) skt
    (mkWorld (mkState entries patterns false false cacheHeld blacklistHeld) [])
  = Some (mkWorld (mkState entries patterns false false cacheHeld blacklistHeld)
                  [Connect example_host 80;
                   ToServer plain_get_with_client_host;
                   ToClient (concat chunks); CloseClient],
          Returns tt).
Proof.
  intros Hskt Hconnect Hreply Hchunks.
  destruct parse_example_request as (text & Hd & He & Hp).
  unfold handleConnection. cbn [clientContact].
  change (endswith [] (CRLF ++ CRLF)) with false. cbv iota.
  rewrite Hskt, Hd. cbn [app]. rewrite (clientContact_done _ _ _ _ He).
  f_equal. msimpl. rewrite Hp. msimpl. cbn [req_type].
  erewrite bind_run.
  2:{ eapply (handleRequest_uncached origin _ example_host 80).
      - reflexivity.
      - reflexivity.
      - intros Hoff. discriminate Hoff.
      - exact Hconnect.
      - reflexivity.
      - vm_compute. reflexivity.
      - change (encode ?m) with (Ok plain_get_with_client_host). reflexivity. }
  rewrite Hreply, serverContact_all by assumption. mdone.
Qed.

End Scenario1.

(** ** Runs on concrete requests, with the CPython model of the library *)

(** C1: [parseRequest] does not classify every input. A header line whose
    colon is its last character raises [IndexError] at
    [message[colonIndex+1]], and a URL port that is not a number raises
    [ValueError] at [splitURL.port]; neither is one of the four
    classifications. *)
Theorem C1_parseRequest_raises :
  parseRequest (PL := Model.cpython) localhost
    (u "GET http://a/ HTTP/1.0" ++ CRLF ++ u "Host:" ++ CRLF ++ CRLF)
  = Raise IndexError
  /\ parseRequest (PL := Model.cpython) localhost
       (u "GET http://a:b/ HTTP/1.0" ++ CRLF ++ CRLF)
     = Raise ValueError.
Proof. split; vm_compute; reflexivity. Qed.

(** C2 (as stated) fails: the method [BREW] is not [GET], and the request
    is classified [BADREQ], not [NOTIMPL]. *)
Lemma C2_counterexample :
  method_of (u "BREW /pot HTTP/1.0" ++ CRLF ++ CRLF) <> u "GET"
  /\ parseRequest (PL := Model.cpython) localhost
       (u "BREW /pot HTTP/1.0" ++ CRLF ++ CRLF)
     = Ok badreq
  /\ badreq <> notimpl.
Proof.
  split; [vm_compute; discriminate|].
  split; [vm_compute; reflexivity | discriminate].
Qed.

(** C2 (amended) at the request [PUT /pot HTTP/1.0]. *)
Lemma C2_method_other_than_GET_witness :
  parseRequest (PL := Model.cpython) localhost (u "PUT /pot HTTP/1.0" ++ CRLF ++ CRLF)
  = Ok notimpl.
Proof.
  apply (C2_method_other_than_GET (PL := Model.cpython) localhost
           (u "PUT /pot HTTP/1.0" ++ CRLF ++ CRLF)).
  vm_compute. discriminate.
Defined.

(** C3 (as stated) fails: what goes to the origin for the example request
    carries the [Host] header twice, so it is not the plain GET with a
    single [Host] line. *)
Lemma C3_counterexample :
  exists w,
    handleConnection (PL := Model.cpython) localhost (serving [ok_response]) 1
                     (once example_request) (mkWorld (initial false false) [])
    = Some (w, Returns tt)
    /\ trace w = [Connect example_host 80; ToServer plain_get_with_client_host;
                  ToClient ok_response; CloseClient]
    /\ plain_get_with_client_host <> plain_get.
Proof.
  eexists. split; [vm_compute; reflexivity|].
  split; [reflexivity | vm_compute; discriminate].
Qed.

(** C3 (amended) with the CPython model, an origin answering 200 and a
    client that delivers the request in one read. *)
Lemma C3_example_forwarded_with_client_host_witness :
  handleConnection (PL := Model.cpython) localhost (serving [ok_response]) 1
                   (once example_request) (mkWorld (initial false false) [])
  = Some (mkWorld (initial false false)
                  [Connect example_host 80; ToServer plain_get_with_client_host;
                   ToClient (concat [ok_response]); CloseClient],
          Returns tt).
Proof.
  apply (C3_example_forwarded_with_client_host (PL := Model.cpython) localhost).
  - vm_compute. reflexivity.
  - reflexivity.
  - reflexivity.
  - reflexivity.
  - constructor; [discriminate | constructor].
Defined.

(** C4: with caching enabled, a 200 response whose body is not UTF-8 is
    neither relayed nor stored: [response.decode()] raises
    [UnicodeDecodeError] once the request has gone out. There is nothing
    to replay on a later request. *)
Theorem C4_binary_response_raises :
  handleConnection (PL := Model.cpython) localhost (serving [binary_response]) 1
                   (once bare_request) (mkWorld (initial true false) [])
  = Some (mkWorld (initial true false)
                  [Connect example_host 80; ToServer plain_get],
          Raises UnicodeDecodeError).
Proof. vm_compute. reflexivity. Qed.

(** C5: a revalidation answered [404 Not Found] deletes the cached entry,
    and then the handler raises [TypeError] at
    [clientskt.sendall(response)], whose argument is a [str]: the client
    is sent nothing. *)
Theorem C5_revalidation_404_raises :
  handleConnection (PL := Model.cpython) localhost (serving [not_found_response]) 1
                   (once bare_request) (mkWorld (caching_with dated_entry) [])
  = Some (mkWorld (initial true false)
                  [Connect example_host 80; ToServer conditional_get],
          Raises TypeError).
Proof. vm_compute. reflexivity. Qed.

(** C6: the command paths [cache] and [blocklist/add] raise [IndexError]
    in [handleCommand] (at [commandRequest[1]] and [commandRequest[2]]):
    the client gets no reply and the connection is not closed. For
    [blocklist/add] the exception comes after [blacklistLock.acquire()],
    and the lock stays held. *)
Theorem C6_truncated_command_raises :
  handleConnection (PL := Model.cpython) localhost (serving []) 1
                   (once (command_request "cache"))
                   (mkWorld (initial false false) [])
  = Some (mkWorld (initial false false) [], Raises IndexError)
  /\ handleConnection (PL := Model.cpython) localhost (serving []) 1
                      (once (command_request "blocklist/add"))
                      (mkWorld (initial false false) [])
     = Some (mkWorld (set_lock BlacklistLock true (initial false false)) [],
             Raises IndexError).
Proof. split; vm_compute; reflexivity. Qed.

(** C7: a client that sends the request line and closes leaves
    [clientContact] reading empty results for ever: however many reads
    are allowed, [handleConnection] has not returned, and no reply is
    sent. *)
Theorem C7_closed_before_terminator_never_returns `{PL : PyLib}
    (address : pystr) (origin : Origin) (w : World) (fuel : nat) :
  handleConnection address origin fuel
    (once (b "GET http://example.com/ HTTP/1.0" ++ bCRLF)) w
  = None.
Proof.
  unfold handleConnection.
  destruct fuel as [|fuel]; [reflexivity|].
  cbn [clientContact]. change (endswith [] (CRLF ++ CRLF)) with false. cbv iota.
  change (decode (once (b "GET http://example.com/ HTTP/1.0" ++ bCRLF) 0%nat))
    with (Ok (u "GET http://example.com/ HTTP/1.0" ++ CRLF)).
  cbn [app]. rewrite clientContact_closed_peer; [reflexivity | reflexivity |].
  intros [|m] Hm; [lia | reflexivity].
Qed.

(** C8 (as stated) fails: the blocklist holds [example\.com], which is
    found in the destination of the example request, and [(x], which is
    not a regular expression. When the loop comes to [(x] first, as it
    does in the order of the model, [re.search] raises: the client is
    sent nothing, and the blocklist's lock stays held. *)
Lemma C8_counterexample :
  let g := blocking {[u "example\.com"; u "(x"]} in
  req_type example_parsed = REGULAR
  /\ blacklistActive g = true
  /\ u "example\.com" ∈ blacklist g
  /\ destination example_parsed = Ok (u "example.com:80")
  /\ re_search (PyLib := Model.cpython) (u "example\.com") (u "example.com:80")
     = Ok true
  /\ handleRequest (PL := Model.cpython) (serving [ok_response]) example_parsed
                   (mkWorld g [])
     = (mkWorld (set_lock BlacklistLock true g) [], Raises ReError).
Proof.
  repeat split; vm_compute; reflexivity.
Qed.

(** C8 (amended) at scenario 2: the blocklist holds the pattern
    [example\.com]. *)
Lemma C8_blocked_request_gets_403_witness :
  handleRequest (PL := Model.cpython) (serving [ok_response]) example_parsed
    (mkWorld (blocking {[u "example\.com"]}) [])
  = (mkWorld (blocking {[u "example\.com"]})
             ([] ++ [ToClient (b "HTTP/1.0 403 Forbidden"
                                 ++ [x0d; x0a; x0d; x0a])]),
     Returns tt).
Proof.
  apply (C8_blocked_request_gets_403 (PL := Model.cpython) (serving [ok_response])
           example_parsed example_host (u "example\.com")
           (blocking {[u "example\.com"]}) []).
  - reflexivity.
  - reflexivity.
  - reflexivity.
  - reflexivity.
  - vm_compute. reflexivity.
  - vm_compute. reflexivity.
  - intros p Hp. cbn [blocking blacklist] in Hp.
    apply elem_of_singleton in Hp. subst p.
    exists true. vm_compute. reflexivity.
Defined.

(** C9: a cached entry without [Last-Modified:] makes the revalidation
    raise [ValueError] at [cachedObject.index('Last-Modified:')]: the
    origin has been connected to, and no request is sent to it. *)
Theorem C9_undated_entry_raises_before_request :
  handleConnection (PL := Model.cpython) localhost (serving [ok_response]) 1
                   (once bare_request) (mkWorld (caching_with undated_entry) [])
  = Some (mkWorld (caching_with undated_entry) [Connect example_host 80],
          Raises ValueError).
Proof. vm_compute. reflexivity. Qed.

(** C10 (as stated) fails: a GET request whose URL has no scheme, a path
    beginning with [/proxy/] and the proxy's address as host is
    classified [BADREQ] by the URL check that comes before the command
    check. *)
Lemma C10_counterexample :
  exists splitURL,
    split 32 (u "GET //localhost/proxy/cache/enable HTTP/1.0" ++ CRLF ++ CRLF)
    = [u "GET"; u "//localhost/proxy/cache/enable"; u "HTTP/1.0" ++ CRLF ++ CRLF]
    /\ urlparse (PyLib := Model.cpython) (u "//localhost/proxy/cache/enable") = Ok splitURL
    /\ startswith (path splitURL) (u "/proxy/") = true
    /\ hostname splitURL = Some localhost
    /\ parseRequest (PL := Model.cpython) localhost
         (u "GET //localhost/proxy/cache/enable HTTP/1.0" ++ CRLF ++ CRLF)
       = Ok badreq.
Proof.
  eexists. split; [vm_compute; reflexivity|].
  split; [vm_compute; reflexivity|].
  repeat split; vm_compute; reflexivity.
Qed.

(** C10 (amended) at a command request followed by two lines that are not
    headers. *)
Lemma C10_command_before_headers_witness :
  parseRequest (PL := Model.cpython) localhost
    (u "GET http://localhost/proxy/cache/enable HTTP/1.0" ++ CRLF
       ++ u "no colon here" ++ CRLF ++ u ": no name" ++ CRLF ++ CRLF)
  = Ok (mkRequest COMMAND None None (Some (u "cache/enable")) (Some [])).
Proof.
  apply (C10_command_before_headers (PL := Model.cpython) localhost _
           (u "http://localhost/proxy/cache/enable")
           (u "HTTP/1.0" ++ CRLF ++ u "no")
           [u "colon"; u "here" ++ CRLF ++ u ":"; u "no"; u "name" ++ CRLF ++ CRLF]
           (mkParseResult (u "http") localhost (u "/proxy/cache/enable")
                          (Some localhost) (Ok None))
           None).
  - vm_compute. reflexivity.
  - vm_compute. reflexivity.
  - vm_compute. reflexivity.
  - vm_compute. discriminate.
  - vm_compute. discriminate.
  - reflexivity.
  - vm_compute. reflexivity.
  - reflexivity.
Defined.

(** Scenario 4 of the specification: the cache holds a dated entry for
    [example.com:80/], the revalidation is answered [304 Not Modified],
    and the client receives the stored response; the entry is untouched. *)
Example revalidation_304_replays_entry :
  handleConnection (PL := Model.cpython) localhost
                   (serving [b "HTTP/1.0 304 Not Modified" ++ bCRLF ++ bCRLF]) 1
                   (once bare_request) (mkWorld (caching_with dated_entry) [])
  = Some (mkWorld (caching_with dated_entry)
                  [Connect example_host 80; ToServer conditional_get;
                   ToClient (b "HTTP/1.0 200 OK" ++ bCRLF
                               ++ b "Last-Modified: Tue, 01 Jan 2025 00:00:00 GMT"
                               ++ bCRLF ++ bCRLF ++ b "body");
                   CloseClient],
          Returns tt).
Proof. vm_compute. reflexivity. Qed.

(** Scenario 3: the command [cache/enable] is answered 200 and turns
    caching on. *)
Example command_cache_enable :
  handleConnection (PL := Model.cpython) localhost (serving []) 1
                   (once (command_request "cache/enable"))
                   (mkWorld (initial false false) [])
  = Some (mkWorld (initial true false)
                  [ToClient (b "HTTP/1.0 200 OK" ++ [x0d; x0a; x0d; x0a]);
                   CloseClient],
          Returns tt).
Proof. vm_compute. reflexivity. Qed.

(** An unrecognised command with enough segments is ignored and still
    answered 200. *)
Example command_unknown_ignored :
  handleConnection (PL := Model.cpython) localhost (serving []) 1
                   (once (command_request "unknown/x"))
                   (mkWorld (initial false false) [])
  = Some (mkWorld (initial false false)
                  [ToClient (b "HTTP/1.0 200 OK" ++ [x0d; x0a; x0d; x0a]);
                   CloseClient],
          Returns tt).
Proof. vm_compute. reflexivity. Qed.

(** * Further properties of the code *)

(** ** The command processor *)

Lemma split_cons_sep (sep : N) (s : pystr) :
  split sep (sep :: s) = [] :: split sep s.
Proof. cbn [split]. now rewrite N.eqb_refl. Qed.

Lemma split_cons_other (sep c : N) (s : pystr) :
  c <> sep ->
  split sep (c :: s) = (c :: hd [] (split sep s)) :: tl (split sep s).
Proof.
  intros Hc. cbn [split]. apply N.eqb_neq in Hc. rewrite Hc.
  destruct (split sep s) eqn:E; [now apply split_nonempty in E | reflexivity].
Qed.

Lemma split_head (sep : N) (s : pystr) :
  split sep s = hd [] (split sep s) :: tl (split sep s).
Proof.
  destruct (split sep s) eqn:E; [now apply split_nonempty in E | reflexivity].
Qed.

(** A segment without the separator, followed by the separator, is the
    first piece. *)
Lemma split_segment (sep : N) (a rest : pystr) :
  ~ In sep a -> split sep (a ++ sep :: rest) = a :: split sep rest.
Proof.
  induction a as [|c a IH]; intros Ha.
  - apply split_cons_sep.
  - cbn [app]. rewrite split_cons_other by (intros ->; apply Ha; now left).
    rewrite IH by (intros Hin; apply Ha; now right). reflexivity.
Qed.

Lemma split_single (sep : N) (a : pystr) : ~ In sep a -> split sep a = [a].
Proof.
  induction a as [|c a IH]; intros Ha; [reflexivity|].
  rewrite split_cons_other by (intros ->; apply Ha; now left).
  rewrite IH by (intros Hin; apply Ha; now right). reflexivity.
Qed.

(** The pattern segment of [blocklist/add/<p>] and
    [blocklist/remove/<p>]: [commandRequest[2]], the text up to the first
    [/] of [p]. *)
Lemma split_blocklist_command (action p : pystr) :
  ~ In 47%N action ->
  split 47 (u "blocklist/" ++ action ++ u "/" ++ p)
  = u "blocklist" :: action :: split 47 p.
Proof.
  intros Ha.
  change (u "blocklist/" ++ action ++ u "/" ++ p)
    with (u "blocklist" ++ 47%N :: action ++ 47%N :: p).
  rewrite split_segment by (vm_compute; intuition discriminate).
  now rewrite split_segment.
Qed.

(** Indexing the list of segments. *)
Lemma getitem_0 {A} (x : A) (l : list A) : getitem (x :: l) 0 = Ok x.
Proof. reflexivity. Qed.

Lemma getitem_1 {A} (x y : A) (l : list A) : getitem (x :: y :: l) 1 = Ok y.
Proof. reflexivity. Qed.

Lemma getitem_2 {A} (x y z : A) (l : list A) :
  getitem (x :: y :: z :: l) 2 = Ok z.
Proof. reflexivity. Qed.

Lemma getitem_1_short {A} (x : A) : getitem [x] 1 = Raise IndexError.
Proof. reflexivity. Qed.

Lemma getitem_2_short {A} (x y : A) : getitem [x; y] 2 = Raise IndexError.
Proof. reflexivity. Qed.

#[global] Hint Rewrite @getitem_0 @getitem_1 @getitem_2 @getitem_1_short
  @getitem_2_short : handler.

(** Comparing two names written out in the source. *)
Ltac names :=
  repeat match goal with
         | |- context [str_eqb (u ?x) (u ?y)] =>
             let v := eval vm_compute in (str_eqb (u x) (u y)) in
             change (str_eqb (u x) (u y)) with v
         end;
  cbv iota.

Section CommandFacts.

Variable w : World.

(** The commands that change the blocklist, when its lock is free. *)
Section BlacklistFree.

Hypothesis Hfree : blacklistLock (globals w) = false.

Ltac steps :=
  repeat progress (autorewrite with handler; locks; rewrite ?Hfree).

Lemma handleCommand_add (p : pystr) :
  handleCommand (u "blocklist/add/" ++ p) w
  = (mkWorld (set_blacklist ({[pattern_segment p]} ∪ blacklist (globals w))
                            (globals w))
             (trace w),
     Returns tt).
Proof.
  unfold handleCommand.
  change (u "blocklist/add/" ++ p) with (u "blocklist/" ++ u "add" ++ u "/" ++ p).
  rewrite (split_blocklist_command (u "add") p)
    by (vm_compute; intuition discriminate).
  rewrite (split_head 47 p). fold (pattern_segment p).
  steps. names. steps. names. steps. settled.
Qed.

Lemma handleCommand_remove (p : pystr) :
  handleCommand (u "blocklist/remove/" ++ p) w
  = (mkWorld (set_blacklist (blacklist (globals w) ∖ {[pattern_segment p]})
                            (globals w))
             (trace w),
     Returns tt).
Proof.
  unfold handleCommand.
  change (u "blocklist/remove/" ++ p)
    with (u "blocklist/" ++ u "remove" ++ u "/" ++ p).
  rewrite (split_blocklist_command (u "remove") p)
    by (vm_compute; intuition discriminate).
  rewrite (split_head 47 p). fold (pattern_segment p).
  steps. names. steps. names. steps. settled.
Qed.

End BlacklistFree.

Lemma handleCommand_blocklist_enable :
  handleCommand (u "blocklist/enable") w
  = (mkWorld (set_blacklistActive true (globals w)) (trace w), Returns tt).
Proof. reflexivity. Qed.

Lemma handleCommand_cache_flush :
  cacheLock (globals w) = false ->
  handleCommand (u "cache/flush") w
  = (mkWorld (set_cache ∅ (globals w)) (trace w), Returns tt).
Proof.
  intros Hfree. unfold handleCommand.
  change (split 47 (u "cache/flush")) with [u "cache"; u "flush"].
  repeat progress (autorewrite with handler; locks; rewrite ?Hfree; names).
  settled.
Qed.

(** A command that needs the blocklist's lock waits for ever when the lock
    is held. *)
Lemma handleCommand_blocks (action : pystr) (rest : list pystr)
    (fullCommand : pystr) :
  split 47 fullCommand = u "blocklist" :: action :: rest ->
  action = u "add" \/ action = u "remove" \/ action = u "flush" ->
  blacklistLock (globals w) = true ->
  handleCommand fullCommand w = (w, Blocks).
Proof.
  intros E Haction Hheld. unfold handleCommand. rewrite E.
  destruct Haction as [ -> | [ -> | -> ] ];
    repeat progress (autorewrite with handler; locks; rewrite ?Hheld; names);
    reflexivity.
Qed.

End CommandFacts.

(** Every run of [handleCommand]: it does no socket I/O and never touches
    the cache's lock beyond taking and releasing it. When it returns, the
    blocklist's lock is as it was. When it raises, it is with
    [IndexError], and nothing has changed, unless the command was
    [blocklist/add] or [blocklist/remove] without a pattern: then
    [commandRequest[2]] raised after [blacklistLock.acquire()], and the
    lock is left held. When it blocks, nothing has changed. *)
Lemma handleCommand_frame (fullCommand : pystr) (w w' : World)
    (r : outcome unit) :
  handleCommand fullCommand w = (w', r) ->
  trace w' = trace w
  /\ cacheLock (globals w') = cacheLock (globals w)
  /\ match r with
     | Returns _ => blacklistLock (globals w') = blacklistLock (globals w)
     | Raises e =>
         e = IndexError
         /\ (w' = w
             \/ exists action,
                  split 47 fullCommand = [u "blocklist"; action]
                  /\ (action = u "add" \/ action = u "remove")
                  /\ blacklistLock (globals w) = false
                  /\ w' = mkWorld (set_lock BlacklistLock true (globals w))
                                  (trace w))
     | Blocks => w' = w
     end.
Proof.
  unfold handleCommand.
  destruct (split 47 fullCommand) as [|target [|action [|pattern rest]]] eqn:E;
    [now apply split_nonempty in E|..];
    repeat (autorewrite with handler; locks;
            match goal with
            | |- context [if ?c then _ else _] => destruct c eqn:?
            end);
    autorewrite with handler; locks;
    unfold put, lift, mret, M_ret;
    intros H; injection H as <- <-; locks;
    repeat match goal with
           | H : str_eqb _ _ = true |- _ => apply str_eqb_eq in H; subst
           end;
    (split; [reflexivity|]); (split; [congruence|]);
    first [ congruence
          | destruct w; reflexivity
          | split; [reflexivity|]; first
              [ left; destruct w; reflexivity
              | right; eexists; split; [reflexivity|];
                split; [tauto|]; split; [assumption | reflexivity] ] ].
Qed.

(** Whatever the command path, [handleCommand] does no socket I/O and
    leaves the cache's lock as it was. When it returns, the blocklist's
    lock is as it was. When it fails it is with [IndexError], and then
    either nothing has changed, or the command was [blocklist/add] or
    [blocklist/remove] without a pattern and the only change is that the
    blocklist's lock, taken before [commandRequest[2]] was read, is left
    held. When it blocks, nothing has changed. *)
Theorem handleCommand_failures_and_locks (fullCommand : pystr)
    (w w' : World) (r : outcome unit) :
  handleCommand fullCommand w = (w', r) ->
  trace w' = trace w
  /\ cacheLock (globals w') = cacheLock (globals w)
  /\ match r with
     | Returns _ => blacklistLock (globals w') = blacklistLock (globals w)
     | Raises e =>
         e = IndexError
         /\ (w' = w
             \/ exists action,
                  split 47 fullCommand = [u "blocklist"; action]
                  /\ (action = u "add" \/ action = u "remove")
                  /\ blacklistLock (globals w) = false
                  /\ w' = mkWorld (set_lock BlacklistLock true (globals w))
                                  (trace w))
     | Blocks => w' = w
     end.
Proof. apply handleCommand_frame. Qed.

Lemma pattern_segment_whole (a : pystr) : ~ In 47%N a -> pattern_segment a = a.
Proof. intros Ha. unfold pattern_segment. now rewrite split_single. Qed.

Lemma pattern_segment_cut (a rest : pystr) :
  ~ In 47%N a -> pattern_segment (a ++ u "/" ++ rest) = a.
Proof.
  intros Ha. unfold pattern_segment.
  change (a ++ u "/" ++ rest) with (a ++ 47%N :: rest).
  now rewrite split_segment.
Qed.

(** [blocklist/add/<pattern>], with the blocklist's lock free, adds the
    pattern and changes nothing else; of a pattern that contains a [/]
    only the part before the first [/] is added. *)
Theorem blocklist_add_keeps_first_segment (a rest : pystr) (w : World) :
  blacklistLock (globals w) = false ->
  ~ In 47%N a ->
  let added :=
    mkWorld (set_blacklist ({[a]} ∪ blacklist (globals w)) (globals w))
            (trace w) in
  handleCommand (u "blocklist/add/" ++ a) w = (added, Returns tt)
  /\ handleCommand (u "blocklist/add/" ++ a ++ u "/" ++ rest) w
     = (added, Returns tt).
Proof.
  intros Hfree Ha added. split.
  - now rewrite handleCommand_add, pattern_segment_whole.
  - now rewrite handleCommand_add, pattern_segment_cut.
Qed.

Lemma blocklist_add_keeps_first_segment_witness :
  handleCommand (u "blocklist/add/example.com") (mkWorld (initial false true) [])
  = (mkWorld (blocking ({[u "example.com"]} ∪ ∅)) [], Returns tt)
  /\ handleCommand (u "blocklist/add/example.com" ++ u "/" ++ u "index.html")
                   (mkWorld (initial false true) [])
     = (mkWorld (blocking ({[u "example.com"]} ∪ ∅)) [], Returns tt).
Proof.
  apply (blocklist_add_keeps_first_segment (u "example.com") (u "index.html")
           (mkWorld (initial false true) [])).
  - reflexivity.
  - vm_compute. intuition discriminate.
Defined.

(** [blocklist/remove/<pattern>] twice, with the blocklist's lock free,
    leaves the state the first removal produced, and neither fails,
    whether or not the pattern was there. *)
Theorem blocklist_remove_idempotent (p : pystr) (w : World) :
  blacklistLock (globals w) = false ->
  exists w1,
    handleCommand (u "blocklist/remove/" ++ p) w = (w1, Returns tt)
    /\ handleCommand (u "blocklist/remove/" ++ p) w1 = (w1, Returns tt).
Proof.
  intros Hfree. eexists. split; [now apply handleCommand_remove|].
  rewrite handleCommand_remove by exact Hfree.
  apply (f_equal2 pair); [|reflexivity].
  apply (f_equal2 mkWorld); [|reflexivity].
  apply state_eq; locks; try reflexivity.
  apply set_eq. intros x. rewrite !elem_of_difference. tauto.
Qed.

Lemma blocklist_remove_idempotent_witness :
  exists w1,
    handleCommand (u "blocklist/remove/" ++ u "example.com")
      (mkWorld (blocking {[u "example.com"]}) [])
    = (w1, Returns tt)
    /\ handleCommand (u "blocklist/remove/" ++ u "example.com") w1
       = (w1, Returns tt).
Proof.
  apply (blocklist_remove_idempotent (u "example.com")
           (mkWorld (blocking {[u "example.com"]}) [])).
  reflexivity.
Defined.

(** Adding a pattern that was not in the blocklist and removing it again,
    with the blocklist's lock free, gives back the state before. *)
Theorem blocklist_add_remove_restores (p : pystr) (w : World) :
  blacklistLock (globals w) = false ->
  pattern_segment p ∉ blacklist (globals w) ->
  exists w1,
    handleCommand (u "blocklist/add/" ++ p) w = (w1, Returns tt)
    /\ handleCommand (u "blocklist/remove/" ++ p) w1 = (w, Returns tt).
Proof.
  intros Hfree Hfresh. eexists. split; [now apply handleCommand_add|].
  rewrite handleCommand_remove by exact Hfree.
  destruct w as [g tr]. cbn [globals trace] in *.
  apply (f_equal2 pair); [|reflexivity].
  apply (f_equal2 mkWorld); [|reflexivity].
  apply state_eq; locks; try reflexivity.
  apply set_eq. intros x.
  rewrite elem_of_difference, elem_of_union, elem_of_singleton.
  split; [tauto|]. intros Hx. split; [now right|]. now intros ->.
Qed.

Lemma blocklist_add_remove_restores_witness :
  exists w1,
    handleCommand (u "blocklist/add/" ++ u "example.com")
                  (mkWorld (initial true true) []) = (w1, Returns tt)
    /\ handleCommand (u "blocklist/remove/" ++ u "example.com") w1
       = (mkWorld (initial true true) [], Returns tt).
Proof.
  apply (blocklist_add_remove_restores (u "example.com")
           (mkWorld (initial true true) [])).
  - reflexivity.
  - cbn [globals initial blacklist]. apply not_elem_of_empty.
Defined.

(** A command whose first segment is neither [cache] nor [blocklist], or
    whose second segment is not the name of an action, is ignored: no
    failure, no change of state, nothing sent, and no lock taken. *)
Theorem unrecognised_command_ignored (fullCommand : pystr) (w : World) :
  (hd [] (split 47 fullCommand) <> u "cache"
   /\ hd [] (split 47 fullCommand) <> u "blocklist")
  \/ (exists target action rest,
        split 47 fullCommand = target :: action :: rest
        /\ ~ In action (map u ["enable"; "disable"; "flush"; "add"; "remove"]%string)) ->
  handleCommand fullCommand w = (w, Returns tt).
Proof.
  intros Hunknown. unfold handleCommand.
  destruct Hunknown as [[Hc Hb]|(target & action & rest & E & Ha)].
  - apply str_eqb_neq in Hc, Hb. rewrite (split_head 47 fullCommand).
    autorewrite with handler. now rewrite Hc, Hb.
  - rewrite E. autorewrite with handler.
    assert (Hne : forall name,
               In name ["enable"; "disable"; "flush"; "add"; "remove"]%string ->
               str_eqb action (u name) = false).
    { intros name Hin. apply str_eqb_neq. intros ->. apply Ha.
      now apply in_map. }
    destruct (str_eqb target (u "cache")); [|destruct (str_eqb target (u "blocklist"))];
      autorewrite with handler;
      rewrite ?Hne by (cbn; tauto); reflexivity.
Qed.

Lemma unrecognised_command_ignored_witness :
  handleCommand (u "cache/refresh") (mkWorld (initial true true) [])
  = (mkWorld (initial true true) [], Returns tt).
Proof.
  apply (unrecognised_command_ignored (u "cache/refresh")
           (mkWorld (initial true true) [])).
  right. exists (u "cache"), (u "refresh"), [].
  split; [vm_compute; reflexivity|]. vm_compute. intuition discriminate.
Defined.

(** ** Commands followed by requests *)

Section CommandsThenRequests.

Context `{PL : PyLib}.
Variable origin : Origin.

(** After [blocklist/add/<pattern>] and [blocklist/enable], a request
    whose destination the pattern is found in is answered with
    [HTTP/1.0 403 Forbidden] and a blank line and goes no further,
    provided the blocklist's lock is free and every pattern of the
    blocklist compiles. *)
Theorem added_pattern_blocks (request : Request) (host pattern : pystr)
    (g : ProxyState) (tr : list event) :
  blacklistLock g = false ->
  ~ In 47%N pattern ->
  req_host request = Some host ->
  re_search pattern (host ++ u ":" ++ str_of_port (req_port request)) = Ok true ->
  (forall p, p ∈ blacklist g ->
     exists r, re_search p (host ++ u ":" ++ str_of_port (req_port request)) = Ok r) ->
  exists w1 w2,
    handleCommand (u "blocklist/add/" ++ pattern) (mkWorld g tr) = (w1, Returns tt)
    /\ handleCommand (u "blocklist/enable") w1 = (w2, Returns tt)
    /\ handleRequest origin request w2
       = (mkWorld (globals w2)
                  (tr ++ [ToClient (b "HTTP/1.0 403 Forbidden"
                                      ++ [x0d; x0a; x0d; x0a])]),
          Returns tt).
Proof.
  intros Hfree Hp Hh Hhit Hall. eexists. eexists.
  split; [now apply handleCommand_add|].
  split; [apply handleCommand_blocklist_enable|].
  rewrite (pattern_segment_whole _ Hp). cbn [globals trace].
  apply handleRequest_blocked.
  apply (blacklistPhase_hit _ _ _
           (host ++ u ":" ++ str_of_port (req_port request)) pattern).
  - reflexivity.
  - exact Hfree.
  - unfold destination. now rewrite Hh.
  - cbn [blacklist set_blacklistActive set_blacklist].
    apply elem_of_union_l. now apply elem_of_singleton.
  - exact Hhit.
  - intros p Hin.
    cbn [blacklist set_blacklistActive set_blacklist] in Hin.
    apply elem_of_union in Hin as [Hin|Hin].
    + apply elem_of_singleton in Hin. subst p. now exists true.
    + now apply Hall.
Qed.

(** A request that finds the blocklist's lock held, with blocklisting
    enabled, waits for it: nothing is sent and nothing changes. *)
Lemma handleRequest_blocks (request : Request) (w : World) :
  blacklistActive (globals w) = true ->
  blacklistLock (globals w) = true ->
  handleRequest origin request w = (w, Blocks).
Proof.
  intros Ha Hheld. unfold handleRequest, blacklistPhase.
  repeat progress (autorewrite with handler; locks; rewrite ?Ha, ?Hheld).
  reflexivity.
Qed.

(** [blocklist/add] or [blocklist/remove] without a pattern leaves the
    blocklist's lock held, and nothing in the program releases it: from
    then on every command that changes the blocklist, and, with
    blocklisting enabled, every request, waits for the lock for ever; the
    client of such a connection is sent nothing. *)
Theorem truncated_blocklist_command_wedges_proxy (action : pystr) (w : World) :
  action = u "add" \/ action = u "remove" ->
  blacklistLock (globals w) = false ->
  let held := mkWorld (set_lock BlacklistLock true (globals w)) (trace w) in
  handleCommand (u "blocklist/" ++ action) w = (held, Raises IndexError)
  /\ (forall later p,
        later = u "add" \/ later = u "remove" ->
        handleCommand (u "blocklist/" ++ later ++ u "/" ++ p) held
        = (held, Blocks))
  /\ handleCommand (u "blocklist/flush") held = (held, Blocks)
  /\ (forall request,
        blacklistActive (globals w) = true ->
        handleRequest origin request held = (held, Blocks)).
Proof.
  intros Haction Hfree held. split; [|split; [|split]].
  - unfold handleCommand.
    destruct Haction as [ -> | -> ];
      [change (split 47 (u "blocklist/" ++ u "add"))
         with [u "blocklist"; u "add"]
      |change (split 47 (u "blocklist/" ++ u "remove"))
         with [u "blocklist"; u "remove"]];
      repeat progress (autorewrite with handler; locks; rewrite ?Hfree; names);
      reflexivity.
  - intros later p Hlater.
    apply (handleCommand_blocks held later (split 47 p)); [| tauto | reflexivity].
    apply split_blocklist_command.
    destruct Hlater as [ -> | -> ]; vm_compute; intuition discriminate.
  - now apply (handleCommand_blocks held (u "flush") []); [| tauto |].
  - intros request Ha. now apply handleRequest_blocks.
Qed.

End CommandsThenRequests.

Lemma added_pattern_blocks_witness :
  exists w1 w2,
    handleCommand (u "blocklist/add/" ++ u "example\.com")
                  (mkWorld (initial false false) []) = (w1, Returns tt)
    /\ handleCommand (u "blocklist/enable") w1 = (w2, Returns tt)
    /\ handleRequest (PL := Model.cpython) (serving [ok_response])
                     example_parsed w2
       = (mkWorld (globals w2)
                  ([] ++ [ToClient (b "HTTP/1.0 403 Forbidden"
                                      ++ [x0d; x0a; x0d; x0a])]),
          Returns tt).
Proof.
  apply (added_pattern_blocks (PL := Model.cpython) (serving [ok_response])
           example_parsed example_host (u "example\.com")
           (initial false false) []).
  - reflexivity.
  - vm_compute. intuition discriminate.
  - reflexivity.
  - vm_compute. reflexivity.
  - intros p Hp. cbn [initial blacklist] in Hp.
    now apply not_elem_of_empty in Hp.
Defined.

Lemma truncated_blocklist_command_wedges_proxy_witness :
  let held :=
    mkWorld (set_lock BlacklistLock true (initial false true)) [] in
  handleCommand (u "blocklist/" ++ u "add") (mkWorld (initial false true) [])
  = (held, Raises IndexError)
  /\ (forall later p,
        later = u "add" \/ later = u "remove" ->
        handleCommand (u "blocklist/" ++ later ++ u "/" ++ p) held
        = (held, Blocks))
  /\ handleCommand (u "blocklist/flush") held = (held, Blocks)
  /\ (forall request,
        blacklistActive (initial false true) = true ->
        handleRequest (PL := Model.cpython) (serving [ok_response]) request held
        = (held, Blocks)).
Proof.
  apply (truncated_blocklist_command_wedges_proxy (PL := Model.cpython)
           (serving [ok_response]) (u "add") (mkWorld (initial false true) [])).
  - now left.
  - reflexivity.
Defined.

(** ** Requests that go to the origin, continued *)

Section ForwardingOutcomes.

Context `{PL : PyLib}.
Variable origin : Origin.
Variables (request : Request) (host path : pystr) (port : Z).
Variables (g : ProxyState) (tr : list event).

Hypothesis Hhost : req_host request = Some host.
Hypothesis Hport : req_port request = Some port.
Hypothesis Hpath : req_path request = Some path.
Hypothesis Hpass : unblocked g request.

(** With caching disabled, a request that passes the blocklist is sent to
    the origin and whatever bytes come back are handed to the client as
    they are (they are never decoded); the state is not touched. *)
Theorem uncached_response_relayed_verbatim (message : pystr) (data : bytes) :
  connect origin host port = Ok tt ->
  cacheActive g = false ->
  buildMessage request = Ok message ->
  encode message = Ok data ->
  handleRequest origin request (mkWorld g tr)
  = (mkWorld g (tr ++ [Connect host port; ToServer data;
                       ToClient (serverContact (reply origin host port data) [])]),
     Returns tt).
Proof.
  intros Hconnect Hc Hm He.
  now apply (handleRequest_uncached origin request host port g tr Hhost Hport
               Hpass Hconnect message data).
Qed.

(** With caching enabled, the cache's lock free and the key absent, a
    response that decodes is relayed as received, and it is stored under
    the key exactly when its text contains [200 OK] somewhere, in the
    status line or not. *)
Theorem cache_miss_stores_iff_200_OK (message text : pystr) (data : bytes) :
  connect origin host port = Ok tt ->
  cacheActive g = true ->
  cacheLock g = false ->
  cache g !! cache_key host port path = None ->
  buildMessage request = Ok message ->
  encode message = Ok data ->
  decode (serverContact (reply origin host port data) []) = Ok text ->
  exists g',
    handleRequest origin request (mkWorld g tr)
    = (mkWorld g' (tr ++ [Connect host port; ToServer data;
                          ToClient (serverContact (reply origin host port data) [])]),
       Returns tt)
    /\ (find text (u "200 OK") <> -1 ->
        cache g' !! cache_key host port path = Some text)
    /\ (find text (u "200 OK") = -1 -> g' = g).
Proof.
  intros Hconnect Hc Hfree Hk Hm He Hd. eexists. split.
  - now apply (handleRequest_miss origin request host path port g tr Hhost
                 Hport Hpath Hpass Hconnect Hfree message text data).
  - split; intros H200.
    + apply Z.eqb_neq in H200. rewrite H200. cbn [negb set_cache cache].
      apply lookup_insert_eq.
    + rewrite H200. reflexivity.
Qed.

(** A revalidation (with the cache's lock free) whose reply does not
    contain [304 Not Modified] replaces the entry by the decoded reply
    when that contains [200 OK] and deletes it otherwise; the client is
    then sent nothing, because [sendall] is given a [str] and raises
    [TypeError]. The lock has been released by then. *)
Theorem revalidation_without_304_updates_cache_then_raises
    (cachedObject message response : pystr) (data : bytes) :
  connect origin host port = Ok tt ->
  cacheActive g = true ->
  cacheLock g = false ->
  cache g !! cache_key host port path = Some cachedObject ->
  conditionalGet request cachedObject = Ok message ->
  encode message = Ok data ->
  decode (serverContact (reply origin host port data) []) = Ok response ->
  find response (u "304 Not Modified") = -1 ->
  exists g',
    handleRequest origin request (mkWorld g tr)
    = (mkWorld g' (tr ++ [Connect host port; ToServer data]), Raises TypeError)
    /\ cache g' !! cache_key host port path
       = (if find response (u "200 OK") =? -1 then None else Some response)
    /\ (forall k, k <> cache_key host port path -> cache g' !! k = cache g !! k)
    /\ cacheLock g' = false.
Proof.
  intros Hconnect Hc Hfree Hk Hm He Hd Hf. eexists. split.
  - now apply (handleRequest_modified origin request host path port g tr Hhost
                 Hport Hpath Hpass Hconnect Hfree cachedObject message response
                 data).
  - cbn [set_cache cache cacheLock].
    destruct (find response (u "200 OK") =? -1); repeat split;
      try exact Hfree.
    + apply lookup_delete_eq.
    + intros k Hne. now apply lookup_delete_ne.
    + apply lookup_insert_eq.
    + intros k Hne. now apply lookup_insert_ne.
Qed.

(** A connection the origin does not accept ends the handler with the
    socket's error, whatever the caching switch and the cache hold (with
    the cache's lock free): the client is sent nothing (no error reply),
    and the state is untouched. *)
Theorem refused_connection_propagates (e : exn) :
  connect origin host port = Raise e ->
  cacheLock g = false ->
  handleRequest origin request (mkWorld g tr)
  = (mkWorld g (tr ++ [Connect host port]), Raises e).
Proof.
  intros Hconnect Hfree.
  assert (Hcs : forall w, connect_server origin request w
                     = (mkWorld (globals w) (trace w ++ [Connect host port]),
                        Raises e)).
  { intros w. unfold connect_server. rewrite Hhost, Hport. msimpl.
    rewrite Hconnect. msimpl. reflexivity. }
  unfold handleRequest.
  rewrite (bind_run _ _ _ _ _ (blacklistPhase_pass request g tr Hpass)).
  cbv beta iota. rewrite bind_get. cbn [globals].
  assert (Hdest : destination request = Ok (host ++ u ":" ++ str_of_int port)).
  { unfold destination. now rewrite Hhost, Hport. }
  destruct (cacheActive g).
  - rewrite Hdest, Hpath. msimpl.
    match goal with
    | |- context [cache g !! ?k] => destruct (cache g !! k) eqn:Hk
    end.
    + msimpl. locks. rewrite Hfree. msimpl. locks. rewrite Hk. msimpl. locks.
      rewrite (bind_run_raise _ _ _ _ _ (Hcs _)). settled.
    + now rewrite (bind_run_raise _ _ _ _ _ (Hcs _)).
  - now rewrite (bind_run_raise _ _ _ _ _ (Hcs _)).
Qed.

End ForwardingOutcomes.

(** ** What every run of a handler does and does not do *)

Lemma client_side_app (tr tr' : list event) :
  client_side (tr ++ tr') = client_side tr ++ client_side tr'.
Proof. unfold client_side. apply List.filter_app. Qed.

(** Case analysis of a run: step through the binds, branching on every
    result, condition and lock. *)
Ltac explore :=
  repeat first
    [ progress autorewrite with handler
    | progress locks
    | match goal with
      | H : ?c = _ |- context [if ?c then _ else _] => rewrite H
      | H : ?o = _ |- context [expect _ ?o] => rewrite H; cbn [expect]
      | |- (lift ?x ≫= _) _ = _ -> _ => destruct x eqn:?
      | |- ((if ?c then _ else _) ≫= _) _ = _ -> _ => destruct c eqn:?
      | |- (if ?c then _ else _) _ = _ -> _ => destruct c eqn:?
      | |- (if ?c then _ else _) = _ -> _ => destruct c eqn:?
      | |- (match ?o with Some _ => _ | None => _ end) _ = _ -> _ =>
          destruct o eqn:?
      | |- (send_client (Str _) ≫= _) _ = _ -> _ => unfold send_client at 1
      end ].

(** The end of a run: the last step, and the pair it returns. *)
Ltac landed :=
  unfold send_client, emit, put, lift, mret, M_ret;
  intros [= <- <-]; cbn [globals trace].

Section Outcomes.

Context `{PL : PyLib}.
Variable origin : Origin.

Lemma checkBlacklist_outcome (patterns : list pystr) (request : Request)
    (w w' : World) (r : outcome bool) :
  blacklistLock (globals w) = true ->
  checkBlacklist patterns request w = (w', r) ->
  (r = Returns true
   /\ w' = mkWorld (set_lock BlacklistLock false (globals w))
                   (trace w ++ [ToClient reply_403]))
  \/ (r = Returns false /\ w' = w)
  \/ (exists e, r = Raises e /\ w' = w).
Proof.
  intros Hheld. revert w'.
  induction patterns as [|p patterns IH]; intros w'.
  - cbn [checkBlacklist]. landed. right. left. split; [reflexivity | now destruct w].
  - cbn [checkBlacklist]. explore.
    + landed. now left.
    + apply IH.
    + landed. right. right. eexists. split; [reflexivity | now destruct w].
    + landed. right. right. eexists. split; [reflexivity | now destruct w].
Qed.

(** Every run of the blocklist phase. It returns with the lock as it
    found it; an exception inside the loop leaves the lock held; and a
    lock that is held on entry blocks the handler. *)
Lemma blacklistPhase_outcome (request : Request) (w w' : World)
    (r : outcome bool) :
  blacklistPhase request w = (w', r) ->
  (r = Returns true
   /\ blacklistActive (globals w) = true /\ blacklistLock (globals w) = false
   /\ w' = mkWorld (globals w) (trace w ++ [ToClient reply_403]))
  \/ (r = Returns false /\ w' = w)
  \/ (exists e,
        r = Raises e
        /\ blacklistActive (globals w) = true /\ blacklistLock (globals w) = false
        /\ w' = mkWorld (set_lock BlacklistLock true (globals w)) (trace w))
  \/ (r = Blocks
      /\ blacklistActive (globals w) = true /\ blacklistLock (globals w) = true
      /\ w' = w).
Proof.
  unfold blacklistPhase. rewrite bind_get.
  destruct (blacklistActive (globals w)) eqn:Ha.
  2:{ landed. right. left. split; [reflexivity | now destruct w]. }
  rewrite bind_acquire. destruct (locked BlacklistLock (globals w)) eqn:Hl;
    cbn [locked] in Hl.
  { intros [= <- <-]. right. right. right. now repeat split. }
  rewrite bind_get. cbn [globals].
  match goal with
  | |- (checkBlacklist ?l ?rq ≫= ?k) ?w0 = _ -> _ =>
      destruct (checkBlacklist l rq w0) as [w1 [[|]|e|]] eqn:Hcb;
      [rewrite (bind_run _ _ _ _ _ Hcb)
      |rewrite (bind_run _ _ _ _ _ Hcb)
      |rewrite (bind_run_raise _ _ _ _ _ Hcb)
      |rewrite (bind_run_blocks _ _ _ _ Hcb)];
      (apply checkBlacklist_outcome in Hcb; [|reflexivity]);
      destruct Hcb as [[Hr ->]|[[Hr ->]|(e' & Hr & ->)]];
      try discriminate Hr
  end.
  - landed. left. repeat split; try assumption.
    destruct w as [g tr]. cbn [globals trace] in *.
    apply (f_equal2 mkWorld); [|reflexivity].
    apply state_eq; locks; congruence.
  - explore. landed. right. left. split; [reflexivity|].
    destruct w as [g tr]. cbn [globals trace] in *.
    apply (f_equal2 mkWorld); [|reflexivity].
    apply state_eq; locks; congruence.
  - intros [= <- <-]. right. right. left. exists e. now repeat split.
Qed.

Lemma expect_ok {A} (e : exn) (v : option A) (a : A) :
  expect e v = Ok a -> v = Some a.
Proof. destruct v; [now intros [= ->] | discriminate]. Qed.

(** Every run of [handleRequest]: what the client sees of it, and what it
    can have done to the process state. *)
Lemma handleRequest_outcome (request : Request) (w w' : World)
    (r : outcome unit) :
  handleRequest origin request w = (w', r) ->
  match r with
  | Returns _ => exists d,
      client_side (trace w') = client_side (trace w) ++ [ToClient d]
  | Raises _ | Blocks => client_side (trace w') = client_side (trace w)
  end
  /\ blacklist (globals w') = blacklist (globals w)
  /\ cacheActive (globals w') = cacheActive (globals w)
  /\ blacklistActive (globals w') = blacklistActive (globals w)
  /\ cacheLock (globals w') = cacheLock (globals w)
  /\ (blacklistLock (globals w') = blacklistLock (globals w)
      \/ blacklistActive (globals w) = true
         /\ blacklistLock (globals w) = false
         /\ (exists e, r = Raises e)
         /\ w' = mkWorld (set_lock BlacklistLock true (globals w)) (trace w))
  /\ (cache (globals w') = cache (globals w)
      \/ cacheActive (globals w) = true
         /\ exists dest path,
              destination request = Ok dest
              /\ req_path request = Some path
              /\ (cache (globals w') = delete (dest ++ path) (cache (globals w))
                  \/ exists v, cache (globals w')
                               = <[dest ++ path := v]> (cache (globals w)))).
Proof.
  unfold handleRequest.
  destruct (blacklistPhase request w) as [w1 [[|]|e|]] eqn:Hphase;
    [rewrite (bind_run _ _ _ _ _ Hphase)
    |rewrite (bind_run _ _ _ _ _ Hphase)
    |rewrite (bind_run_raise _ _ _ _ _ Hphase)
    |rewrite (bind_run_blocks _ _ _ _ Hphase)];
    apply blacklistPhase_outcome in Hphase;
    destruct Hphase
      as [(Hr & Ha & Hl & ->)
         |[(Hr & ->)|[(e' & Hr & Ha & Hl & ->)|(Hr & Ha & Hl & ->)]]];
    try discriminate Hr; cbv beta iota.
  - landed. rewrite client_side_app. cbn [client_side List.filter].
    repeat split; try reflexivity; [eexists; reflexivity | now left | now left].
  - unfold connect_server, exchange. explore.
    all: landed.
    all: repeat match goal with
                | H : expect _ _ = Ok _ |- _ => apply expect_ok in H
                end.
    all: rewrite ?client_side_app; cbn [client_side List.filter];
         rewrite ?app_nil_r.
    all: locks.
    all: repeat split.
    all: first
           [ reflexivity
           | assumption
           | congruence
           | eexists; reflexivity
           | left; reflexivity
           | left; congruence
           | right; split; [reflexivity|]; do 2 eexists;
             split; [reflexivity|]; split; [eassumption|];
             first [left; reflexivity | right; eexists; reflexivity] ].
  - intros [= <- <-]. cbn [globals trace]. locks.
    repeat split; try reflexivity; [|now left].
    right. repeat split; try assumption. now exists e.
  - intros [= <- <-]. repeat split; try reflexivity; now left.
Qed.

(** A handler that returns has sent the client exactly one reply and then
    closed the connection; a handler that ends with an exception, or that
    waits for a lock for ever, has sent the client nothing and has not
    closed the connection. *)
Theorem one_reply_then_close (address : pystr) (fuel : nat)
    (skt : nat -> bytes) (w w' : World) (r : outcome unit) :
  handleConnection address origin fuel skt w = Some (w', r) ->
  match r with
  | Returns _ => exists d,
      client_side (trace w')
      = client_side (trace w) ++ [ToClient d; CloseClient]
  | Raises _ | Blocks => client_side (trace w') = client_side (trace w)
  end.
Proof.
  unfold handleConnection.
  destruct (clientContact fuel skt 0 []) as [received|]; [|discriminate].
  intros [= H]. revert H. explore; [|now landed|now landed].
  destruct (req_type a0) eqn:Htype; explore.
  - match goal with
    | |- (handleRequest ?o ?rq ≫= ?k) ?w0 = _ -> _ =>
        destruct (handleRequest o rq w0) as [w1 [[]|e|]] eqn:Hrun;
        [rewrite (bind_run _ _ _ _ _ Hrun)
        |rewrite (bind_run_raise _ _ _ _ _ Hrun)
        |rewrite (bind_run_blocks _ _ _ _ Hrun)];
        apply handleRequest_outcome in Hrun as [Hside _]
    end.
    + landed. destruct Hside as [d Hd]. exists d.
      rewrite client_side_app, Hd, <- app_assoc. reflexivity.
    + now landed.
    + now landed.
  - landed. eexists. rewrite <- app_assoc, client_side_app. reflexivity.
  - landed. eexists. rewrite <- app_assoc, client_side_app. reflexivity.
  - match goal with
    | |- (handleCommand ?c ≫= ?k) ?w0 = _ -> _ =>
        destruct (handleCommand c w0) as [w1 [[]|e|]] eqn:Hrun;
        [rewrite (bind_run _ _ _ _ _ Hrun)
        |rewrite (bind_run_raise _ _ _ _ _ Hrun)
        |rewrite (bind_run_blocks _ _ _ _ Hrun)];
        apply handleCommand_frame in Hrun as [Htrace _]
    end.
    + explore. landed. eexists.
      rewrite <- app_assoc, client_side_app, Htrace. reflexivity.
    + landed. now rewrite Htrace.
    + landed. now rewrite Htrace.
  - now landed.
Qed.

End Outcomes.

Section OutcomeTheorems.

Context `{PL : PyLib}.
Variable origin : Origin.
Variable address : pystr.

(** Whatever a request does, [handleRequest] never changes the blocklist
    or the two switches, and it leaves the cache's lock as it found it.
    The blocklist's lock is as before too, with one exception: when an
    exception is raised inside the loop over the blocklist, the handler
    ends with that exception and the lock, which was free, stays held;
    nothing else has changed and nothing was sent. With caching disabled
    the cache is not changed; with caching enabled the only cache entry
    that can change is the one under the request's own key. *)
Theorem handleRequest_state_frame (request : Request) (w w' : World)
    (r : outcome unit) :
  handleRequest origin request w = (w', r) ->
  blacklist (globals w') = blacklist (globals w)
  /\ cacheActive (globals w') = cacheActive (globals w)
  /\ blacklistActive (globals w') = blacklistActive (globals w)
  /\ cacheLock (globals w') = cacheLock (globals w)
  /\ (blacklistLock (globals w') = blacklistLock (globals w)
      \/ blacklistActive (globals w) = true
         /\ blacklistLock (globals w) = false
         /\ (exists e, r = Raises e)
         /\ w' = mkWorld (set_lock BlacklistLock true (globals w)) (trace w))
  /\ (cacheActive (globals w) = false -> cache (globals w') = cache (globals w))
  /\ (forall k,
        (forall dest path,
           destination request = Ok dest -> req_path request = Some path ->
           k <> dest ++ path) ->
        cache (globals w') !! k = cache (globals w) !! k).
Proof.
  intros H.
  apply handleRequest_outcome in H as (_ & Hb & Hc & Ha & Hcl & Hbl & Hcache).
  repeat split; try assumption.
  - intros Hoff. destruct Hcache as [Heq|[Hon _]]; [assumption | congruence].
  - intros k Hk.
    destruct Hcache as [->|(_ & dest & path & Hd & Hp & [->|[v ->]])];
      [reflexivity|..].
    + apply lookup_delete_ne. intros E. now apply (Hk dest path).
    + apply lookup_insert_ne. intros E. now apply (Hk dest path).
Qed.

End OutcomeTheorems.

Lemma one_reply_then_close_witness :
  exists d,
    client_side [Connect example_host 80; ToServer plain_get_with_client_host;
                 ToClient ok_response; CloseClient]
    = client_side [] ++ [ToClient d; CloseClient].
Proof.
  apply (one_reply_then_close (PL := Model.cpython) (serving [ok_response])
           localhost 1 (once example_request)
           (mkWorld (initial false false) [])
           (mkWorld (initial false false)
                    [Connect example_host 80;
                     ToServer plain_get_with_client_host;
                     ToClient ok_response; CloseClient])
           (Returns tt)).
  vm_compute. reflexivity.
Defined.

(** A revalidation answered 404: the entry under the request's key is
    deleted, and nothing else of the state changes. *)
Lemma handleRequest_state_frame_witness :
  let w :=
    mkWorld (mkState {[example_key := dated_entry]} ∅ true false false false)
            [] in
  let w' :=
    mkWorld (mkState ∅ ∅ true false false false)
            [Connect example_host 80; ToServer conditional_get] in
  blacklist (globals w') = blacklist (globals w)
  /\ cacheActive (globals w') = cacheActive (globals w)
  /\ blacklistActive (globals w') = blacklistActive (globals w)
  /\ cacheLock (globals w') = cacheLock (globals w)
  /\ (blacklistLock (globals w') = blacklistLock (globals w)
      \/ blacklistActive (globals w) = true
         /\ blacklistLock (globals w) = false
         /\ (exists e, @Raises unit TypeError = Raises e)
         /\ w' = mkWorld (set_lock BlacklistLock true (globals w)) (trace w))
  /\ (cacheActive (globals w) = false -> cache (globals w') = cache (globals w))
  /\ (forall k,
        (forall dest path,
           destination example_parsed = Ok dest ->
           req_path example_parsed = Some path ->
           k <> dest ++ path) ->
        cache (globals w') !! k = cache (globals w) !! k).
Proof.
  intros w w'.
  apply (handleRequest_state_frame (PL := Model.cpython)
           (serving [not_found_response]) example_parsed w w'
           (Raises TypeError)).
  vm_compute. reflexivity.
Defined.

(** ** Requests that are turned away *)

Section Rejections.

Context `{PL : PyLib}.
Variable origin : Origin.
Variable address : pystr.

Lemma parseRequest_short_line (message : pystr) (rest : list pystr) :
  split 32 message = u "GET" :: rest ->
  (length rest < 2)%nat ->
  parseRequest address message = Ok badreq.
Proof.
  intros E Hlen. unfold parseRequest. rewrite E, getitem_0. rsimpl.
  change (match_method (u "GET")) with false. cbv iota.
  rewrite str_eqb_refl. cbn [negb].
  replace (len (u "GET" :: rest) <? 3) with true; [reflexivity|].
  symmetry. apply Z.ltb_lt. unfold len. cbn [length]. lia.
Qed.

Lemma parseRequest_wrong_version (message url version : pystr)
    (rest : list pystr) :
  split 32 message = u "GET" :: url :: version :: rest ->
  slice_to version 8 <> u "HTTP/1.0" ->
  parseRequest address message = Ok badreq.
Proof.
  intros E Hv. unfold parseRequest. rewrite E, getitem_0, getitem_2. rsimpl.
  change (match_method (u "GET")) with false. cbv iota.
  rewrite str_eqb_refl. cbn [negb].
  replace (len (u "GET" :: url :: version :: rest) <? 3) with false
    by (symmetry; apply Z.ltb_ge; unfold len; cbn [length]; lia).
  rsimpl. apply str_eqb_neq in Hv. rewrite Hv. reflexivity.
Qed.

Lemma parseRequest_incomplete_url (message url version : pystr)
    (rest : list pystr) (splitURL : ParseResult) :
  split 32 message = u "GET" :: url :: version :: rest ->
  slice_to version 8 = u "HTTP/1.0" ->
  urlparse url = Ok splitURL ->
  scheme splitURL = [] \/ netloc splitURL = [] \/ path splitURL = [] ->
  parseRequest address message = Ok badreq.
Proof.
  intros E Hv Hu Hempty.
  rewrite (parseRequest_GET address _ _ _ _ E Hv), Hu. rsimpl.
  destruct Hempty as [ -> | [ -> | -> ] ]; rewrite str_eqb_refl;
    rewrite ?orb_true_r; reflexivity.
Qed.

(** A request whose method starts with the name of an unimplemented
    method is answered with exactly [HTTP/1.0 501 Not Implemented] and a
    blank line, and the connection is closed; the state is untouched and
    no origin is contacted, whatever the rest of the request is. *)
Theorem unimplemented_method_gets_501 (fuel : nat) (skt : nat -> bytes)
    (w : World) (message : pystr) :
  clientContact fuel skt 0 [] = Some (Ok message) ->
  match_method (method_of message) = true ->
  handleConnection address origin fuel skt w
  = Some (mkWorld (globals w)
                  (trace w ++ [ToClient (b "HTTP/1.0 501 Not Implemented"
                                           ++ [x0d; x0a; x0d; x0a]);
                               CloseClient]),
          Returns tt).
Proof.
  intros Hread Hm. unfold handleConnection. rewrite Hread. f_equal.
  rewrite bind_lift_ok, (parseRequest_unimplemented address _ Hm).
  rewrite bind_lift_ok. cbn [req_type notimpl]. rewrite bind_send_bytes.
  unfold emit. cbn [globals trace]. now rewrite <- app_assoc.
Qed.

(** A request line that fails the checks of [parseRequest] is answered
    with exactly [HTTP/1.0 400 Bad Request] and a blank line, and the
    connection is closed, with the state untouched and no origin
    contacted: a method that is neither [GET] nor unimplemented, fewer
    than three tokens, a version that does not begin with [HTTP/1.0], or
    a URL without scheme, network location or path. *)
Theorem malformed_request_line_gets_400 (fuel : nat) (skt : nat -> bytes)
    (w : World) (message : pystr) :
  clientContact fuel skt 0 [] = Some (Ok message) ->
  (method_of message <> u "GET" /\ match_method (method_of message) = false)
  \/ (exists rest,
        split 32 message = u "GET" :: rest /\ (length rest < 2)%nat)
  \/ (exists url version rest,
        split 32 message = u "GET" :: url :: version :: rest
        /\ slice_to version 8 <> u "HTTP/1.0")
  \/ (exists url version rest splitURL,
        split 32 message = u "GET" :: url :: version :: rest
        /\ slice_to version 8 = u "HTTP/1.0"
        /\ urlparse url = Ok splitURL
        /\ (scheme splitURL = [] \/ netloc splitURL = []
            \/ path splitURL = [])) ->
  handleConnection address origin fuel skt w
  = Some (mkWorld (globals w)
                  (trace w ++ [ToClient (b "HTTP/1.0 400 Bad Request"
                                           ++ [x0d; x0a; x0d; x0a]);
                               CloseClient]),
          Returns tt).
Proof.
  intros Hread Hbad.
  assert (Hparse : parseRequest address message = Ok badreq).
  { destruct Hbad as [[Hg Hm]|[(rest & E & Hlen)|[(url & version & rest & E & Hv)
                     |(url & version & rest & splitURL & E & Hv & Hu & He)]]].
    - now apply parseRequest_other_method.
    - now apply (parseRequest_short_line _ rest).
    - now apply (parseRequest_wrong_version _ url version rest).
    - now apply (parseRequest_incomplete_url _ url version rest splitURL). }
  unfold handleConnection. rewrite Hread. f_equal.
  rewrite bind_lift_ok, Hparse, bind_lift_ok. cbn [req_type badreq].
  rewrite bind_send_bytes. unfold emit. cbn [globals trace].
  now rewrite <- app_assoc.
Qed.

(** The loop over an empty blocklist visits nothing, and the loop over a
    blocklist that is not empty visits something, whatever the order. *)
Lemma iteration_empty (s : gset pystr) : iteration s = [] <-> s = ∅.
Proof.
  pose proof (iteration_elements s) as Hperm. split.
  - intros E. rewrite E in Hperm. symmetry in Hperm.
    apply Permutation_nil_r in Hperm.
    apply leibniz_equiv. now apply elements_empty_inv.
  - intros ->. rewrite elements_empty in Hperm.
    now apply Permutation_nil_r in Hperm.
Qed.

(** A request whose URL has no host name (as in [http://:80/x], which
    [parseRequest] passes as [REGULAR] with host [None]) never gets a
    reply. With blocklisting off, or with an empty blocklist,
    [handleRequest] ends with [TypeError] before anything is sent or
    changed. With blocklisting on and a blocklist that is not empty, the
    [TypeError] comes from [request[1] + ':'] inside the loop, after
    [blacklistLock.acquire()]: nothing is sent, and the lock stays held.
    (When the lock is already held, the handler waits for it.) *)
Theorem request_without_host_raises (request : Request) (w : World) :
  req_host request = None ->
  handleRequest origin request w
  = if blacklistActive (globals w) then
      if blacklistLock (globals w) then (w, Blocks)
      else if bool_decide (blacklist (globals w) = ∅)
           then (w, Raises TypeError)
           else (mkWorld (set_lock BlacklistLock true (globals w)) (trace w),
                 Raises TypeError)
    else (w, Raises TypeError).
Proof.
  intros Hh.
  assert (Hdest : destination request = Raise TypeError)
    by (unfold destination; now rewrite Hh).
  assert (Hforward : forall w0,
             handleRequest origin request w0 = (w0, Raises TypeError)
             \/ blacklistActive (globals w0) = true).
  { intros w0. destruct (blacklistActive (globals w0)) eqn:Ha; [now right|left].
    unfold handleRequest, blacklistPhase. rewrite bind_assoc, bind_get, Ha.
    rewrite bind_ret, bind_get. destruct (cacheActive (globals w0)).
    - now rewrite Hdest, bind_lift_raise.
    - unfold connect_server. rewrite Hh. cbn [expect].
      now rewrite bind_assoc, bind_lift_raise. }
  destruct (blacklistActive (globals w)) eqn:Ha.
  2:{ destruct (Hforward w) as [H|H]; [exact H | congruence]. }
  clear Hforward.
  destruct (blacklistLock (globals w)) eqn:Hl.
  { unfold handleRequest, blacklistPhase.
    rewrite bind_assoc, bind_get, Ha, bind_assoc, bind_acquire.
    cbn [locked]. now rewrite Hl. }
  unfold handleRequest, blacklistPhase.
  rewrite bind_assoc, bind_get, Ha, bind_assoc, bind_acquire.
  cbn [locked]. rewrite Hl, bind_assoc, bind_get. locks.
  case_bool_decide as Hempty.
  - assert (Hnone : iteration (blacklist (globals w)) = [])
      by now apply iteration_empty.
    rewrite Hnone. cbn [checkBlacklist].
    repeat progress (autorewrite with handler; locks).
    destruct (cacheActive (globals w)) eqn:Hc.
    + rewrite Hdest, bind_lift_raise. destruct w as [g tr].
      cbn [globals trace] in *. settled.
    + unfold connect_server. rewrite Hh. cbn [expect].
      rewrite bind_assoc, bind_lift_raise. destruct w as [g tr].
      cbn [globals trace] in *. settled.
  - destruct (iteration (blacklist (globals w))) as [|p ps] eqn:Hsome.
    + now apply iteration_empty in Hsome.
    + cbn [checkBlacklist]. rewrite Hdest.
      now rewrite !bind_assoc, bind_lift_raise.
Qed.

Lemma checkBlacklist_uncompilable (patterns : list pystr) (request : Request)
    (dest : pystr) (w : World) :
  destination request = Ok dest ->
  (forall p, p ∈ patterns ->
     re_search p dest = Ok false \/ exists e, re_search p dest = Raise e) ->
  (exists p e, p ∈ patterns /\ re_search p dest = Raise e) ->
  exists e, checkBlacklist patterns request w = (w, Raises e).
Proof.
  intros Hd. induction patterns as [|p patterns IH]; intros Hall Hbad.
  - destruct Hbad as (p & e & Hin & _). inversion Hin.
  - cbn [checkBlacklist]. rewrite Hd, bind_lift_ok.
    destruct (Hall p) as [Hp|[e Hp]]; [left| |]; rewrite Hp.
    + rewrite bind_lift_ok. apply IH.
      * intros q Hq. apply Hall. now right.
      * destruct Hbad as (q & e & Hin & Hq). exists q, e. split; [|exact Hq].
        inversion Hin; subst; [congruence | assumption].
    + exists e. now rewrite bind_lift_raise.
Qed.

(** With blocklisting enabled, one pattern that does not compile makes a
    request that no pattern matches end with the error of [re.search]
    before anything is sent, in whatever order the set is iterated. The
    error is raised inside the loop, so the blocklist's lock, which was
    free, stays held: every request after that one waits for the lock
    for ever, and its client is sent nothing. *)
Theorem uncompilable_pattern_fails_requests (request : Request)
    (dest : pystr) (w : World) :
  blacklistActive (globals w) = true ->
  blacklistLock (globals w) = false ->
  destination request = Ok dest ->
  (forall p, p ∈ blacklist (globals w) ->
     re_search p dest = Ok false \/ exists e, re_search p dest = Raise e) ->
  (exists p e, p ∈ blacklist (globals w) /\ re_search p dest = Raise e) ->
  let held := mkWorld (set_lock BlacklistLock true (globals w)) (trace w) in
  (exists e, handleRequest origin request w = (held, Raises e))
  /\ (forall later, handleRequest origin later held = (held, Blocks)).
Proof.
  intros Ha Hfree Hd Hall Hbad held. split.
  - destruct (checkBlacklist_uncompilable (iteration (blacklist (globals w)))
                request dest held Hd) as [e He].
    + intros p Hp. apply Hall. now apply elem_of_iteration.
    + destruct Hbad as (p & e & Hin & Hp). exists p, e.
      split; [now apply elem_of_iteration | exact Hp].
    + exists e. unfold handleRequest, blacklistPhase.
      rewrite bind_assoc, bind_get, Ha, bind_assoc, bind_acquire.
      cbn [locked]. rewrite Hfree, bind_assoc, bind_get. locks.
      fold held. now rewrite !bind_assoc, (bind_run_raise _ _ _ _ _ He).
  - intros later. apply handleRequest_blocks; [exact Ha | reflexivity].
Qed.

End Rejections.

(** ** The further properties at concrete requests *)

(** Discharging the side conditions of a concrete run. *)
Ltac concrete :=
  first [ reflexivity
        | vm_compute; reflexivity
        | intros H; discriminate H
        | vm_compute; intros H; discriminate H
        | vm_compute; intuition discriminate ].

Lemma uncached_response_relayed_verbatim_witness :
  handleRequest (PL := Model.cpython) (serving [binary_response]) bare_parsed
                (mkWorld (initial false false) [])
  = (mkWorld (initial false false)
             ([] ++ [Connect example_host 80; ToServer plain_get;
                     ToClient (serverContact
                                 (reply (serving [binary_response])
                                        example_host 80 plain_get) [])]),
     Returns tt).
Proof.
  eapply (uncached_response_relayed_verbatim (PL := Model.cpython)); concrete.
Defined.

Lemma cache_miss_stores_iff_200_OK_witness :
  exists g',
    handleRequest (PL := Model.cpython) (serving [ok_response]) bare_parsed
                  (mkWorld (initial true false) [])
    = (mkWorld g' ([] ++ [Connect example_host 80; ToServer plain_get;
                          ToClient (serverContact
                                      (reply (serving [ok_response])
                                             example_host 80 plain_get) [])]),
       Returns tt)
    /\ (find (u "HTTP/1.0 200 OK" ++ CRLF ++ CRLF) (u "200 OK") <> -1 ->
        cache g' !! cache_key example_host 80 (u "/")
        = Some (u "HTTP/1.0 200 OK" ++ CRLF ++ CRLF))
    /\ (find (u "HTTP/1.0 200 OK" ++ CRLF ++ CRLF) (u "200 OK") = -1 ->
        g' = initial true false).
Proof.
  eapply (cache_miss_stores_iff_200_OK (PL := Model.cpython)); concrete.
Defined.

Lemma revalidation_without_304_updates_cache_then_raises_witness :
  exists g',
    handleRequest (PL := Model.cpython) (serving [not_found_response])
                  bare_parsed (mkWorld (caching_with dated_entry) [])
    = (mkWorld g' ([] ++ [Connect example_host 80; ToServer conditional_get]),
       Raises TypeError)
    /\ cache g' !! cache_key example_host 80 (u "/")
       = (if find (u "HTTP/1.0 404 Not Found" ++ CRLF ++ CRLF) (u "200 OK") =? -1
          then None
          else Some (u "HTTP/1.0 404 Not Found" ++ CRLF ++ CRLF))
    /\ (forall k, k <> cache_key example_host 80 (u "/") ->
        cache g' !! k = cache (caching_with dated_entry) !! k)
    /\ cacheLock g' = false.
Proof.
  eapply (revalidation_without_304_updates_cache_then_raises
            (PL := Model.cpython)); concrete.
Defined.

Lemma refused_connection_propagates_witness :
  handleRequest (PL := Model.cpython) refusing bare_parsed
                (mkWorld (initial true false) [])
  = (mkWorld (initial true false) ([] ++ [Connect example_host 80]),
     Raises OSError).
Proof.
  eapply (refused_connection_propagates (PL := Model.cpython)); concrete.
Defined.

(** [blocklist/add] without a pattern: [IndexError], and the blocklist's
    lock is left held. *)
Lemma handleCommand_failures_and_locks_witness :
  let w := mkWorld (initial false false) [] in
  let w' := mkWorld (set_lock BlacklistLock true (initial false false)) [] in
  trace w' = trace w
  /\ cacheLock (globals w') = cacheLock (globals w)
  /\ (IndexError = IndexError
      /\ (w' = w
          \/ exists action,
               split 47 (u "blocklist/add") = [u "blocklist"; action]
               /\ (action = u "add" \/ action = u "remove")
               /\ blacklistLock (globals w) = false
               /\ w' = mkWorld (set_lock BlacklistLock true (globals w))
                               (trace w))).
Proof.
  intros w w'.
  apply (handleCommand_failures_and_locks (u "blocklist/add") w w'
           (Raises IndexError)).
  vm_compute. reflexivity.
Defined.

Lemma unimplemented_method_gets_501_witness :
  handleConnection (PL := Model.cpython) localhost (serving []) 1
    (once (b "POSTAL /x HTTP/1.0" ++ bCRLF ++ bCRLF))
    (mkWorld (initial true true) [])
  = Some (mkWorld (initial true true)
                  ([] ++ [ToClient (b "HTTP/1.0 501 Not Implemented"
                                      ++ [x0d; x0a; x0d; x0a]);
                          CloseClient]),
          Returns tt).
Proof.
  apply (unimplemented_method_gets_501 (PL := Model.cpython) (serving [])
           localhost 1 (once (b "POSTAL /x HTTP/1.0" ++ bCRLF ++ bCRLF))
           (mkWorld (initial true true) [])
           (u "POSTAL /x HTTP/1.0" ++ CRLF ++ CRLF)); concrete.
Defined.

Lemma malformed_request_line_gets_400_witness :
  handleConnection (PL := Model.cpython) localhost (serving []) 1
    (once (b "GET http://example.com/ HTTP/1.1" ++ bCRLF ++ bCRLF))
    (mkWorld (initial true true) [])
  = Some (mkWorld (initial true true)
                  ([] ++ [ToClient (b "HTTP/1.0 400 Bad Request"
                                      ++ [x0d; x0a; x0d; x0a]);
                          CloseClient]),
          Returns tt).
Proof.
  apply (malformed_request_line_gets_400 (PL := Model.cpython) (serving [])
           localhost 1
           (once (b "GET http://example.com/ HTTP/1.1" ++ bCRLF ++ bCRLF))
           (mkWorld (initial true true) [])
           (u "GET http://example.com/ HTTP/1.1" ++ CRLF ++ CRLF)).
  - vm_compute. reflexivity.
  - right. right. left.
    exists (u "http://example.com/"), (u "HTTP/1.1" ++ CRLF ++ CRLF), [].
    split; [vm_compute; reflexivity | vm_compute; intros H; discriminate H].
Defined.

(** A request without a host, with one pattern in the blocklist and
    blocklisting enabled: [TypeError], and the blocklist's lock is left
    held. *)
Lemma request_without_host_raises_witness :
  handleRequest (PL := Model.cpython) (serving [ok_response])
    (mkRequest REGULAR None (Some 80) (Some (u "/x")) (Some []))
    (mkWorld (blocking {[u "example\.com"]}) [])
  = (mkWorld (set_lock BlacklistLock true (blocking {[u "example\.com"]})) [],
     Raises TypeError).
Proof.
  rewrite (request_without_host_raises (PL := Model.cpython)) by reflexivity.
  vm_compute. reflexivity.
Defined.

Lemma uncompilable_pattern_fails_requests_witness :
  let w := mkWorld (blocking {[u "("]}) [] in
  let held := mkWorld (set_lock BlacklistLock true (globals w)) (trace w) in
  (exists e,
     handleRequest (PL := Model.cpython) (serving [ok_response]) bare_parsed w
     = (held, Raises e))
  /\ (forall later,
        handleRequest (PL := Model.cpython) (serving [ok_response]) later held
        = (held, Blocks)).
Proof.
  intros w.
  apply (uncompilable_pattern_fails_requests (PL := Model.cpython)
           (serving [ok_response]) bare_parsed (u "example.com:80") w).
  - reflexivity.
  - reflexivity.
  - vm_compute. reflexivity.
  - intros p Hp. cbn [w globals blocking blacklist] in Hp.
    apply elem_of_singleton in Hp. subst p. right. exists ReError.
    vm_compute. reflexivity.
  - exists (u "("), ReError. split; vm_compute; reflexivity.
Defined.

Lemma cached_response_replayed_witness :
  let fetched :=
    serverContact (reply (serving [b "HTTP/1.0 200 OK" ++ bCRLF
                                     ++ b "Last-Modified: Tue" ++ bCRLF ++ bCRLF
                                     ++ b "body"])
                         example_host 80 plain_get) [] in
  let g1 :=
    set_cache (<[cache_key example_host 80 (u "/")
                 := u "HTTP/1.0 200 OK" ++ CRLF ++ u "Last-Modified: Tue"
                      ++ CRLF ++ CRLF ++ u "body"]>
                 (cache (initial true false)))
              (initial true false) in
  handleRequest (PL := Model.cpython)
    (serving [b "HTTP/1.0 200 OK" ++ bCRLF ++ b "Last-Modified: Tue" ++ bCRLF
                ++ bCRLF ++ b "body"])
    bare_parsed (mkWorld (initial true false) [])
  = (mkWorld g1 ([] ++ [Connect example_host 80; ToServer plain_get;
                        ToClient fetched]),
     Returns tt)
  /\ handleRequest (PL := Model.cpython)
       (serving [b "HTTP/1.0 304 Not Modified" ++ bCRLF ++ bCRLF])
       bare_parsed (mkWorld g1 [])
     = (mkWorld g1 ([] ++ [Connect example_host 80;
                           ToServer (b "GET / HTTP/1.0" ++ bCRLF
                                       ++ b "Host: example.com" ++ bCRLF
                                       ++ b "Connection: close" ++ bCRLF
                                       ++ b "If-Modified-Since: Tue" ++ bCRLF
                                       ++ bCRLF);
                           ToClient fetched]),
        Returns tt).
Proof.
  eapply (cached_response_replayed (PL := Model.cpython)
            (serving [b "HTTP/1.0 200 OK" ++ bCRLF ++ b "Last-Modified: Tue"
                        ++ bCRLF ++ bCRLF ++ b "body"])
            (serving [b "HTTP/1.0 304 Not Modified" ++ bCRLF ++ bCRLF]));
    concrete.
Defined.

(** ** What [parseRequest] returns *)

Lemma firstn_startswith (s p : pystr) :
  firstn (length p) s = p -> startswith s p = true.
Proof.
  revert s. induction p as [|c p IH]; intros s H; [apply startswith_nil|].
  destruct s as [|d s]; [discriminate|]. cbn in H. injection H as -> H.
  cbn. rewrite N.eqb_refl. now apply IH.
Qed.

Section ParserOutcomes.

Context `{PL : PyLib}.
Variable address : pystr.

(** Every result of [parseRequest], with where it comes from. *)
Lemma parseRequest_outcome (message : pystr) (r : Request) :
  parseRequest address message = Ok r ->
  r = notimpl \/ r = badreq
  \/ exists url version rest splitURL explicit,
       split 32 message = u "GET" :: url :: version :: rest
       /\ urlparse url = Ok splitURL
       /\ path splitURL <> []
       /\ port splitURL = Ok explicit
       /\ ((startswith (path splitURL) (u "/proxy/") = true
            /\ hostname splitURL = Some address
            /\ r = mkRequest COMMAND None None
                             (Some (slice_from (path splitURL) 7)) (Some []))
           \/ exists headers,
                parseHeaders (header_lines (version :: rest)) [] = Ok (Some headers)
                /\ r = mkRequest REGULAR (hostname splitURL)
                                 (Some (match explicit with
                                        | Some p => p
                                        | None => 80
                                        end))
                                 (Some (path splitURL)) (Some headers)).
Proof.
  intros H.
  destruct (match_method (method_of message)) eqn:Hm.
  { rewrite (parseRequest_unimplemented address _ Hm) in H. left. congruence. }
  destruct (str_eqb (method_of message) (u "GET")) eqn:Hg.
  2:{ apply str_eqb_neq in Hg.
      rewrite (parseRequest_other_method address _ Hm Hg) in H.
      right. left. congruence. }
  apply str_eqb_eq in Hg. destruct (split_method message) as [rest E].
  rewrite Hg in E. destruct rest as [|url [|version rest]].
  1,2: rewrite (parseRequest_short_line address _ _ E) in H
         by (cbn [length]; lia); right; left; congruence.
  destruct (str_eqb (slice_to version 8) (u "HTTP/1.0")) eqn:Hv.
  2:{ apply str_eqb_neq in Hv.
      rewrite (parseRequest_wrong_version address _ _ _ _ E Hv) in H.
      right. left. congruence. }
  apply str_eqb_eq in Hv. rewrite (parseRequest_GET address _ _ _ _ E Hv) in H.
  destruct (urlparse url) as [splitURL|e] eqn:Hu; [|discriminate H].
  cbn [mbind result_bind] in H.
  destruct (str_eqb (scheme splitURL) [] || str_eqb (netloc splitURL) []
            || str_eqb (path splitURL) []) eqn:Hempty.
  { right. left. congruence. }
  apply orb_false_iff in Hempty as [_ Hp]. apply str_eqb_neq in Hp.
  destruct (port splitURL) as [explicit|e] eqn:Hport; [|discriminate H].
  cbn [mbind result_bind] in H.
  destruct (str_eqb (slice_to (path splitURL) 7) (u "/proxy/")
            && bool_decide (hostname splitURL = Some address)) eqn:Hcmd.
  - right. right. exists url, version, rest, splitURL, explicit.
    repeat split; try assumption. left.
    apply andb_true_iff in Hcmd as [Hpre Hhost].
    apply str_eqb_eq in Hpre. apply bool_decide_eq_true in Hhost.
    rewrite (slice_to_firstn _ 7) in Hpre.
    split; [now apply (firstn_startswith _ (u "/proxy/"))|].
    split; [assumption | congruence].
  - fold (header_lines (version :: rest)) in H.
    destruct (parseHeaders (header_lines (version :: rest)) [])
      as [[headers|]|e] eqn:Hh; cbn [mbind result_bind] in H.
    + right. right. exists url, version, rest, splitURL, explicit.
      repeat split; try assumption. right.
      exists headers. split; [exact Hh | congruence].
    + right. left. congruence.
    + discriminate H.
Qed.

End ParserOutcomes.

(** *** The header mapping *)

Lemma dict_set_keys (d : dict) (k v x : pystr) :
  In x (map fst (dict_set d k v)) -> In x (map fst d) \/ x = k.
Proof.
  induction d as [|[k' v'] d IH]; cbn [dict_set].
  - cbn. intros [<-|[]]. now right.
  - destruct (str_eqb k' k); cbn [map fst In].
    + tauto.
    + intros [<-|Hin]; [tauto|]. apply IH in Hin. tauto.
Qed.

Lemma dict_set_NoDup (d : dict) (k v : pystr) :
  List.NoDup (map fst d) -> List.NoDup (map fst (dict_set d k v)).
Proof.
  induction d as [|[k' v'] d IH]; cbn [dict_set]; intros Hd.
  - cbn. constructor; [intros [] | constructor].
  - inversion Hd as [|? ? Hnotin Hrest]; subst.
    destruct (str_eqb k' k) eqn:E; cbn [map fst].
    + now constructor.
    + constructor; [|now apply IH].
      intros Hin. apply dict_set_keys in Hin as [Hin| ->]; [contradiction|].
      now rewrite str_eqb_refl in E.
Qed.

Lemma dict_set_well_formed (d : dict) (k v : pystr) :
  Forall well_formed_header d -> well_formed_header (k, v) ->
  Forall well_formed_header (dict_set d k v).
Proof.
  intros Hd Hkv. induction Hd as [|[k' v'] d Hwf Hd IH]; cbn [dict_set].
  - constructor; [exact Hkv | constructor].
  - destruct (str_eqb k' k) eqn:E.
    + apply str_eqb_eq in E. subst k'. constructor; [|assumption].
      split; [apply Hwf | apply Hkv].
    + now constructor.
Qed.

(** The header loop keeps the mapping a dictionary of well-formed
    headers. *)
Lemma parseHeaders_invariant (messageHeaders : list pystr) :
  forall headers headers' : dict,
    Forall well_formed_header headers ->
    List.NoDup (map fst headers) ->
    parseHeaders messageHeaders headers = Ok (Some headers') ->
    Forall well_formed_header headers' /\ List.NoDup (map fst headers').
Proof.
  induction messageHeaders as [|message rest IH]; intros headers headers' Hwf Hnd.
  - cbn [parseHeaders]. intros [= <-]. now split.
  - cbn [parseHeaders].
    destruct (str_eqb message [] || str_eqb message (u " ")
              || str_eqb message (u "HTTP/1.0")); [now apply IH|].
    destruct (match_header_name (slice_to message (find message (u ":"))))
      eqn:Hname; cbn [mbind result_bind]; [|discriminate].
    destruct (getitem message (find message (u ":") + 1)) as [c|e];
      cbn [mbind result_bind]; [|discriminate].
    destruct ((c =? 32)%N && match_header_data _) eqn:Hvalid; [|discriminate].
    apply andb_true_iff in Hvalid as [_ Hdata].
    apply IH.
    + apply dict_set_well_formed; [assumption | now split].
    + now apply dict_set_NoDup.
Qed.

Section ParserInvariants.

Context `{PL : PyLib}.
Variable address : pystr.

(** A request is classified [COMMAND] only when its URL names the proxy's
    own address as host and its path begins with [/proxy/]; the command
    path is the rest of the path, and nothing else of the request is
    kept. In particular a request for any other host never reaches the
    command processor. *)
Theorem command_only_for_own_address (message : pystr) (r : Request) :
  parseRequest address message = Ok r ->
  req_type r = COMMAND ->
  exists url version rest splitURL,
    split 32 message = u "GET" :: url :: version :: rest
    /\ urlparse url = Ok splitURL
    /\ hostname splitURL = Some address
    /\ startswith (path splitURL) (u "/proxy/") = true
    /\ r = mkRequest COMMAND None None (Some (slice_from (path splitURL) 7))
                     (Some []).
Proof.
  intros H Htype.
  apply parseRequest_outcome in H
    as [->|[->|(url & version & rest & splitURL & explicit & E & Hu & _ & _ & Hr)]];
    [discriminate Htype | discriminate Htype |].
  destruct Hr as [(Hpre & Hhost & ->)|(headers & _ & ->)]; [|discriminate Htype].
  now exists url, version, rest, splitURL.
Qed.

(** A [REGULAR] request always carries a port, a non-empty path and a
    header mapping whose names and values all passed the header checks
    and whose names are pairwise different. Its host is whatever
    [urlparse] gave, which can be [None]. *)
Theorem regular_request_well_formed (message : pystr) (r : Request) :
  parseRequest address message = Ok r ->
  req_type r = REGULAR ->
  exists port path headers,
    req_port r = Some port
    /\ req_path r = Some path /\ path <> []
    /\ req_headers r = Some headers
    /\ Forall well_formed_header headers
    /\ List.NoDup (map fst headers).
Proof.
  intros H Htype.
  apply parseRequest_outcome in H
    as [->|[->|(url & version & rest & splitURL & explicit & E & Hu & Hp & _ & Hr)]];
    [discriminate Htype | discriminate Htype |].
  destruct Hr as [(_ & _ & ->)|(headers & Hh & ->)]; [discriminate Htype|].
  apply parseHeaders_invariant in Hh as [Hwf Hnd];
    [|constructor|constructor].
  eexists _, _, headers. cbn [req_port req_path req_headers].
  repeat split; [exact Hp | exact Hwf | exact Hnd].
Qed.

End ParserInvariants.

Lemma command_only_for_own_address_witness :
  exists url version rest splitURL,
    split 32 (u "GET http://localhost:9/proxy/cache/flush HTTP/1.0" ++ CRLF ++ CRLF)
    = u "GET" :: url :: version :: rest
    /\ urlparse (PyLib := Model.cpython) url = Ok splitURL
    /\ hostname splitURL = Some localhost
    /\ startswith (path splitURL) (u "/proxy/") = true
    /\ mkRequest COMMAND None None (Some (u "cache/flush")) (Some [])
       = mkRequest COMMAND None None (Some (slice_from (path splitURL) 7))
                   (Some []).
Proof.
  apply (command_only_for_own_address (PL := Model.cpython) localhost
           (u "GET http://localhost:9/proxy/cache/flush HTTP/1.0" ++ CRLF ++ CRLF)
           (mkRequest COMMAND None None (Some (u "cache/flush")) (Some [])));
    concrete.
Defined.

Lemma regular_request_well_formed_witness :
  exists port path headers,
    req_port example_parsed = Some port
    /\ req_path example_parsed = Some path /\ path <> []
    /\ req_headers example_parsed = Some headers
    /\ Forall well_formed_header headers
    /\ List.NoDup (map fst headers).
Proof.
  apply (regular_request_well_formed (PL := Model.cpython) localhost
           (u "GET http://example.com/ HTTP/1.0" ++ CRLF ++ u "Host: example.com"
              ++ CRLF ++ CRLF)
           example_parsed); concrete.
Defined.

(** *** Single header lines *)

Lemma find_from_absent (s : pystr) (c : N) (i : Z) :
  ~ In c s -> find_from s [c] i = -1.
Proof.
  revert i. induction s as [|d s IH]; intros i Hs; [reflexivity|].
  cbn [find_from startswith].
  destruct (N.eqb_spec c d) as [->|_]; [exfalso; apply Hs; now left|].
  cbn [andb]. apply IH. intros Hin. apply Hs. now right.
Qed.

Lemma slice_to_minus_one {A} (s : list A) :
  slice_to s (-1) = firstn (length s - 1) s.
Proof.
  unfold slice_to, clamp, len. change (-1 <? 0) with true. cbv iota.
  f_equal. lia.
Qed.

(** A header line without a colon is never accepted and never raises: the
    whole request is [BADREQ]. (The name would be the line without its
    last character and the separator the line's first character, which
    cannot be a space when the name is well formed.) *)
Theorem header_line_without_colon_rejected (message : pystr)
    (rest : list pystr) (headers : dict) :
  ~ In 58%N message ->
  message <> [] -> message <> u " " -> message <> u "HTTP/1.0" ->
  parseHeaders (message :: rest) headers = Ok None.
Proof.
  intros Hcolon H1 H2 H3. cbn [parseHeaders].
  apply str_eqb_neq in H1 as ->, H2 as ->, H3 as ->. cbn [orb].
  unfold find. change (u ":") with [58%N].
  rewrite (find_from_absent _ 58 0 Hcolon).
  change (-1 + 1) with 0. rewrite slice_to_minus_one.
  destruct message as [|c0 [|c1 t]]; [reflexivity|reflexivity|].
  rewrite getitem_0. cbn [length Nat.sub firstn match_header_name].
  destruct (is_name_char c0) eqn:Hc0; [|reflexivity].
  destruct (name_rest _); [|reflexivity].
  cbn [andb mbind result_bind].
  destruct (N.eqb_spec c0 32) as [->|_]; [discriminate Hc0 | reflexivity].
Qed.

Lemma header_line_without_colon_rejected_witness :
  parseHeaders [u "Host example.com"; u "Accept: text"] [] = Ok None.
Proof.
  apply header_line_without_colon_rejected; concrete.
Defined.


(** The line [buildMessage] writes for a well-formed header is read back
    by the header loop as that header. *)
Lemma parseHeaders_header_line (k v : pystr) (rest : list pystr) (acc : dict) :
  well_formed_header (k, v) ->
  parseHeaders (header_line (k, v) :: rest) acc
  = parseHeaders rest (dict_set acc k v).
Proof.
  intros [Hk Hv]. cbn [fst snd] in Hk, Hv.
  pose proof (match_header_name_no_colon _ Hk) as Hcolon.
  unfold header_line. cbn [fst snd].
  change (k ++ u ": " ++ v) with (k ++ 58%N :: 32%N :: v).
  assert (Hskip : forall t, ~ In 58%N t ->
                       str_eqb (k ++ 58%N :: 32%N :: v) t = false).
  { intros t Ht. apply str_eqb_neq. intros E. apply Ht. rewrite <- E.
    apply in_or_app. right. now left. }
  cbn [parseHeaders].
  rewrite !Hskip by (vm_compute; intuition discriminate). cbn [orb].
  assert (Hfind : find (k ++ 58%N :: 32%N :: v) (u ":") = len k).
  { unfold find. change (u ":") with [58%N].
    now rewrite (find_from_first k (32%N :: v) 58 0 Hcolon). }
  assert (Hname : slice_to (k ++ 58%N :: 32%N :: v) (len k) = k).
  { unfold len. rewrite slice_to_firstn.
    now rewrite firstn_app, Nat.sub_diag, firstn_all, app_nil_r. }
  assert (Hsep : getitem (k ++ 58%N :: 32%N :: v) (len k + 1) = Ok 32%N).
  { unfold getitem, len.
    destruct (Z.ltb_spec (Z.of_nat (length k) + 1) 0); [lia|].
    destruct (Z.ltb_spec (Z.of_nat (length k) + 1) 0); [lia|].
    replace (Z.to_nat (Z.of_nat (length k) + 1)) with (length k + 1)%nat by lia.
    rewrite nth_error_app2 by lia.
    replace (length k + 1 - length k)%nat with 1%nat by lia. reflexivity. }
  assert (Hdata : slice_from (k ++ 58%N :: 32%N :: v) (len k + 2) = v).
  { unfold len.
    replace (Z.of_nat (length k) + 2) with (Z.of_nat (length k + 2)) by lia.
    rewrite slice_from_skipn by (rewrite length_app; cbn [length]; lia).
    rewrite skipn_app, skipn_all2 by lia.
    replace (length k + 2 - length k)%nat with 2%nat by lia. reflexivity. }
  rewrite Hfind, Hname, Hk, Hsep, Hdata. cbn [mbind result_bind].
  rewrite N.eqb_refl, Hv. reflexivity.
Qed.



(** ** The rebuilt request *)

Lemma startswith_app (p s : pystr) : startswith (p ++ s) p = true.
Proof.
  induction p as [|c p IH]; [apply startswith_nil|].
  cbn. now rewrite N.eqb_refl.
Qed.

Lemma endswith_app (s p : pystr) : endswith (s ++ p) p = true.
Proof. unfold endswith. rewrite rev_app_distr. apply startswith_app. Qed.

(** The loop of [buildMessage], as the list of lines it appends. *)
Lemma buildMessage_loop (items : dict) (acc : pystr) :
  fold_left (fun headers '(key, value) =>
               if str_eqb key (u "Connection") then headers
               else headers ++ key ++ u ": " ++ value ++ CRLF)
            items acc
  = acc ++ concat (map (fun kv => header_line kv ++ CRLF)
                       (forwarded_headers items)).
Proof.
  revert acc. induction items as [|[key value] items IH]; intros acc.
  - cbn [fold_left forwarded_headers List.filter map concat].
    symmetry. apply app_nil_r.
  - cbn [fold_left forwarded_headers List.filter fst]. rewrite IH.
    destruct (str_eqb key (u "Connection")); cbn [negb]; [reflexivity|].
    cbn [map concat]. unfold header_line at 2. cbn [fst snd].
    unfold forwarded_headers. now rewrite <- !app_assoc.
Qed.

(** Lines that each end with CR LF, after a text that ends with CR LF,
    give a text that ends with CR LF. *)
Lemma lines_end_with_CRLF (lines : list pystr) (x : pystr) :
  exists y,
    x ++ CRLF ++ concat (map (fun line => line ++ CRLF) lines) = y ++ CRLF.
Proof.
  revert x. induction lines as [|line lines IH]; intros x.
  - exists x. cbn [map concat]. now rewrite app_nil_r.
  - destruct (IH (x ++ CRLF ++ line)) as [y Hy]. exists y.
    rewrite <- Hy. cbn [map concat]. now rewrite <- !app_assoc.
Qed.

(** The request [buildMessage] writes is the request line for the path,
    the proxy's own [Host] and [Connection: close] lines, then one line
    [Name: value] for each client header in the order of the mapping,
    leaving out exactly the headers named [Connection] (in that
    spelling), then an empty line. It always ends with the blank line
    that ends a request. *)
Theorem buildMessage_shape (request : Request) (host path : pystr)
    (headers : dict) :
  req_host request = Some host ->
  req_path request = Some path ->
  req_headers request = Some headers ->
  exists message,
    buildMessage request = Ok message
    /\ message
       = u "GET " ++ path ++ u " HTTP/1.0" ++ CRLF ++ u "Host: " ++ host ++ CRLF
           ++ u "Connection: close" ++ CRLF
           ++ concat (map (fun kv => header_line kv ++ CRLF)
                          (forwarded_headers headers))
           ++ CRLF
    /\ endswith message (CRLF ++ CRLF) = true.
Proof.
  intros Hh Hp Hhs. eexists. split; [|split].
  - unfold buildMessage. rewrite Hp, Hh, Hhs. cbn [expect mbind result_bind].
    rewrite buildMessage_loop. cbn [app]. reflexivity.
  - now rewrite <- !app_assoc.
  - destruct (lines_end_with_CRLF (map header_line (forwarded_headers headers))
                (u "GET " ++ path ++ u " HTTP/1.0" ++ CRLF ++ u "Host: " ++ host
                   ++ CRLF ++ u "Connection: close")) as [y Hy].
    rewrite map_map in Hy.
    match goal with
    | |- endswith ?m _ = true => replace m with (y ++ CRLF ++ CRLF)
    end; [apply endswith_app|].
    rewrite app_assoc, <- Hy. now rewrite <- !app_assoc.
Qed.

Lemma buildMessage_shape_witness :
  exists message,
    buildMessage (mkRequest REGULAR (Some example_host) (Some 80) (Some (u "/"))
                    (Some [(u "Connection", u "keep-alive");
                           (u "connection", u "keep-alive");
                           (u "Accept", u "text/html")]))
    = Ok message
    /\ message
       = u "GET " ++ u "/" ++ u " HTTP/1.0" ++ CRLF ++ u "Host: " ++ example_host
           ++ CRLF ++ u "Connection: close" ++ CRLF
           ++ concat (map (fun kv => header_line kv ++ CRLF)
                          (forwarded_headers
                             [(u "Connection", u "keep-alive");
                              (u "connection", u "keep-alive");
                              (u "Accept", u "text/html")]))
           ++ CRLF
    /\ endswith message (CRLF ++ CRLF) = true.
Proof.
  apply (buildMessage_shape
           (mkRequest REGULAR (Some example_host) (Some 80) (Some (u "/"))
              (Some [(u "Connection", u "keep-alive");
                     (u "connection", u "keep-alive");
                     (u "Accept", u "text/html")]))
           example_host (u "/")); reflexivity.
Defined.

(** ** Framing *)

Lemma serverContact_stops (chunks later : list bytes) (acc : bytes) :
  Forall (fun chunk => chunk <> []) chunks ->
  serverContact (chunks ++ [] :: later) acc = acc ++ concat chunks.
Proof.
  intros Hchunks. revert acc.
  induction Hchunks as [|chunk chunks Hc _ IH]; intros acc.
  - cbn [app serverContact len length concat Z.of_nat Z.eqb].
    now rewrite app_nil_r.
  - destruct chunk as [|x chunk]; [contradiction|].
    cbn [app serverContact len length concat]. rewrite IH.
    now rewrite <- app_assoc.
Qed.

(** [serverContact] returns all the bytes read before the first
    zero-length read, in order and unchanged, and ignores whatever a
    later read would give. *)
Theorem serverContact_reads_until_empty (chunks later : list bytes) :
  Forall (fun chunk => chunk <> []) chunks ->
  serverContact chunks [] = concat chunks
  /\ serverContact (chunks ++ [] :: later) [] = concat chunks.
Proof.
  intros Hchunks. split.
  - now apply (serverContact_all chunks []).
  - now apply (serverContact_stops chunks later []).
Qed.

Lemma serverContact_reads_until_empty_witness :
  serverContact [b "HTTP/1.0 200 OK"; bCRLF] [] = concat [b "HTTP/1.0 200 OK"; bCRLF]
  /\ serverContact ([b "HTTP/1.0 200 OK"; bCRLF] ++ [] :: [b "late"]) []
     = concat [b "HTTP/1.0 200 OK"; bCRLF].
Proof.
  apply serverContact_reads_until_empty.
  repeat constructor; discriminate.
Defined.

(** Whatever [clientContact] returns ends with the blank line: the parser
    is never handed a partial request. *)
Theorem clientContact_returns_whole_requests (fuel : nat) (skt : nat -> bytes)
    (n : nat) (received message : pystr) :
  clientContact fuel skt n received = Some (Ok message) ->
  endswith message (CRLF ++ CRLF) = true.
Proof.
  revert n received. induction fuel as [|fuel IH]; intros n received;
    cbn [clientContact];
    destruct (endswith received (CRLF ++ CRLF)) eqn:Hend;
    try discriminate; try (intros [= <-]; exact Hend).
  destruct (decode (skt n)) as [text|e]; [apply IH | discriminate].
Qed.

Lemma clientContact_returns_whole_requests_witness :
  endswith (u "GET http://example.com/ HTTP/1.0" ++ CRLF ++ CRLF)
           (CRLF ++ CRLF) = true.
Proof.
  apply (clientContact_returns_whole_requests 3
           (fun n => match n with
                     | O => b "GET http://example.com/"
                     | 1%nat => b " HTTP/1.0" ++ bCRLF
                     | _ => bCRLF
                     end) 0 []).
  vm_compute. reflexivity.
Defined.

Lemma clientContact_pieces (skt : nat -> bytes) (extra : nat)
    (texts : list pystr) :
  forall (n : nat) (received : pystr),
    (forall i text, nth_error texts i = Some text ->
                    decode (skt (n + i)%nat) = Ok text) ->
    (forall j, (j < length texts)%nat ->
               endswith (received ++ concat (firstn j texts)) (CRLF ++ CRLF)
               = false) ->
    endswith (received ++ concat texts) (CRLF ++ CRLF) = true ->
    clientContact (length texts + extra) skt n received
    = Some (Ok (received ++ concat texts)).
Proof.
  induction texts as [|text texts IH]; intros n received Hdec Hpart Hend.
  - cbn [concat] in *. rewrite app_nil_r in *. now apply clientContact_done.
  - cbn [length Nat.add clientContact].
    pose proof (Hpart 0%nat ltac:(cbn [length]; lia)) as H0.
    cbn [firstn concat] in H0. rewrite app_nil_r in H0. rewrite H0.
    pose proof (Hdec 0%nat text eq_refl) as Hd. rewrite Nat.add_0_r in Hd.
    rewrite Hd. cbn [concat]. rewrite app_assoc. apply IH.
    + intros i t Hi. replace (S n + i)%nat with (n + S i)%nat by lia.
      now apply Hdec.
    + intros j Hj. rewrite <- app_assoc.
      apply (Hpart (S j)). cbn [length]. lia.
    + now rewrite <- app_assoc.
Qed.

(** A request that arrives in pieces is put together: when each read
    decodes, and the text read so far first ends with the blank line
    after the last piece, [clientContact] returns the pieces joined, in
    as many reads as there are pieces. *)
Theorem clientContact_joins_pieces (skt : nat -> bytes) (extra : nat)
    (texts : list pystr) :
  (forall i text, nth_error texts i = Some text -> decode (skt i) = Ok text) ->
  (forall j, (j < length texts)%nat ->
             endswith (concat (firstn j texts)) (CRLF ++ CRLF) = false) ->
  endswith (concat texts) (CRLF ++ CRLF) = true ->
  clientContact (length texts + extra) skt 0 [] = Some (Ok (concat texts)).
Proof.
  intros Hdec Hpart Hend.
  now apply (clientContact_pieces skt extra texts 0 []).
Qed.

Lemma clientContact_joins_pieces_witness :
  clientContact (length [u "GET http://example.com/"; u " HTTP/1.0" ++ CRLF; CRLF] + 0)
    (fun n => match n with
              | O => b "GET http://example.com/"
              | 1%nat => b " HTTP/1.0" ++ bCRLF
              | _ => bCRLF
              end) 0 []
  = Some (Ok (concat [u "GET http://example.com/"; u " HTTP/1.0" ++ CRLF; CRLF])).
Proof.
  apply (clientContact_joins_pieces
           (fun n => match n with
                     | O => b "GET http://example.com/"
                     | 1%nat => b " HTTP/1.0" ++ bCRLF
                     | _ => bCRLF
                     end) 0
           [u "GET http://example.com/"; u " HTTP/1.0" ++ CRLF; CRLF]).
  - intros [|[|[|i]]] text Hi; cbn in Hi;
      [injection Hi as <-; vm_compute; reflexivity ..
      |destruct i; discriminate Hi].
  - intros [|[|[|j]]] Hj; cbn [length] in Hj; try lia; vm_compute; reflexivity.
  - vm_compute. reflexivity.
Defined.

Lemma clientContact_cut_short (skt : nat -> bytes) (texts : list pystr) :
  forall (n : nat) (received : pystr) (fuel : nat),
    (forall i text, nth_error texts i = Some text ->
                    decode (skt (n + i)%nat) = Ok text) ->
    (forall j, (j <= length texts)%nat ->
               endswith (received ++ concat (firstn j texts)) (CRLF ++ CRLF)
               = false) ->
    (forall m, (n + length texts <= m)%nat -> skt m = []) ->
    clientContact fuel skt n received = None.
Proof.
  induction texts as [|text texts IH]; intros n received fuel Hdec Hpart Hclosed.
  - apply clientContact_closed_peer.
    + specialize (Hpart 0%nat (Nat.le_refl _)). cbn [firstn concat] in Hpart.
      now rewrite app_nil_r in Hpart.
    + intros m Hm. apply Hclosed. cbn [length]. lia.
  - pose proof (Hpart 0%nat ltac:(lia)) as H0.
    cbn [firstn concat] in H0. rewrite app_nil_r in H0.
    destruct fuel as [|fuel]; cbn [clientContact]; rewrite H0; [reflexivity|].
    pose proof (Hdec 0%nat text eq_refl) as Hd. rewrite Nat.add_0_r in Hd.
    rewrite Hd. apply IH.
    + intros i t Hi. replace (S n + i)%nat with (n + S i)%nat by lia.
      now apply Hdec.
    + intros j Hj. rewrite <- app_assoc.
      apply (Hpart (S j)). cbn [length]. lia.
    + intros m Hm. apply Hclosed. cbn [length]. lia.
Qed.

(** A client that closes before the text it sent ends with the blank
    line keeps the handler reading for ever: however many reads are
    allowed, [handleConnection] has not returned, whatever was sent
    before. The loop has no exit on a zero-length read. *)
Theorem closed_peer_keeps_handler_reading `{PL : PyLib} (address : pystr)
    (origin : Origin) (skt : nat -> bytes) (texts : list pystr) (w : World)
    (fuel : nat) :
  (forall i text, nth_error texts i = Some text -> decode (skt i) = Ok text) ->
  (forall j, (j <= length texts)%nat ->
             endswith (concat (firstn j texts)) (CRLF ++ CRLF) = false) ->
  (forall m, (length texts <= m)%nat -> skt m = []) ->
  handleConnection address origin fuel skt w = None.
Proof.
  intros Hdec Hpart Hclosed. unfold handleConnection.
  now rewrite (clientContact_cut_short skt texts 0 [] fuel).
Qed.

Lemma closed_peer_keeps_handler_reading_witness :
  handleConnection (PL := Model.cpython) localhost (serving []) 100
    (once (b "GET http://example.com/ HTTP/1.0" ++ bCRLF ++ bCRLF ++ b "body"))
    (mkWorld (initial false false) [])
  = None.
Proof.
  apply (closed_peer_keeps_handler_reading (PL := Model.cpython) localhost
           (serving [])
           (once (b "GET http://example.com/ HTTP/1.0" ++ bCRLF ++ bCRLF
                    ++ b "body"))
           [u "GET http://example.com/ HTTP/1.0" ++ CRLF ++ CRLF ++ u "body"]).
  - intros [|i] text Hi; cbn in Hi;
      [injection Hi as <-; vm_compute; reflexivity | destruct i; discriminate Hi].
  - intros [|[|j]] Hj; cbn [length] in Hj; try lia; vm_compute; reflexivity.
  - intros [|m] Hm; cbn [length] in Hm; [lia | reflexivity].
Defined.

(** ** The defects, in general *)

(** Every header line that is a well-formed name followed by a colon and
    nothing else raises [IndexError] in the header loop, also after any
    number of valid header lines and whatever comes after it. *)
Theorem header_line_ending_in_colon_raises (good : dict) (name : pystr)
    (rest : list pystr) :
  Forall well_formed_header good ->
  match_header_name name = true ->
  parseHeaders (map header_line good ++ (name ++ u ":") :: rest) []
  = Raise IndexError.
Proof.
  intros Hgood Hname. generalize (@nil (pystr * pystr)) as acc.
  induction Hgood as [|[k v] good Hkv _ IH]; intros acc.
  - now apply parseHeaders_colon_last.
  - cbn [map app]. rewrite parseHeaders_header_line by exact Hkv. apply IH.
Qed.

Lemma header_line_ending_in_colon_raises_witness :
  parseHeaders (map header_line [(u "Host", u "example.com")]
                  ++ (u "X-Forwarded-For" ++ u ":") :: [u "Accept: text/html"]) []
  = Raise IndexError.
Proof.
  apply header_line_ending_in_colon_raises; [|reflexivity].
  repeat constructor.
Defined.

Section Defects.

Context `{PL : PyLib}.
Variable origin : Origin.

(** Whenever the entry cached for a request's key does not contain
    [Last-Modified:], handling the request connects to the origin and
    then raises [ValueError]: no request is sent, the client gets
    nothing and the entry stays in the cache, so every later request for
    that key fails in the same way until the cache is flushed. The
    cache's lock, taken to read the entry, has been released by then. *)
Theorem entry_without_last_modified_blocks_key (request : Request)
    (host path cachedObject : pystr) (port : Z) (g : ProxyState)
    (tr : list event) :
  req_host request = Some host ->
  req_port request = Some port ->
  req_path request = Some path ->
  unblocked g request ->
  connect origin host port = Ok tt ->
  cacheActive g = true ->
  cacheLock g = false ->
  cache g !! cache_key host port path = Some cachedObject ->
  find cachedObject (u "Last-Modified:") = -1 ->
  handleRequest origin request (mkWorld g tr)
  = (mkWorld g (tr ++ [Connect host port]), Raises ValueError).
Proof.
  intros Hh Hp Hpa Hpass Hc Hon Hfree Hk Hf.
  now apply (handleRequest_no_last_modified origin request host path port g tr
               Hh Hp Hpa Hpass Hc Hfree cachedObject).
Qed.

(** After [cache/flush] (with the cache's lock free) a request whose
    response was cached is fetched afresh with the plain GET of
    [buildMessage], not revalidated, and a response that contains
    [200 OK] is stored again. *)
Theorem flush_forces_plain_fetch (request : Request) (host path : pystr)
    (port : Z) (g : ProxyState) (tr : list event) (message text : pystr)
    (data : bytes) :
  req_host request = Some host ->
  req_port request = Some port ->
  req_path request = Some path ->
  unblocked g request ->
  connect origin host port = Ok tt ->
  cacheActive g = true ->
  cacheLock g = false ->
  buildMessage request = Ok message ->
  encode message = Ok data ->
  decode (serverContact (reply origin host port data) []) = Ok text ->
  find text (u "200 OK") <> -1 ->
  exists w1,
    handleCommand (u "cache/flush") (mkWorld g tr) = (w1, Returns tt)
    /\ handleRequest origin request w1
       = (mkWorld (set_cache {[cache_key host port path := text]} g)
                  (tr ++ [Connect host port; ToServer data;
                          ToClient (serverContact
                                      (reply origin host port data) [])]),
          Returns tt).
Proof.
  intros Hh Hp Hpa Hpass Hc Hon Hfree Hm He Hd H200.
  eexists. split; [now apply handleCommand_cache_flush|]. cbn [globals trace].
  rewrite (handleRequest_miss origin request host path port (set_cache ∅ g) tr
             Hh Hp Hpa Hpass Hc Hfree message text data Hon (lookup_empty _)
             Hm He Hd).
  apply Z.eqb_neq in H200. rewrite H200. cbn [negb]. reflexivity.
Qed.

End Defects.

Lemma entry_without_last_modified_blocks_key_witness :
  handleRequest (PL := Model.cpython) (serving [ok_response]) bare_parsed
    (mkWorld (caching_with undated_entry) [])
  = (mkWorld (caching_with undated_entry) ([] ++ [Connect example_host 80]),
     Raises ValueError).
Proof.
  eapply (entry_without_last_modified_blocks_key (PL := Model.cpython));
    concrete.
Defined.

Lemma flush_forces_plain_fetch_witness :
  exists w1,
    handleCommand (u "cache/flush")
      (mkWorld (caching_with dated_entry) [])
    = (w1, Returns tt)
    /\ handleRequest (PL := Model.cpython) (serving [ok_response]) bare_parsed w1
       = (mkWorld (set_cache {[cache_key example_host 80 (u "/")
                               := u "HTTP/1.0 200 OK" ++ CRLF ++ CRLF]}
                             (caching_with dated_entry))
                  ([] ++ [Connect example_host 80; ToServer plain_get;
                          ToClient (serverContact
                                      (reply (serving [ok_response])
                                             example_host 80 plain_get) [])]),
          Returns tt).
Proof.
  eapply (flush_forces_plain_fetch (PL := Model.cpython)); concrete.
Defined.
